(** * gdrive-mcp: the document tools of [src/server.ts]

    A shallow embedding of the Google Docs tool handlers of the MCP server
    ([readGoogleDoc], [appendToGoogleDoc], [insertText], [deleteRange],
    [applyTextStyle], [applyParagraphStyle], [editTableCell], [findElement],
    [formatMatchingText]) and of the markdown projection helpers, followed by
    the properties the specification states about them.

    Conventions of the embedding.
    - A JavaScript string is a [string]; each [ascii] stands for one UTF-16
      code unit below 256, so [String.length] is [.length].
    - A JavaScript integer is a [Z].  [parseInt] may answer [NaN], which is
      [None].
    - An optional JSON field is an [option]; an [any] object is a record of
      the fields the code reads.  Flags that the code only tests for
      truthiness ([bold], [italic], ...) are [bool].
    - [async] handlers are functions in a state-and-failure monad over the
      state of the remote document service.  [log.*] calls do not influence
      results and are left out. *)

From Stdlib Require Import ZArith String Ascii List Lia Bool.
From Stdlib Require Import Decimal Hexadecimal DecimalString DecimalN.
Import ListNotations.

#[local] Set Warnings "-register-all".


Local Open Scope string_scope.
Local Open Scope Z_scope.

(* ================================================================== *)
(** ** JavaScript built-ins used by the handlers *)
(* ================================================================== *)

Module JS.

(** The line feed, written ['\n'] in the source. *)
Definition LF : ascii := ascii_of_nat 10.
Definition nl : string := String LF "".

(** [WhiteSpace] and [LineTerminator] code units below 256: TAB, LF, VT,
    FF, CR, SP and NBSP.  These are what [trim] and [parseInt] strip. *)
Definition is_ws (c : ascii) : bool :=
  let n := nat_of_ascii c in
  (Nat.eqb n 9 || Nat.eqb n 10 || Nat.eqb n 11 || Nat.eqb n 12
   || Nat.eqb n 13 || Nat.eqb n 32 || Nat.eqb n 160)%bool.

Fixpoint trimStart (s : string) : string :=
  match s with
  | String c r => if is_ws c then trimStart r else s
  | EmptyString => EmptyString
  end.

Fixpoint trimEnd (s : string) : string :=
  match s with
  | String c r =>
      match trimEnd r with
      | EmptyString => if is_ws c then EmptyString else String c EmptyString
      | t => String c t
      end
  | EmptyString => EmptyString
  end.

(** [s.trim()] *)
Definition trim (s : string) : string := trimEnd (trimStart s).

(** Truthiness of a string: every string but [''] is truthy. *)
Definition truthy (s : string) : bool := negb (s =? "")%string.

(** Truthiness of an optional string field: [undefined] and [''] are falsy. *)
Definition truthy_opt (o : option string) : bool :=
  match o with Some s => truthy s | None => false end.

(** Truthiness of a number: [0] is falsy. *)
Definition truthy_num (o : option Z) : bool :=
  match o with Some n => negb (n =? 0) | None => false end.

(** [a || b] on strings. *)
Definition or_else (o : option string) (d : string) : string :=
  match o with
  | Some s => if truthy s then s else d
  | None => d
  end.

(** [s.startsWith(p)] *)
Definition startsWith (s p : string) : bool := String.prefix p s.

Fixpoint drop (n : nat) (s : string) : string :=
  match n, s with
  | S n', String _ r => drop n' r
  | _, _ => s
  end.

(** [s.replace(pat, rep)] with a string pattern: the first occurrence only. *)
Fixpoint replace_first (pat rep s : string) : string :=
  if String.prefix pat s then rep ++ drop (String.length pat) s
  else match s with
       | String c r => String c (replace_first pat rep r)
       | EmptyString => EmptyString
       end.

(** [s.replace(/\n/g, ' ')] *)
Fixpoint replace_nl (s : string) : string :=
  match s with
  | String c r =>
      String (if Ascii.eqb c LF then " "%char else c) (replace_nl r)
  | EmptyString => EmptyString
  end.

Fixpoint repeat_nat (s : string) (n : nat) : string :=
  match n with
  | O => ""
  | S n' => s ++ repeat_nat s n'
  end.

(** [s.substring(0, n)]: the end is clamped to [0 .. s.length]. *)
Definition substring0 (n : Z) (s : string) : string :=
  String.substring 0 (Z.to_nat n) s.

(** [String(n)] for an integer [n] (below [1e21] in magnitude, where
    JavaScript still prints every digit). *)
Definition num (n : Z) : string := NilZero.string_of_int (Z.to_int n).

(** Template rendering of an optional number. *)
Definition num_opt (o : option Z) : string :=
  match o with Some n => num n | None => "undefined" end.

(** *** Numbers that need not be whole

    [z.number()] without [.int()] accepts every number that is not [NaN]:
    whole numbers, numbers with a fractional part and, where the schema does
    not ask for a finite number, the two infinities.  A whole number is kept
    as it is.  Of a number with a fractional part the handlers use the
    greatest whole number below it (for a whole [n], both [n > x] and
    [substring(0, x)] depend on nothing else), the text [String(x)] and the
    text [String(n - x)]; floating-point subtraction and the printing of
    fractions are not modelled, so the two texts are kept with the number. *)
Inductive Number :=
| Whole (z : Z)
| Fractional (floor : Z) (text : string) (rest_text : Z -> string)
| Infinite (negative : bool).

(** Truthiness of a number: only [0] is falsy. *)
Definition number_truthy (x : Number) : bool :=
  match x with
  | Whole z => negb (z =? 0)
  | Fractional _ _ _ | Infinite _ => true
  end.

(** [n > x] for a whole [n]. *)
Definition above (n : Z) (x : Number) : bool :=
  match x with
  | Whole z => z <? n
  | Fractional floor _ _ => floor <? n
  | Infinite negative => negative
  end.

(** [s.substring(0, x)] *)
Definition substring_to (x : Number) (s : string) : string :=
  match x with
  | Whole z => substring0 z s
  | Fractional floor _ _ => substring0 floor s
  | Infinite negative => if negative then "" else s
  end.

(** [String(x)] *)
Definition show (x : Number) : string :=
  match x with
  | Whole z => num z
  | Fractional _ text _ => text
  | Infinite negative => if negative then "-Infinity" else "Infinity"
  end.

(** [String(n - x)] for a whole [n]. *)
Definition show_rest (n : Z) (x : Number) : string :=
  match x with
  | Whole z => num (n - z)
  | Fractional _ _ rest_text => rest_text n
  | Infinite negative => if negative then "Infinity" else "-Infinity"
  end.

(** *** [parseInt] without a radix *)

Definition dec_digit (c : ascii) : option (Decimal.uint -> Decimal.uint) :=
  match c with
  | "0"%char => Some Decimal.D0 | "1"%char => Some Decimal.D1
  | "2"%char => Some Decimal.D2 | "3"%char => Some Decimal.D3
  | "4"%char => Some Decimal.D4 | "5"%char => Some Decimal.D5
  | "6"%char => Some Decimal.D6 | "7"%char => Some Decimal.D7
  | "8"%char => Some Decimal.D8 | "9"%char => Some Decimal.D9
  | _ => None
  end.

Definition hex_digit (c : ascii)
  : option (Hexadecimal.uint -> Hexadecimal.uint) :=
  match c with
  | "0"%char => Some Hexadecimal.D0 | "1"%char => Some Hexadecimal.D1
  | "2"%char => Some Hexadecimal.D2 | "3"%char => Some Hexadecimal.D3
  | "4"%char => Some Hexadecimal.D4 | "5"%char => Some Hexadecimal.D5
  | "6"%char => Some Hexadecimal.D6 | "7"%char => Some Hexadecimal.D7
  | "8"%char => Some Hexadecimal.D8 | "9"%char => Some Hexadecimal.D9
  | "a"%char | "A"%char => Some Hexadecimal.Da
  | "b"%char | "B"%char => Some Hexadecimal.Db
  | "c"%char | "C"%char => Some Hexadecimal.Dc
  | "d"%char | "D"%char => Some Hexadecimal.Dd
  | "e"%char | "E"%char => Some Hexadecimal.De
  | "f"%char | "F"%char => Some Hexadecimal.Df
  | _ => None
  end.

(** The longest prefix of decimal (hexadecimal) digits, as a numeral. *)
Fixpoint dec_prefix (s : string) : Decimal.uint :=
  match s with
  | String c r =>
      match dec_digit c with
      | Some d => d (dec_prefix r)
      | None => Decimal.Nil
      end
  | EmptyString => Decimal.Nil
  end.

Fixpoint hex_prefix (s : string) : Hexadecimal.uint :=
  match s with
  | String c r =>
      match hex_digit c with
      | Some d => d (hex_prefix r)
      | None => Hexadecimal.Nil
      end
  | EmptyString => Hexadecimal.Nil
  end.

Definition parse_magnitude (s : string) : option Z :=
  match s with
  | String "0" (String ("x" | "X") r) =>
      match hex_prefix r with
      | Hexadecimal.Nil => None
      | h => Some (Z.of_hex_uint h)
      end
  | _ =>
      match dec_prefix s with
      | Decimal.Nil => None
      | d => Some (Z.of_uint d)
      end
  end.

(** [parseInt(s)]: leading white space, an optional sign, an optional
    [0x] prefix, then the longest run of digits; [NaN] ([None]) when
    there is no digit. *)
Definition parseInt (s : string) : option Z :=
  match trimStart s with
  | String "-" r => option_map Z.opp (parse_magnitude r)
  | String "+" r => parse_magnitude r
  | t => parse_magnitude t
  end.

(** [Math.min(x, k)]: [NaN] is contagious. *)
Definition Math_min (x : option Z) (k : Z) : option Z :=
  option_map (fun v => Z.min v k) x.

End JS.

(* ================================================================== *)
(** ** Failures *)
(* ================================================================== *)

(** A thrown JavaScript error other than the two classes below, with the
    properties the [catch] blocks read: [error.code], [error.message],
    [error.response?.data?.error?.message] and
    [error.response?.data?.error?.code]. *)
Record JsError := mkJsError {
  err_code : option Z;
  err_message : string;
  err_api_message : option string;
  err_api_code : option Z
}.

(** One issue reported by a zod schema: a built-in check that failed at a
    path, or a [refine] with the message the source gives it. *)
Inductive Issue :=
| TooSmall (path : string)
| InvalidUrl (path : string)
| Custom (path : string) (message : string).

(** What a handler can throw: the two error classes the handlers name, or
    any other error. *)
Inductive Failure :=
| UserError (message : string)
| NotImplementedError (message : string)
| Thrown (e : JsError).

Definition Result (A : Type) : Type := (Failure + A)%type.

(** The outcome of a tool call: the parameter schema rejected the
    arguments and [execute] did not run, or [execute] ran. *)
Inductive Outcome :=
| Rejected (issues : list Issue)
| Executed (result : Result string).

Definition RangeError (message : string) : Failure :=
  Thrown (mkJsError None message None None).

Module JSThrow.
(** ['#'.repeat(count)]: [NaN] counts as [0], a negative count throws. *)
Definition repeat (s : string) (count : option Z) : Result string :=
  match count with
  | None => inr ""
  | Some n =>
      if n <? 0 then inl (RangeError ("Invalid count value: " ++ JS.num n))
      else inr (JS.repeat_nat s (Z.to_nat n))
  end.
End JSThrow.

(* ================================================================== *)
(** ** The document snapshot returned by [docs.documents.get] *)
(* ================================================================== *)

Record Link := mkLink { url : option string }.

Record TextStyle := mkTextStyle {
  bold : bool;
  italic : bool;
  underline : bool;
  strikethrough : bool;
  link : option Link
}.

Record TextRun := mkTextRun {
  tr_content : option string;
  textStyle : option TextStyle
}.

(** A paragraph element; elements other than text runs (inline objects,
    page breaks, ...) have [textRun = None]. *)
Record ParagraphElement := mkParagraphElement { textRun : option TextRun }.

Record ParagraphStyle := mkParagraphStyle { namedStyleType : option string }.

Record Bullet := mkBullet { listId : option string }.

Record Paragraph := mkParagraph {
  elements : option (list ParagraphElement);
  paragraphStyle : option ParagraphStyle;
  bullet : option Bullet
}.

(** Structural elements: tables nest structural elements in their cells. *)
Inductive StructuralElement : Type :=
  mkStructuralElement
    (startIndex endIndex : option Z)
    (paragraph : option Paragraph)
    (table : option Table)
    (sectionBreak : option unit)
with Table : Type :=
  mkTable (tableRows : option (list TableRow))
with TableRow : Type :=
  mkTableRow (tableCells : option (list TableCell))
with TableCell : Type :=
  mkTableCell (content : option (list StructuralElement)).

Definition se_endIndex (e : StructuralElement) : option Z :=
  let 'mkStructuralElement _ x _ _ _ := e in x.
Definition paragraph (e : StructuralElement) : option Paragraph :=
  let 'mkStructuralElement _ _ x _ _ := e in x.
Definition table (e : StructuralElement) : option Table :=
  let 'mkStructuralElement _ _ _ x _ := e in x.
Definition sectionBreak (e : StructuralElement) : option unit :=
  let 'mkStructuralElement _ _ _ _ x := e in x.
Definition tableRows (t : Table) : option (list TableRow) :=
  let 'mkTable x := t in x.
Definition tableCells (r : TableRow) : option (list TableCell) :=
  let 'mkTableRow x := r in x.
Definition cell_content (c : TableCell) : option (list StructuralElement) :=
  let 'mkTableCell x := c in x.

Record Body := mkBody { content : option (list StructuralElement) }.

Record DocumentTab := mkDocumentTab { tab_body : option Body }.

Record TabProperties := mkTabProperties {
  tabId : option string;
  title : option string
}.

(** Tabs nest through [childTabs]. *)
Inductive Tab : Type :=
  mkTab (tabProperties : option TabProperties)
        (documentTab : option DocumentTab)
        (childTabs : option (list Tab)).

Definition tabProperties (t : Tab) : option TabProperties :=
  let 'mkTab x _ _ := t in x.
Definition documentTab (t : Tab) : option DocumentTab :=
  let 'mkTab _ x _ := t in x.
Definition childTabs (t : Tab) : option (list Tab) :=
  let 'mkTab _ _ x := t in x.

Record Document := mkDocument {
  body : option Body;
  tabs : option (list Tab)
}.

(** [docData.body?.content] *)
Definition body_content (b : option Body) : option (list StructuralElement) :=
  match b with Some b' => content b' | None => None end.

(** Shorthands to build snapshots. *)
Definition plain_run (s : string) : ParagraphElement :=
  mkParagraphElement (Some (mkTextRun (Some s) None)).
Definition plain_paragraph (s : string) : Paragraph :=
  mkParagraph (Some [plain_run s]) None None.
Definition para_element (s e : Z) (p : Paragraph) : StructuralElement :=
  mkStructuralElement (Some s) (Some e) (Some p) None None.
Definition table_element (s e : Z) (t : Table) : StructuralElement :=
  mkStructuralElement (Some s) (Some e) None (Some t) None.
Definition text_cell (s : string) : TableCell :=
  mkTableCell (Some [mkStructuralElement None None
                       (Some (plain_paragraph s)) None None]).

(* ================================================================== *)
(** ** Markdown projection helpers *)
(* ================================================================== *)

(** [list.forEach(x => { acc += f(x) })] *)
Definition forEach_append {A : Type} (f : A -> string) (l : list A)
  (acc : string) : string :=
  fold_left (fun acc x => acc ++ f x) l acc.

(** The same loop when the body may throw: the first throw ends it. *)
Fixpoint forEach_appendM {A : Type} (f : A -> Result string) (l : list A)
  (acc : string) : Result string :=
  match l with
  | [] => inr acc
  | x :: r =>
      match f x with
      | inl e => inl e
      | inr s => forEach_appendM f r (acc ++ s)
      end
  end.

(** [convertTextRunToMarkdown] *)
Definition convertTextRunToMarkdown (r : TextRun) : string :=
  let text := JS.or_else (tr_content r) "" in
  match textStyle r with
  | Some style =>
      let text :=
        if (bold style && italic style)%bool then "***" ++ text ++ "***"
        else if bold style then "**" ++ text ++ "**"
        else if italic style then "*" ++ text ++ "*"
        else text in
      let text :=
        if (underline style
            && negb (match link style with Some _ => true | None => false end))%bool
        then "<u>" ++ text ++ "</u>" else text in
      let text :=
        if strikethrough style then "~~" ++ text ++ "~~" else text in
      match link style with
      | Some l =>
          match url l with
          | Some u => if JS.truthy u then "[" ++ text ++ "](" ++ u ++ ")"
                      else text
          | None => text
          end
      | None => text
      end
  | None => text
  end.

(** The text of a paragraph: its text runs, converted and concatenated. *)
Definition paragraph_markdown_text (p : Paragraph) : string :=
  match elements p with
  | Some els =>
      forEach_append
        (fun el => match textRun el with
                   | Some r => convertTextRunToMarkdown r
                   | None => ""
                   end) els ""
  | None => ""
  end.

(** The heading detection at the top of [convertParagraphToMarkdown]:
    [(isHeading, headingLevel)]. *)
Definition heading_of (p : Paragraph) : bool * option Z :=
  match paragraphStyle p with
  | Some ps =>
      match namedStyleType ps with
      | Some styleType =>
          if JS.truthy styleType then
            if JS.startsWith styleType "HEADING_" then
              (true, JS.parseInt (JS.replace_first "HEADING_" "" styleType))
            else if (styleType =? "TITLE")%string then (true, Some 1)
            else if (styleType =? "SUBTITLE")%string then (true, Some 2)
            else (false, Some 0)
          else (false, Some 0)
      | None => (false, Some 0)
      end
  | None => (false, Some 0)
  end.

(** [convertParagraphToMarkdown] *)
Definition convertParagraphToMarkdown (p : Paragraph) : Result string :=
  let '(isHeading, headingLevel) := heading_of p in
  let isList := match bullet p with Some _ => true | None => false end in
  let text := paragraph_markdown_text p in
  if (isHeading && JS.truthy (JS.trim text))%bool then
    match JSThrow.repeat "#" (JS.Math_min headingLevel 6) with
    | inl e => inl e
    | inr hashes => inr (hashes ++ " " ++ JS.trim text ++ JS.nl ++ JS.nl)
    end
  else if (isList && JS.truthy (JS.trim text))%bool then
    inr ("- " ++ JS.trim text ++ JS.nl)
  else if JS.truthy (JS.trim text) then
    inr (JS.trim text ++ JS.nl ++ JS.nl)
  else inr JS.nl.

(** The text collected for one table cell by [convertTableToMarkdown]. *)
Definition cell_markdown_text (cell : TableCell) : string :=
  match cell_content cell with
  | Some els =>
      fold_left
        (fun cellText element =>
           match paragraph element with
           | Some p =>
               match elements p with
               | Some pes =>
                   forEach_append
                     (fun pe =>
                        match textRun pe with
                        | Some r =>
                            match tr_content r with
                            | Some c =>
                                if JS.truthy c then JS.trim (JS.replace_nl c)
                                else ""
                            | None => ""
                            end
                        | None => ""
                        end) pes cellText
               | None => cellText
               end
           | None => cellText
           end) els ""
  | None => ""
  end.

(** [rowText] after the inner [forEach] over the cells of a row. *)
Definition row_markdown_text (cells : list TableCell) : string :=
  forEach_append (fun cell => " " ++ cell_markdown_text cell ++ " |") cells "|".

(** The [separator] built by the [for] loop. *)
Definition header_separator (ncells : nat) : string :=
  "|" ++ JS.repeat_nat " --- |" ncells.

(** The body of the [forEach] over the rows, on the two variables it
    updates: [markdown] and [isFirstRow].  A row without [tableCells] is
    skipped. *)
Definition table_step (state : string * bool) (row : TableRow)
  : string * bool :=
  let '(markdown, isFirstRow) := state in
  match tableCells row with
  | None => (markdown, isFirstRow)
  | Some cells =>
      let markdown := markdown ++ row_markdown_text cells ++ JS.nl in
      if isFirstRow : bool then
        (markdown ++ header_separator (List.length cells) ++ JS.nl, false)
      else (markdown, isFirstRow)
  end.

(** [convertTableToMarkdown] *)
Definition convertTableToMarkdown (t : Table) : string :=
  match tableRows t with
  | None | Some [] => ""
  | Some rows =>
      let '(markdown, _) := fold_left table_step rows (JS.nl, true) in
      markdown ++ JS.nl
  end.

(** The body of the [forEach] in [convertDocsJsonToMarkdown]. *)
Definition element_markdown (element : StructuralElement) : Result string :=
  match paragraph element with
  | Some p => convertParagraphToMarkdown p
  | None =>
      match table element with
      | Some t => inr (convertTableToMarkdown t)
      | None =>
          match sectionBreak element with
          | Some _ => inr (JS.nl ++ "---" ++ JS.nl ++ JS.nl)
          | None => inr ""
          end
      end
  end.

(** [convertDocsJsonToMarkdown], applied to [docData.body]. *)
Definition convertDocsJsonToMarkdown (docBody : option Body) : Result string :=
  match body_content docBody with
  | None => inr "Document appears to be empty."
  | Some els =>
      match forEach_appendM element_markdown els "" with
      | inl e => inl e
      | inr markdown => inr (JS.trim markdown)
      end
  end.

(* ================================================================== *)
(** ** Mutation requests *)
(* ================================================================== *)

Record Location := mkLocation {
  index : Z;
  loc_tabId : option string
}.

Record Range := mkRange {
  range_startIndex : Z;
  range_endIndex : Z;
  range_tabId : option string
}.

(** [TextStyleArgs]: the sparse character style intent.  Its declaration is
    in [types.ts]; the fields are the ones [formatMatchingText] copies. *)
Module TextStyleArgs.
Record t := mk {
  bold : option bool;
  italic : option bool;
  underline : option bool;
  strikethrough : option bool;
  fontSize : option Z;
  fontFamily : option string;
  foregroundColor : option string;
  backgroundColor : option string;
  linkUrl : option string
}.
(** [{}] *)
Definition empty : t := mk None None None None None None None None None.
End TextStyleArgs.

(** Modelled from the spec: [ParagraphStyleArgs] is declared in [types.ts],
    which is not part of the sources; the spec lists alignment, named style
    type and spacing as the paragraph-level attributes. *)
Record ParagraphStyleArgs := mkParagraphStyleArgs {
  alignment : option string;
  ps_namedStyleType : option string;
  spaceAbove : option Z;
  spaceBelow : option Z
}.

Inductive Request :=
| insertText_request (location : Location) (text : string)
| deleteContentRange (range : Range)
| updateTextStyle (range : Range) (style : TextStyleArgs.t) (fields : string)
| updateParagraphStyle (range : Range) (style : ParagraphStyleArgs)
    (fields : string).

(** What the request builders return: [{ request, fields }]. *)
Record RequestInfo := mkRequestInfo {
  request : Request;
  fields : list string
}.

(** A range found by the locators: [{ startIndex, endIndex }]. *)
Record FoundRange := mkFoundRange {
  found_startIndex : Z;
  found_endIndex : Z
}.

(* ================================================================== *)
(** ** Helpers of [googleDocsApiHelpers.ts] that are modelled here *)
(* ================================================================== *)

(** Modelled from the spec: [findTabById] lives in
    [googleDocsApiHelpers.ts], which is not part of the sources.  The spec
    (4.1) has it search the tab hierarchy depth first, [childTabs] being a
    recursive field, and return the first tab whose identifier is exactly
    the one asked for. *)
Fixpoint searchTab (wanted : string) (t : Tab) : option Tab :=
  let matches :=
    match tabProperties t with
    | Some props =>
        match tabId props with
        | Some i => (i =? wanted)%string
        | None => false
        end
    | None => false
    end in
  if matches then Some t
  else
    match childTabs t with
    | Some children =>
        (fix searchTabs (l : list Tab) : option Tab :=
           match l with
           | [] => None
           | c :: r =>
               match searchTab wanted c with
               | Some found => Some found
               | None => searchTabs r
               end
           end) children
    | None => None
    end.

Fixpoint searchTabs (wanted : string) (l : list Tab) : option Tab :=
  match l with
  | [] => None
  | c :: r =>
      match searchTab wanted c with
      | Some found => Some found
      | None => searchTabs wanted r
      end
  end.

Definition findTabById (doc : Document) (wanted : string) : option Tab :=
  match tabs doc with
  | Some l => searchTabs wanted l
  | None => None
  end.

(** Modelled from the spec: the colour check of the style builder, "3- or
    6-digit hex ([#RGB] or [#RRGGBB])" (4.4), with the [#] optional as
    Scenario E asks ("replicate the optional # tolerance exactly"). *)
Definition is_hex_digit (c : ascii) : bool :=
  match JS.hex_digit c with Some _ => true | None => false end.

Fixpoint all_hex (s : string) : bool :=
  match s with
  | String c r => (is_hex_digit c && all_hex r)%bool
  | EmptyString => true
  end.

Definition hex_digits_ok (digits : string) : bool :=
  (all_hex digits
   && (Nat.eqb (String.length digits) 3
       || Nat.eqb (String.length digits) 6))%bool.

Definition builder_color_ok (c : string) : bool :=
  match c with
  | String "#" digits => hex_digits_ok digits
  | _ => hex_digits_ok c
  end.

Definition present {A : Type} (name : string) (o : option A) : list string :=
  match o with Some _ => [name] | None => [] end.

(** Modelled from the spec: [buildUpdateTextStyleRequest] lives in
    [googleDocsApiHelpers.ts], which is not part of the sources.  The spec
    (4.4) has it produce exactly one operation whose [fields] mask lists
    only the attributes present in the intent, return nothing when the
    intent has no attribute set, and fail with [InvalidStyleValue] on a
    colour that is not valid hex. *)
Definition buildUpdateTextStyleRequest (startIndex endIndex : Z)
  (style : TextStyleArgs.t) : Result (option RequestInfo) :=
  let color_ok o :=
    match o with Some c => builder_color_ok c | None => true end in
  if negb (color_ok (TextStyleArgs.foregroundColor style)
           && color_ok (TextStyleArgs.backgroundColor style))
  then inl (UserError "InvalidStyleValue")
  else
    let fields :=
      (present "bold" (TextStyleArgs.bold style)
       ++ present "italic" (TextStyleArgs.italic style)
       ++ present "underline" (TextStyleArgs.underline style)
       ++ present "strikethrough" (TextStyleArgs.strikethrough style)
       ++ present "fontSize" (TextStyleArgs.fontSize style)
       ++ present "fontFamily" (TextStyleArgs.fontFamily style)
       ++ present "foregroundColor" (TextStyleArgs.foregroundColor style)
       ++ present "backgroundColor" (TextStyleArgs.backgroundColor style)
       ++ present "linkUrl" (TextStyleArgs.linkUrl style))%list in
    match fields with
    | [] => inr None
    | _ =>
        inr (Some (mkRequestInfo
                     (updateTextStyle (mkRange startIndex endIndex None)
                        style (String.concat "," fields))
                     fields))
    end.

(* ================================================================== *)
(** ** The remote service and the handler monad *)
(* ================================================================== *)

(** What [readGoogleDoc] serialises and projects: the body of a tab, or the
    whole fetched document. *)
Inductive ContentSource :=
| FromTab (tabBody : option Body)
| FromDocument (doc : Document).

Definition cs_body (cs : ContentSource) : option Body :=
  match cs with
  | FromTab b => b
  | FromDocument d => body d
  end.

(** Modelled from the spec: the helpers of [googleDocsApiHelpers.ts] that
    the handlers only call and pass on are not part of the sources and are
    taken as parameters, next to the remote document service behind the
    [docs] client and two library functions.  [Remote] is the state of the
    service.  After the spec, the two locators are lookups on a fetched
    snapshot (4.3) and so, like [documents_get], return no new state;
    [executeBatchUpdate] (4.5) and the legacy [insertText] helper are the
    only ways to change the document. *)
Class Collaborators := {
  Remote : Type;
  documents_get :
    Remote -> string -> bool -> string -> JsError + Document;
  executeBatchUpdate :
    Remote -> string -> list Request -> Result unit * Remote;
  helpers_insertText :
    Remote -> string -> string -> Z -> Result unit * Remote;
  findTextRange :
    Remote -> string -> string -> option Z -> Result (option FoundRange);
  getParagraphRange :
    Remote -> string -> Z -> Result (option FoundRange);
  buildUpdateParagraphStyleRequest :
    Z -> Z -> ParagraphStyleArgs -> Result (option RequestInfo);
  JSON_stringify : ContentSource -> string;
  is_url : string -> bool
}.

(** A call that can change a document, as the handler issued it. *)
Inductive MutatingCall :=
| BatchUpdate (documentId : string) (requests : list Request)
| LegacyInsertText (documentId : string) (text : string) (index : Z).

Section Monad.

Context {C : Collaborators}.

(** The world a handler runs in: the remote state and the journal of the
    mutating calls issued so far, oldest first. *)
Record World := mkWorld {
  remote : Remote;
  journal : list MutatingCall
}.

Definition M (A : Type) : Type := World -> Result A * World.

Definition ret {A : Type} (a : A) : M A := fun w => (inr a, w).

Definition throw {A : Type} (f : Failure) : M A := fun w => (inl f, w).

Definition bind {A B : Type} (m : M A) (k : A -> M B) : M B :=
  fun w =>
    match m w with
    | (inl f, w') => (inl f, w')
    | (inr a, w') => k a w'
    end.

(** [try { m } catch (error) { h(error) }] *)
Definition try_catch {A : Type} (m : M A) (h : Failure -> M A) : M A :=
  fun w =>
    match m w with
    | (inl f, w') => h f w'
    | (inr a, w') => (inr a, w')
    end.

Definition lift {A : Type} (r : Result A) : M A := fun w => (r, w).

End Monad.

Declare Scope handler_scope.
Delimit Scope handler_scope with handler.
Notation "x <- m ;; k" := (bind m (fun x => k))
  (at level 61, m at next level, right associativity) : handler_scope.
Notation "m ;;; k" := (bind m (fun _ => k))
  (at level 61, right associativity) : handler_scope.
Notation "' pat <- m ;; k" :=
  (bind m (fun x => match x with pat => k end))
  (at level 61, pat pattern, m at next level, right associativity)
  : handler_scope.

Local Open Scope handler_scope.

(* ================================================================== *)
(** ** Tool handlers *)
(* ================================================================== *)

(** The double quote that the messages put around identifiers. *)
Definition dq : string := String (ascii_of_nat 34) "".

(** [error.message] *)
Definition failure_message (f : Failure) : string :=
  match f with
  | UserError m => m
  | NotImplementedError m => m
  | Thrown e => err_message e
  end.

(** [error.message || 'Unknown error'] *)
Definition message_or_unknown (f : Failure) : string :=
  JS.or_else (Some (failure_message f)) "Unknown error".

(** [if (args.tabId)]: the identifier when it is truthy. *)
Definition given (o : option string) : option string :=
  match o with
  | Some s => if JS.truthy s then Some s else None
  | None => None
  end.

(** [bodyContent[bodyContent.length - 1]] *)
Definition last_element {A : Type} (l : list A) : option A :=
  List.last (List.map Some l) None.

(** [args.maxLength && length > args.maxLength]: the limit when it applies. *)
Definition limit_exceeded (maxLength : option JS.Number) (length : nat)
  : option JS.Number :=
  match maxLength with
  | Some m =>
      if (JS.number_truthy m && JS.above (Z.of_nat length) m)%bool then Some m
      else None
  | None => None
  end.

Inductive Format := text | json | markdown.

Record ReadGoogleDocArgs := mkReadGoogleDocArgs {
  read_documentId : string;
  format : Format;
  maxLength : option JS.Number;
  read_tabId : option string
}.

Record AppendToGoogleDocArgs := mkAppendToGoogleDocArgs {
  append_documentId : string;
  textToAppend : string;
  addNewlineIfNeeded : bool;
  append_tabId : option string
}.

Record InsertTextArgs := mkInsertTextArgs {
  insert_documentId : string;
  textToInsert : string;
  insert_index : Z;
  insert_tabId : option string
}.

Record DeleteRangeArgs := mkDeleteRangeArgs {
  delete_documentId : string;
  delete_startIndex : Z;
  delete_endIndex : Z;
  delete_tabId : option string
}.

(** The [target] of [applyTextStyle]: an explicit range or a text query. *)
Inductive TextTarget :=
| TextRangeTarget (startIndex endIndex : Z)
| TextFindTarget (textToFind : string) (matchInstance : option Z).

Record ApplyTextStyleToolArgs := mkApplyTextStyleToolArgs {
  ats_documentId : string;
  ats_target : TextTarget;
  ats_style : TextStyleArgs.t
}.

(** The [target] of [applyParagraphStyle]. *)
Inductive ParagraphTarget :=
| ParagraphFindTarget (textToFind : string) (matchInstance : option Z)
| ParagraphIndexTarget (indexWithinParagraph : Z)
| ParagraphRangeTarget (startIndex endIndex : Z).

Record ApplyParagraphStyleToolArgs := mkApplyParagraphStyleToolArgs {
  aps_documentId : string;
  aps_target : ParagraphTarget;
  aps_style : ParagraphStyleArgs
}.

Record EditTableCellArgs := mkEditTableCellArgs {
  etc_documentId : string;
  tableStartIndex : Z;
  rowIndex : Z;
  columnIndex : Z;
  textContent : option string;
  etc_textStyle : option TextStyleArgs.t;
  etc_paragraphStyle : option ParagraphStyleArgs
}.

Record FindElementArgs := mkFindElementArgs {
  fe_documentId : string;
  textQuery : option string;
  elementType : option string
}.

(** The arguments of [formatMatchingText]; [fmt_style] holds its nine
    optional formatting options. *)
Record FormatMatchingTextArgs := mkFormatMatchingTextArgs {
  fmt_documentId : string;
  fmt_textToFind : string;
  fmt_matchInstance : option Z;
  fmt_style : TextStyleArgs.t
}.

Section Tools.

Context {C : Collaborators}.

(** *** Calls to the collaborators *)

Definition call_documents_get (documentId : string)
  (includeTabsContent : bool) (fields : string) : M Document :=
  fun w =>
    match documents_get (remote w) documentId includeTabsContent fields with
    | inl e => (inl (Thrown e), w)
    | inr d => (inr d, w)
    end.

Definition call_executeBatchUpdate (documentId : string)
  (requests : list Request) : M unit :=
  fun w =>
    let '(r, remote') := executeBatchUpdate (remote w) documentId requests in
    (r, mkWorld remote' (journal w ++ [BatchUpdate documentId requests])).

Definition call_insertText (documentId text : string) (index : Z) : M unit :=
  fun w =>
    let '(r, remote') := helpers_insertText (remote w) documentId text index in
    (r, mkWorld remote' (journal w ++ [LegacyInsertText documentId text index])).

Definition call_findTextRange (documentId textToFind : string)
  (matchInstance : option Z) : M (option FoundRange) :=
  fun w => (findTextRange (remote w) documentId textToFind matchInstance, w).

Definition call_getParagraphRange (documentId : string) (index : Z)
  : M (option FoundRange) :=
  fun w => (getParagraphRange (remote w) documentId index, w).

(** *** The tab check shared by the tab-aware handlers

    [readGoogleDoc], [appendToGoogleDoc], [insertText] and [deleteRange]
    repeat these two tests verbatim after fetching the document. *)
Definition require_document_tab (doc : Document) (tabId : string)
  : M DocumentTab :=
  match findTabById doc tabId with
  | None =>
      throw (UserError ("Tab with ID " ++ dq ++ tabId ++ dq
                        ++ " not found in document."))
  | Some targetTab =>
      match documentTab targetTab with
      | None =>
          throw (UserError ("Tab " ++ dq ++ tabId ++ dq
                            ++ " does not have content (may not be a document tab)."))
      | Some dt => ret dt
      end
  end.

(** *** [readGoogleDoc] *)

(** One iteration of the [forEach] that collects the plain text. *)
Definition paragraph_plain_text (p : option Paragraph) (textContent : string)
  : string :=
  match p with
  | Some p' =>
      match elements p' with
      | Some pes =>
          forEach_append
            (fun pe =>
               match textRun pe with
               | Some r =>
                   match tr_content r with
                   | Some c => if JS.truthy c then c else ""
                   | None => ""
                   end
               | None => ""
               end) pes textContent
      | None => textContent
      end
  | None => textContent
  end.

Definition element_plain_text (textContent : string)
  (element : StructuralElement) : string :=
  let textContent := paragraph_plain_text (paragraph element) textContent in
  match table element with
  | Some t =>
      match tableRows t with
      | Some rows =>
          fold_left
            (fun textContent row =>
               match tableCells row with
               | Some cells =>
                   fold_left
                     (fun textContent cell =>
                        match cell_content cell with
                        | Some cellElements =>
                            fold_left
                              (fun textContent cellElement =>
                                 paragraph_plain_text (paragraph cellElement)
                                   textContent)
                              cellElements textContent
                        | None => textContent
                        end) cells textContent
               | None => textContent
               end) rows textContent
      | None => textContent
      end
  | None => textContent
  end.

(** [textContent] after the loop over [contentSource.body?.content]. *)
Definition plain_text (docBody : option Body) : string :=
  match body_content docBody with
  | Some els => fold_left element_plain_text els ""
  | None => ""
  end.

Definition read_failure (documentId : string) (error : Failure) : Failure :=
  match error with
  | UserError _ | NotImplementedError _ => error
  | Thrown e =>
      if match err_code e with Some c => c =? 404 | None => false end then
        UserError ("Doc not found (ID: " ++ documentId ++ ").")
      else if match err_code e with Some c => c =? 403 | None => false end then
        UserError ("Permission denied for doc (ID: " ++ documentId ++ ").")
      else
        let errorDetails :=
          if JS.truthy_opt (err_api_message e)
          then JS.or_else (err_api_message e) ""
          else JS.or_else (Some (err_message e)) "Unknown error" in
        let errorCode :=
          if JS.truthy_num (err_api_code e) then err_api_code e
          else err_code e in
        UserError ("Failed to read doc: " ++ errorDetails
                   ++ (if JS.truthy_num errorCode
                       then " (Code: " ++ JS.num_opt errorCode ++ ")"
                       else ""))
  end.

Definition readGoogleDoc (args : ReadGoogleDocArgs) : M string :=
  try_catch
    (let needsTabsContent := JS.truthy_opt (read_tabId args) in
     let fields :=
       match format args with
       | json | markdown => "*"
       | text => "body(content(paragraph(elements(textRun(content)))))"
       end in
     res <- call_documents_get (read_documentId args) needsTabsContent
              (if needsTabsContent then "*" else fields) ;;
     contentSource <-
       match given (read_tabId args) with
       | Some tabId =>
           dt <- require_document_tab res tabId ;;
           ret (FromTab (tab_body dt))
       | None => ret (FromDocument res)
       end ;;
     match format args with
     | json =>
         let jsonContent := JSON_stringify contentSource in
         match limit_exceeded (maxLength args) (String.length jsonContent) with
         | Some m =>
             ret (JS.substring_to m jsonContent ++ JS.nl
                  ++ "... [JSON truncated: "
                  ++ JS.num (Z.of_nat (String.length jsonContent))
                  ++ " total chars]")
         | None => ret jsonContent
         end
     | markdown =>
         markdownContent <-
           lift (convertDocsJsonToMarkdown (cs_body contentSource)) ;;
         let totalLength := String.length markdownContent in
         match limit_exceeded (maxLength args) totalLength with
         | Some m =>
             let truncatedContent := JS.substring_to m markdownContent in
             ret (truncatedContent ++ JS.nl ++ JS.nl
                  ++ "... [Markdown truncated to " ++ JS.show m
                  ++ " chars of " ++ JS.num (Z.of_nat totalLength)
                  ++ " total. Use maxLength parameter to adjust limit or remove it to get full content.]")
         | None => ret markdownContent
         end
     | text =>
         let textContent := plain_text (cs_body contentSource) in
         if negb (JS.truthy (JS.trim textContent)) then
           ret "Document found, but appears empty."
         else
           let totalLength := String.length textContent in
           match limit_exceeded (maxLength args) totalLength with
           | Some m =>
               let truncatedContent := JS.substring_to m textContent in
               ret ("Content (truncated to " ++ JS.show m ++ " chars of "
                    ++ JS.num (Z.of_nat totalLength) ++ " total):" ++ JS.nl
                    ++ "---" ++ JS.nl ++ truncatedContent ++ JS.nl ++ JS.nl
                    ++ "... [Document continues for "
                    ++ JS.show_rest (Z.of_nat totalLength) m
                    ++ " more characters. Use maxLength parameter to adjust limit or remove it to get full content.]")
           | None =>
               ret ("Content (" ++ JS.num (Z.of_nat totalLength)
                    ++ " characters):" ++ JS.nl ++ "---" ++ JS.nl
                    ++ textContent)
           end
     end)
    (fun error => throw (read_failure (read_documentId args) error)).

(** *** [appendToGoogleDoc] *)

(** The insertion index: [1], or the last element's [endIndex - 1]. *)
Definition append_index (bodyContent : option (list StructuralElement)) : Z :=
  match bodyContent with
  | Some els =>
      match last_element els with
      | Some lastElement =>
          match se_endIndex lastElement with
          | Some e => if negb (e =? 0) then e - 1 else 1
          | None => 1
          end
      | None => 1
      end
  | None => 1
  end.

Definition wrap_failure (prefix : string) (error : Failure) : Failure :=
  UserError (prefix ++ message_or_unknown error).

Definition appendToGoogleDoc (args : AppendToGoogleDocArgs) : M string :=
  try_catch
    (let needsTabsContent := JS.truthy_opt (append_tabId args) in
     docInfo <- call_documents_get (append_documentId args) needsTabsContent
                  (if needsTabsContent then "tabs"
                   else "body(content(endIndex)),documentStyle(pageSize)") ;;
     bodyContent <-
       match given (append_tabId args) with
       | Some tabId =>
           dt <- require_document_tab docInfo tabId ;;
           ret (body_content (tab_body dt))
       | None => ret (body_content (body docInfo))
       end ;;
     let endIndex := append_index bodyContent in
     let textToInsert :=
       (if (addNewlineIfNeeded args && (endIndex >? 1))%bool then JS.nl
        else "") ++ textToAppend args in
     if negb (JS.truthy textToInsert) then ret "Nothing to append."
     else
       let location := mkLocation endIndex (given (append_tabId args)) in
       call_executeBatchUpdate (append_documentId args)
         [insertText_request location textToInsert] ;;;
       ret ("Successfully appended text to "
            ++ match given (append_tabId args) with
               | Some tabId => "tab " ++ tabId ++ " in "
               | None => ""
               end
            ++ "document " ++ append_documentId args ++ "."))
    (fun error =>
       match error with
       | UserError _ | NotImplementedError _ => throw error
       | _ => throw (wrap_failure "Failed to append to doc: " error)
       end).

(** *** [insertText] *)

Definition insertText (args : InsertTextArgs) : M string :=
  try_catch
    (match given (insert_tabId args) with
     | Some tabId =>
         docInfo <- call_documents_get (insert_documentId args) true
                      "tabs(tabProperties,documentTab)" ;;
         require_document_tab docInfo tabId ;;;
         let location := mkLocation (insert_index args) (Some tabId) in
         call_executeBatchUpdate (insert_documentId args)
           [insertText_request location (textToInsert args)]
     | None =>
         call_insertText (insert_documentId args) (textToInsert args)
           (insert_index args)
     end ;;;
     ret ("Successfully inserted text at index " ++ JS.num (insert_index args)
          ++ match given (insert_tabId args) with
             | Some tabId => " in tab " ++ tabId
             | None => ""
             end
          ++ "."))
    (fun error =>
       match error with
       | UserError _ => throw error
       | _ => throw (wrap_failure "Failed to insert text: " error)
       end).

(** *** [deleteRange] *)

Definition deleteRange (args : DeleteRangeArgs) : M string :=
  if delete_endIndex args <=? delete_startIndex args then
    throw (UserError "End index must be greater than start index for deletion.")
  else
    try_catch
      (match given (delete_tabId args) with
       | Some tabId =>
           docInfo <- call_documents_get (delete_documentId args) true
                        "tabs(tabProperties,documentTab)" ;;
           require_document_tab docInfo tabId ;;;
           ret tt
       | None => ret tt
       end ;;;
       let range :=
         mkRange (delete_startIndex args) (delete_endIndex args)
           (given (delete_tabId args)) in
       call_executeBatchUpdate (delete_documentId args)
         [deleteContentRange range] ;;;
       ret ("Successfully deleted content in range "
            ++ JS.num (delete_startIndex args) ++ "-"
            ++ JS.num (delete_endIndex args)
            ++ match given (delete_tabId args) with
               | Some tabId => " in tab " ++ tabId
               | None => ""
               end
            ++ "."))
      (fun error =>
         match error with
         | UserError _ => throw error
         | _ => throw (wrap_failure "Failed to delete range: " error)
         end).

(** The [refine]d parameter schema of [deleteRange]: both indices at least
    [1], and [endIndex > startIndex]. *)
Definition deleteRange_schema (args : DeleteRangeArgs) : list Issue :=
  ((if delete_startIndex args <? 1 then [TooSmall "startIndex"] else [])
   ++ (if delete_endIndex args <? 1 then [TooSmall "endIndex"] else [])
   ++ (if delete_endIndex args >? delete_startIndex args then []
       else [Custom "endIndex" "endIndex must be greater than startIndex"]))%list.

(** A tool call: the schema first, then [execute]. *)
Definition tool {A : Type} (schema : A -> list Issue) (execute : A -> M string)
  (args : A) (w : World) : Outcome * World :=
  match schema args with
  | [] => let '(r, w') := execute args w in (Executed r, w')
  | issues => (Rejected issues, w)
  end.

Definition deleteRange_tool : DeleteRangeArgs -> World -> Outcome * World :=
  tool deleteRange_schema deleteRange.

(** *** [applyTextStyle] *)

Definition applyTextStyle (args : ApplyTextStyleToolArgs) : M string :=
  let '(startIndex, endIndex) :=
    match ats_target args with
    | TextRangeTarget s e => (Some s, Some e)
    | TextFindTarget _ _ => (None, None)
    end in
  try_catch
    ('(startIndex, endIndex) <-
       match ats_target args with
       | TextFindTarget textToFind matchInstance =>
           range <- call_findTextRange (ats_documentId args) textToFind
                      matchInstance ;;
           match range with
           | None =>
               throw (UserError ("Could not find instance "
                                 ++ JS.num_opt matchInstance ++ " of text "
                                 ++ dq ++ textToFind ++ dq ++ "."))
           | Some r => ret (Some (found_startIndex r), Some (found_endIndex r))
           end
       | TextRangeTarget _ _ => ret (startIndex, endIndex)
       end ;;
     match startIndex, endIndex with
     | Some startIndex, Some endIndex =>
         if endIndex <=? startIndex then
           throw (UserError
                    "End index must be greater than start index for styling.")
         else
           requestInfo <-
             lift (buildUpdateTextStyleRequest startIndex endIndex
                     (ats_style args)) ;;
           match requestInfo with
           | None => ret "No valid text styling options were provided."
           | Some info =>
               call_executeBatchUpdate (ats_documentId args) [request info] ;;;
               ret ("Successfully applied text style ("
                    ++ String.concat ", " (fields info) ++ ") to range "
                    ++ JS.num startIndex ++ "-" ++ JS.num endIndex ++ ".")
           end
     | _, _ => throw (UserError "Target range could not be determined.")
     end)
    (fun error =>
       match error with
       | UserError _ | NotImplementedError _ => throw error
       | _ => throw (wrap_failure "Failed to apply text style: " error)
       end).

(** *** [applyParagraphStyle] *)

(** [args.target.matchInstance || 1] *)
Definition instance_or_1 (matchInstance : option Z) : Z :=
  match matchInstance with
  | Some n => if n =? 0 then 1 else n
  | None => 1
  end.

Definition applyParagraphStyle (args : ApplyParagraphStyleToolArgs)
  : M string :=
  try_catch
    ('(startIndex, endIndex) <-
       match aps_target args with
       | ParagraphFindTarget textToFind matchInstance =>
           textRange <- call_findTextRange (aps_documentId args) textToFind
                          (Some (instance_or_1 matchInstance)) ;;
           match textRange with
           | None =>
               throw (UserError ("Could not find " ++ dq ++ textToFind ++ dq
                                 ++ " in the document."))
           | Some tr =>
               paragraphRange <- call_getParagraphRange (aps_documentId args)
                                   (found_startIndex tr) ;;
               match paragraphRange with
               | None =>
                   throw (UserError
                            "Found the text but could not determine the paragraph boundaries.")
               | Some pr =>
                   ret (Some (found_startIndex pr), Some (found_endIndex pr))
               end
           end
       | ParagraphIndexTarget indexWithinParagraph =>
           paragraphRange <- call_getParagraphRange (aps_documentId args)
                               indexWithinParagraph ;;
           match paragraphRange with
           | None =>
               throw (UserError ("Could not find paragraph containing index "
                                 ++ JS.num indexWithinParagraph ++ "."))
           | Some pr =>
               ret (Some (found_startIndex pr), Some (found_endIndex pr))
           end
       | ParagraphRangeTarget s e => ret (Some s, Some e)
       end ;;
     match startIndex, endIndex with
     | Some startIndex, Some endIndex =>
         if endIndex <=? startIndex then
           throw (UserError ("Invalid paragraph range: end index ("
                             ++ JS.num endIndex
                             ++ ") must be greater than start index ("
                             ++ JS.num startIndex ++ ")."))
         else
           requestInfo <-
             lift (buildUpdateParagraphStyleRequest startIndex endIndex
                     (aps_style args)) ;;
           match requestInfo with
           | None => ret "No valid paragraph styling options were provided."
           | Some info =>
               call_executeBatchUpdate (aps_documentId args) [request info] ;;;
               ret ("Successfully applied paragraph styles ("
                    ++ String.concat ", " (fields info)
                    ++ ") to the paragraph.")
           end
     | _, _ =>
         throw (UserError
                  "Could not determine target paragraph range from the provided information.")
     end)
    (fun error =>
       match error with
       | UserError _ | NotImplementedError _ => throw error
       | _ => throw (wrap_failure "Failed to apply paragraph style: " error)
       end).

(** *** The two stubs *)

Definition editTableCell (args : EditTableCellArgs) : M string :=
  throw (NotImplementedError
           "Editing table cells is complex and not yet implemented.").

Definition findElement (args : FindElementArgs) : M string :=
  throw (NotImplementedError
           "Finding elements by complex criteria is not yet implemented.").

End Tools.

(* ================================================================== *)
(** ** [formatMatchingText] and its parameter schema *)
(* ================================================================== *)

(** The fragment of regular expressions the schema uses, matched the way a
    backtracking engine does: alternatives left to right, [?] greedy. *)
Module Regex.

Inductive t :=
| Chr (c : ascii)
| Class (p : ascii -> bool)
| Seq (r1 r2 : t)
| Alt (r1 r2 : t)
| Opt (r : t)
| Times (n : nat) (r : t).

(** [run r s k]: [r] matches a prefix of [s] and [k] accepts the rest. *)
Fixpoint run (r : t) (s : string) (k : string -> bool) : bool :=
  match r with
  | Chr c =>
      match s with
      | String c' s' => if Ascii.eqb c c' then k s' else false
      | EmptyString => false
      end
  | Class p =>
      match s with
      | String c' s' => if p c' then k s' else false
      | EmptyString => false
      end
  | Seq r1 r2 => run r1 s (fun s' => run r2 s' k)
  | Alt r1 r2 => (run r1 s k || run r2 s k)%bool
  | Opt r' => (run r' s k || k s)%bool
  | Times n r' =>
      (fix times (n : nat) (s : string) : bool :=
         match n with
         | O => k s
         | S n' => run r' s (times n')
         end) n s
  end.

(** [/^r$/.test(s)]: without the [m] flag, [$] is the end of the input. *)
Definition test_anchored (r : t) (s : string) : bool :=
  run r s (fun rest => match rest with EmptyString => true | _ => false end).

(** [lo-hi] inside a character class. *)
Definition in_range (lo hi c : ascii) : bool :=
  (Nat.leb (nat_of_ascii lo) (nat_of_ascii c)
   && Nat.leb (nat_of_ascii c) (nat_of_ascii hi))%bool.

End Regex.

(** [[0-9A-Fa-f]] *)
Definition hex_class (c : ascii) : bool :=
  (Regex.in_range "0" "9" c || Regex.in_range "A" "F" c
   || Regex.in_range "a" "f" c)%bool.

(** [/^#?([0-9A-Fa-f]{3}|[0-9A-Fa-f]{6})$/] *)
Definition color_regex : Regex.t :=
  Regex.Seq (Regex.Opt (Regex.Chr "#"))
    (Regex.Alt (Regex.Times 3 (Regex.Class hex_class))
               (Regex.Times 6 (Regex.Class hex_class))).

(** The predicate both colour fields [refine] with. *)
Definition color_validator (color : string) : bool :=
  Regex.test_anchored color_regex color.

Definition foregroundColor_message : string :=
  "Invalid hex color format (e.g., #FF0000 or #F00)".
Definition backgroundColor_message : string :=
  "Invalid hex color format (e.g., #00FF00 or #0F0)".
Definition no_option_message : string :=
  "At least one formatting option (bold, italic, fontSize, etc.) must be provided.".

Definition color_issues (path message : string) (o : option string)
  : list Issue :=
  match o with
  | Some color => if color_validator color then [] else [Custom path message]
  | None => []
  end.

Definition defined {A : Type} (o : option A) : bool :=
  match o with Some _ => true | None => false end.

(** The object-level [refine]: some key besides [documentId], [textToFind]
    and [matchInstance] is not [undefined]. *)
Definition some_option_defined (s : TextStyleArgs.t) : bool :=
  (defined (TextStyleArgs.bold s) || defined (TextStyleArgs.italic s)
   || defined (TextStyleArgs.underline s)
   || defined (TextStyleArgs.strikethrough s)
   || defined (TextStyleArgs.fontSize s)
   || defined (TextStyleArgs.fontFamily s)
   || defined (TextStyleArgs.foregroundColor s)
   || defined (TextStyleArgs.backgroundColor s)
   || defined (TextStyleArgs.linkUrl s))%bool.

Section FormatMatchingText.

Context {C : Collaborators}.

(** The schema of [formatMatchingText], field by field in the order of the
    object, then the object-level [refine]. *)
Definition formatMatchingText_schema (args : FormatMatchingTextArgs)
  : list Issue :=
  let s := fmt_style args in
  ((if Nat.ltb (String.length (fmt_textToFind args)) 1
    then [TooSmall "textToFind"] else [])
   ++ match fmt_matchInstance args with
      | Some n => if n <? 1 then [TooSmall "matchInstance"] else []
      | None => []
      end
   ++ match TextStyleArgs.fontSize s with
      | Some n => if n <? 1 then [TooSmall "fontSize"] else []
      | None => []
      end
   ++ color_issues "foregroundColor" foregroundColor_message
        (TextStyleArgs.foregroundColor s)
   ++ color_issues "backgroundColor" backgroundColor_message
        (TextStyleArgs.backgroundColor s)
   ++ match TextStyleArgs.linkUrl s with
      | Some u => if is_url u then [] else [InvalidUrl "linkUrl"]
      | None => []
      end
   ++ (if some_option_defined s then [] else [Custom "" no_option_message]))%list.

(** [styleParams], filled option by option. *)
Definition styleParams_of (s : TextStyleArgs.t) : TextStyleArgs.t :=
  TextStyleArgs.mk
    (TextStyleArgs.bold s) (TextStyleArgs.italic s)
    (TextStyleArgs.underline s) (TextStyleArgs.strikethrough s)
    (TextStyleArgs.fontSize s) (TextStyleArgs.fontFamily s)
    (TextStyleArgs.foregroundColor s) (TextStyleArgs.backgroundColor s)
    (TextStyleArgs.linkUrl s).

(** [execute] of [formatMatchingText]; [matchInstance] defaults to [1]. *)
Definition formatMatchingText (args : FormatMatchingTextArgs) : M string :=
  let matchInstance :=
    match fmt_matchInstance args with Some n => n | None => 1 end in
  try_catch
    (let styleParams := styleParams_of (fmt_style args) in
     range <- call_findTextRange (fmt_documentId args) (fmt_textToFind args)
                (Some matchInstance) ;;
     match range with
     | None =>
         throw (UserError ("Could not find instance " ++ JS.num matchInstance
                           ++ " of text " ++ dq ++ fmt_textToFind args ++ dq
                           ++ "."))
     | Some r =>
         requestInfo <-
           lift (buildUpdateTextStyleRequest (found_startIndex r)
                   (found_endIndex r) styleParams) ;;
         match requestInfo with
         | None => ret "No valid text styling options were provided."
         | Some info =>
             call_executeBatchUpdate (fmt_documentId args) [request info] ;;;
             ret ("Successfully applied formatting to instance "
                  ++ JS.num matchInstance ++ " of " ++ dq
                  ++ fmt_textToFind args ++ dq ++ ".")
         end
     end)
    (fun error =>
       match error with
       | UserError _ => throw error
       | _ => throw (wrap_failure "Failed to format text: " error)
       end).

Definition formatMatchingText_tool
  : FormatMatchingTextArgs -> World -> Outcome * World :=
  tool formatMatchingText_schema formatMatchingText.

End FormatMatchingText.

(* ================================================================== *)
(** ** Vocabulary of the properties *)
(* ================================================================== *)

(** [has_LF s]: the string contains a line feed. *)
Fixpoint has_LF (s : string) : bool :=
  match s with
  | String c r => (Ascii.eqb c JS.LF || has_LF r)%bool
  | EmptyString => false
  end.

(** The decimal numeral of a natural number, as in [HEADING_3]. *)
Definition numeral (n : N) : string := NilZero.string_of_uint (N.to_uint n).

(** The text of a run as the projection sees it: [content || '']. *)
Definition run_text (content : option string) : string :=
  JS.or_else content "".

(** The cell lists of the rows that have one, in order. *)
Fixpoint rows_with_cells (rows : list TableRow) : list (list TableCell) :=
  match rows with
  | [] => []
  | row :: rest =>
      match tableCells row with
      | Some cells => cells :: rows_with_cells rest
      | None => rows_with_cells rest
      end
  end.

(** One line per row, each ended by a line feed. *)
Definition row_lines (rows : list (list TableCell)) : string :=
  String.concat "" (List.map (fun cells => row_markdown_text cells ++ JS.nl) rows).

(** All tabs of a document, parents before children, siblings in order. *)
Fixpoint tab_and_descendants (t : Tab) : list Tab :=
  t :: match childTabs t with
       | Some children => List.flat_map tab_and_descendants children
       | None => []
       end.

Definition all_tabs (doc : Document) : list Tab :=
  match tabs doc with
  | Some l => List.flat_map tab_and_descendants l
  | None => []
  end.

Definition has_tabId (wanted : string) (t : Tab) : bool :=
  match tabProperties t with
  | Some props =>
      match tabId props with
      | Some i => (i =? wanted)%string
      | None => false
      end
  | None => false
  end.

Definition tab_not_found_message (tabId : string) : string :=
  "Tab with ID " ++ dq ++ tabId ++ dq ++ " not found in document.".

Definition tab_no_content_message (tabId : string) : string :=
  "Tab " ++ dq ++ tabId ++ dq
  ++ " does not have content (may not be a document tab).".

(** The content of the text runs of a paragraph, in order. *)
Definition paragraph_run_contents (p : option Paragraph) : list string :=
  match p with
  | Some p' =>
      match elements p' with
      | Some pes =>
          List.flat_map
            (fun pe =>
               match textRun pe with
               | Some r => match tr_content r with Some c => [c] | None => [] end
               | None => []
               end) pes
      | None => []
      end
  | None => []
  end.

Definition opt_list {A : Type} (o : option (list A)) : list A :=
  match o with Some l => l | None => [] end.

(** The text-run contents [readGoogleDoc] collects from one element: those
    of its paragraph, then those of the paragraphs that are direct
    children of its table's cells, rows and cells in order. *)
Definition element_run_contents (e : StructuralElement) : list string :=
  (paragraph_run_contents (paragraph e)
   ++ List.flat_map
        (fun row =>
           List.flat_map
             (fun cell =>
                List.flat_map
                  (fun ce => paragraph_run_contents (paragraph ce))
                  (opt_list (cell_content cell)))
             (opt_list (tableCells row)))
        (opt_list (match table e with
                   | Some t => tableRows t
                   | None => None
                   end)))%list.

Definition body_run_contents (b : option Body) : list string :=
  List.flat_map element_run_contents (opt_list (body_content b)).

(** The spec's reading of the text projection: the content of every text
    run of the document in order, at any depth of table nesting. *)
Fixpoint element_all_run_contents (e : StructuralElement) : list string :=
  match e with
  | mkStructuralElement _ _ p t _ =>
      (paragraph_run_contents p
       ++ match t with
          | Some (mkTable (Some rows)) =>
              List.flat_map
                (fun row =>
                   match row with
                   | mkTableRow (Some cells) =>
                       List.flat_map
                         (fun cell =>
                            match cell with
                            | mkTableCell (Some els) =>
                                List.flat_map element_all_run_contents els
                            | mkTableCell None => []
                            end) cells
                   | mkTableRow None => []
                   end) rows
          | _ => []
          end)%list
  end.

Definition all_run_contents (b : option Body) : list string :=
  List.flat_map element_all_run_contents (opt_list (body_content b)).

(** The header [readGoogleDoc] puts before untruncated plain text. *)
Definition text_header (totalLength : nat) : string :=
  "Content (" ++ JS.num (Z.of_nat totalLength) ++ " characters):" ++ JS.nl
  ++ "---" ++ JS.nl.

Definition truncated_text_header (m : Z) (totalLength : nat) : string :=
  "Content (truncated to " ++ JS.num m ++ " chars of "
  ++ JS.num (Z.of_nat totalLength) ++ " total):" ++ JS.nl ++ "---" ++ JS.nl.

Definition truncated_text_marker (m : Z) (totalLength : nat) : string :=
  JS.nl ++ JS.nl ++ "... [Document continues for "
  ++ JS.num (Z.of_nat totalLength - m)
  ++ " more characters. Use maxLength parameter to adjust limit or remove it to get full content.]".

Definition truncated_markdown_marker (m : Z) (totalLength : nat) : string :=
  JS.nl ++ JS.nl ++ "... [Markdown truncated to " ++ JS.num m ++ " chars of "
  ++ JS.num (Z.of_nat totalLength)
  ++ " total. Use maxLength parameter to adjust limit or remove it to get full content.]".

(** A hexadecimal digit, spelled out. *)
Definition hexadecimal_digit (c : ascii) : Prop :=
  In c (list_ascii_of_string "0123456789abcdefABCDEF").

(** A colour as the spec words it: 3 or 6 hexadecimal digits after an
    optional [#]. *)
Definition hex_color (s : string) : Prop :=
  exists digits : string,
    (s = digits \/ s = String "#" digits)
    /\ (String.length digits = 3 \/ String.length digits = 6)%nat
    /\ Forall hexadecimal_digit (list_ascii_of_string digits).

(** How the handlers that take a [tabId] find the body they work on:
    the fetched document's own body without a tab, else the body of the
    tab [findTabById] returns. *)
Inductive resolves_body (doc : Document)
  : option string -> option (list StructuralElement) -> Prop :=
| resolves_legacy :
    resolves_body doc None (body_content (body doc))
| resolves_tab : forall tabId tab dt,
    findTabById doc tabId = Some tab ->
    documentTab tab = Some dt ->
    resolves_body doc (Some tabId) (body_content (tab_body dt)).

(** The two ways a tab identifier fails to lead to content, with the
    message of each: no tab of the document carries it, or the first tab
    that carries it has no [documentTab]. *)
Inductive tab_failure (doc : Document) (tabId : string) : string -> Prop :=
| no_such_tab :
    (forall t, In t (all_tabs doc) -> has_tabId tabId t = false) ->
    tab_failure doc tabId (tab_not_found_message tabId)
| tab_without_content : forall tab,
    List.find (has_tabId tabId) (all_tabs doc) = Some tab ->
    documentTab tab = None ->
    tab_failure doc tabId (tab_no_content_message tabId).

(** The success message of [appendToGoogleDoc]. *)
Definition append_success (args : AppendToGoogleDocArgs) : string :=
  "Successfully appended text to "
  ++ match given (append_tabId args) with
     | Some tabId => "tab " ++ tabId ++ " in "
     | None => ""
     end
  ++ "document " ++ append_documentId args ++ ".".

(** The fetch [appendToGoogleDoc] starts with. *)
Definition append_fetch {C : Collaborators} (r : Remote)
  (args : AppendToGoogleDocArgs) : JsError + Document :=
  documents_get r (append_documentId args)
    (JS.truthy_opt (append_tabId args))
    (if JS.truthy_opt (append_tabId args) then "tabs"
     else "body(content(endIndex)),documentStyle(pageSize)").

(** What [readGoogleDoc] projects: the fetched document itself without a
    tab, else the body of the tab [findTabById] returns. *)
Inductive resolves_source (doc : Document)
  : option string -> ContentSource -> Prop :=
| source_legacy : resolves_source doc None (FromDocument doc)
| source_tab : forall tabId tab dt,
    findTabById doc tabId = Some tab ->
    documentTab tab = Some dt ->
    resolves_source doc (Some tabId) (FromTab (tab_body dt)).

(** The fetch [readGoogleDoc] starts with. *)
Definition read_fetch {C : Collaborators} (r : Remote)
  (args : ReadGoogleDocArgs) : JsError + Document :=
  documents_get r (read_documentId args)
    (JS.truthy_opt (read_tabId args))
    (if JS.truthy_opt (read_tabId args) then "*"
     else match format args with
          | json | markdown => "*"
          | text => "body(content(paragraph(elements(textRun(content)))))"
          end).

(** What [readGoogleDoc] answers for plain text that is not truncated. *)
Definition full_text_answer (textContent : string) : string :=
  if JS.truthy (JS.trim textContent)
  then text_header (String.length textContent) ++ textContent
  else "Document found, but appears empty.".

(** The range [applyTextStyle] works on, when its target resolves. *)
Definition text_target_range {C : Collaborators} (r : Remote)
  (documentId : string) (target : TextTarget) : option (Z * Z) :=
  match target with
  | TextRangeTarget s e => Some (s, e)
  | TextFindTarget textToFind matchInstance =>
      match findTextRange r documentId textToFind matchInstance with
      | inr (Some f) => Some (found_startIndex f, found_endIndex f)
      | _ => None
      end
  end.

(** The range [applyParagraphStyle] works on, when its target resolves. *)
Definition paragraph_target_range {C : Collaborators} (r : Remote)
  (documentId : string) (target : ParagraphTarget) : option (Z * Z) :=
  let containing i :=
    match getParagraphRange r documentId i with
    | inr (Some f) => Some (found_startIndex f, found_endIndex f)
    | _ => None
    end in
  match target with
  | ParagraphFindTarget textToFind matchInstance =>
      match findTextRange r documentId textToFind
              (Some (instance_or_1 matchInstance)) with
      | inr (Some f) => containing (found_startIndex f)
      | _ => None
      end
  | ParagraphIndexTarget i => containing i
  | ParagraphRangeTarget s e => Some (s, e)
  end.

(* ================================================================== *)
(** ** A stand-in service and sample documents *)
(* ================================================================== *)

Module Demo.

(** Documents by identifier, and a revision that every batch bumps. *)
Record state := mkState {
  stored : list (string * Document);
  revision : nat
}.

Definition get (r : state) (documentId : string) (_ : bool) (_ : string)
  : JsError + Document :=
  match List.find (fun p => (fst p =? documentId)%string) (stored r) with
  | Some p => inr (snd p)
  | None =>
      inl (mkJsError (Some 404) "Requested entity was not found." None None)
  end.

Definition batch (r : state) (_ : string) (_ : list Request)
  : Result unit * state :=
  (inr tt, mkState (stored r) (S (revision r))).

Definition insert (r : state) (_ _ : string) (_ : Z)
  : Result unit * state :=
  (inr tt, mkState (stored r) (S (revision r))).

(** The locators of the stand-in find nothing but the query [Hello], at
    the start of the body, and the paragraph [1 .. 7) around index [1]. *)
Definition locate (_ : state) (_ : string) (textToFind : string)
  (_ : option Z) : Result (option FoundRange) :=
  if (textToFind =? "Hello")%string then inr (Some (mkFoundRange 1 6))
  else inr None.

Definition locate_paragraph (_ : state) (_ : string) (i : Z)
  : Result (option FoundRange) :=
  if ((1 <=? i) && (i <? 7))%bool then inr (Some (mkFoundRange 1 7))
  else inr None.

Definition build_paragraph (s e : Z) (style : ParagraphStyleArgs)
  : Result (option RequestInfo) :=
  match alignment style with
  | Some _ =>
      inr (Some (mkRequestInfo
                   (updateParagraphStyle (mkRange s e None) style "alignment")
                   ["alignment"]))
  | None => inr None
  end.

Definition collaborators : Collaborators := {|
  Remote := state;
  documents_get := get;
  executeBatchUpdate := batch;
  helpers_insertText := insert;
  findTextRange := locate;
  getParagraphRange := locate_paragraph;
  buildUpdateParagraphStyleRequest := build_paragraph;
  JSON_stringify := fun _ => "{}";
  is_url := fun u => String.prefix "http" u
|}.

(** A document without tabs: one paragraph, [Hello] and a line feed. *)
Definition legacy_doc : Document :=
  mkDocument
    (Some (mkBody (Some [para_element 1 7
                           (plain_paragraph ("Hello" ++ JS.nl))])))
    None.

(** A document with a content tab [t.0] and a tab [t.1] without a
    [documentTab], which has a child [t.2]. *)
Definition tabbed_doc : Document :=
  mkDocument None
    (Some [mkTab (Some (mkTabProperties (Some "t.0") (Some "Notes")))
             (Some (mkDocumentTab
                      (Some (mkBody (Some [para_element 1 10
                               (plain_paragraph ("Tab text" ++ JS.nl))])))))
             None;
           mkTab (Some (mkTabProperties (Some "t.1") (Some "Shell")))
             None
             (Some [mkTab (Some (mkTabProperties (Some "t.2") (Some "Child")))
                      (Some (mkDocumentTab (Some (mkBody (Some [])))))
                      None])]).

(** A document whose only text sits in a table nested in a table cell. *)
Definition nested_doc : Document :=
  mkDocument
    (Some (mkBody (Some
       [table_element 1 12
          (mkTable (Some [mkTableRow (Some
             [mkTableCell (Some
                [table_element 3 10
                   (mkTable (Some [mkTableRow (Some
                      [text_cell "inner"])]))])])]))])))
    None.

(** A document that holds nothing but line feeds. *)
Definition blank_doc : Document :=
  mkDocument
    (Some (mkBody (Some [para_element 1 4
                           (plain_paragraph (JS.nl ++ JS.nl ++ JS.nl))])))
    None.

(** A document of two paragraphs, the first ending at index [7] and the
    second at index [13]. *)
Definition report_doc : Document :=
  mkDocument
    (Some (mkBody (Some [para_element 1 7 (plain_paragraph ("Hello" ++ JS.nl));
                         para_element 7 13
                           (plain_paragraph ("World" ++ JS.nl))])))
    None.

(** A document whose last element carries no [endIndex]. *)
Definition open_ended_doc : Document :=
  mkDocument
    (Some (mkBody (Some [para_element 1 7 (plain_paragraph ("Hello" ++ JS.nl));
                         mkStructuralElement (Some 7) None None None
                           (Some tt)])))
    None.

Definition world : @World collaborators :=
  mkWorld (C := collaborators)
    (mkState [("legacy", legacy_doc); ("tabbed", tabbed_doc);
              ("nested", nested_doc); ("blank", blank_doc);
              ("report", report_doc); ("open", open_ended_doc)] 0) [].

End Demo.

(** The colour pattern read as a test on the characters, for a class [p] of
    digits: [p] holds of every character and there are 3 or 6 of them,
    after an optional [#]. *)
Fixpoint all_in (p : ascii -> bool) (s : string) : bool :=
  match s with
  | String c r => (p c && all_in p r)%bool
  | EmptyString => true
  end.

Definition digits_ok (p : ascii -> bool) (d : string) : bool :=
  (all_in p d
   && (Nat.eqb (String.length d) 3 || Nat.eqb (String.length d) 6))%bool.

Definition color_ok (p : ascii -> bool) (s : string) : bool :=
  (match s with
   | String c r => (Ascii.eqb "#" c && digits_ok p r)%bool
   | EmptyString => false
   end || digits_ok p s)%bool.

Definition color_regex_over (p : ascii -> bool) : Regex.t :=
  Regex.Seq (Regex.Opt (Regex.Chr "#"))
    (Regex.Alt (Regex.Times 3 (Regex.Class p))
               (Regex.Times 6 (Regex.Class p))).

(** The table claim as the spec states it: the projection consists of one
    line per row of the table, with a separator line after the first. *)
Definition one_line_per_row (t : Table) : Prop :=
  exists (lines : list string) (n : nat),
    List.length lines = List.length (opt_list (tableRows t))
    /\ convertTableToMarkdown t
       = JS.nl
         ++ match lines with
            | [] => ""
            | first :: rest =>
                first ++ JS.nl ++ header_separator n ++ JS.nl
                ++ String.concat "" (List.map (fun l => l ++ JS.nl) rest)
            end
         ++ JS.nl.


(** [p] carries the named style [st]. *)
Definition styled (p : Paragraph) (st : string) : Prop :=
  exists ps, paragraphStyle p = Some ps /\ namedStyleType ps = Some st.

(** The paragraph has text left once trimmed. *)
Definition has_text (p : Paragraph) : Prop :=
  JS.trim (paragraph_markdown_text p) <> "".

Definition heading_line (level : nat) (text : string) : string :=
  JS.repeat_nat "#" level ++ " " ++ JS.trim text ++ JS.nl ++ JS.nl.

Definition bullet_line (text : string) : string :=
  "- " ++ JS.trim text ++ JS.nl.

(** A run with the given content and the given flags and link. *)
Definition styled_run (content : option string)
  (b i u s : bool) (l : option Link) : TextRun :=
  mkTextRun content (Some (mkTextStyle b i u s l)).

(** The run rules as the spec words them, one wrapper for each: emphasis
    for bold and italic, tags for an underline that is not a link, tildes
    for a strikethrough, and the link syntax for a link that has a URL. *)
Definition emphasised (b i : bool) (t : string) : string :=
  match b, i with
  | true, true => "***" ++ t ++ "***"
  | true, false => "**" ++ t ++ "**"
  | false, true => "*" ++ t ++ "*"
  | false, false => t
  end.

Definition underlined (u : bool) (l : option Link) (t : string) : string :=
  match u, l with
  | true, None => "<u>" ++ t ++ "</u>"
  | _, _ => t
  end.

Definition struck (s : bool) (t : string) : string :=
  if s then "~~" ++ t ++ "~~" else t.

(** The target of a link: its URL, when it has one that is not empty. *)
Definition link_target (l : option Link) : option string :=
  match l with
  | Some (mkLink (Some u)) => if (u =? "")%string then None else Some u
  | _ => None
  end.

Definition linked (l : option Link) (t : string) : string :=
  match link_target l with
  | Some u => "[" ++ t ++ "](" ++ u ++ ")"
  | None => t
  end.

(** The horizontal rule a section break is rendered as. *)
Definition horizontal_rule : string := JS.nl ++ "---" ++ JS.nl ++ JS.nl.

(** The element is a section break: it is neither a paragraph nor a
    table, and it has a [sectionBreak]. *)
Definition is_section_break (e : StructuralElement) : Prop :=
  paragraph e = None /\ table e = None /\ sectionBreak e <> None.

(** An element that is only a section break. *)
Definition section_break_element : StructuralElement :=
  mkStructuralElement None None None None (Some tt).

(** The heading and bullet rules as the spec states them, for every
    paragraph. *)
Definition heading_rendering_claim : Prop :=
  forall (p : Paragraph) (n : N),
    styled p ("HEADING_" ++ numeral n) ->
    exists rest : string,
      convertParagraphToMarkdown p
      = inr (JS.repeat_nat "#" (N.to_nat (N.min n 6)) ++ " "
             ++ JS.trim (paragraph_markdown_text p) ++ rest).

Definition bullet_rendering_claim : Prop :=
  forall (p : Paragraph) (b : Bullet),
    bullet p = Some b ->
    exists rest : string,
      convertParagraphToMarkdown p
      = inr ("- " ++ JS.trim (paragraph_markdown_text p) ++ rest).

(** What [readGoogleDoc] answers for plain text, truncated or not. *)
Definition text_answer (maxLength : option JS.Number) (textContent : string)
  : string :=
  if JS.truthy (JS.trim textContent) then
    match limit_exceeded maxLength (String.length textContent) with
    | Some m =>
        "Content (truncated to " ++ JS.show m ++ " chars of "
        ++ JS.num (Z.of_nat (String.length textContent)) ++ " total):"
        ++ JS.nl ++ "---" ++ JS.nl ++ JS.substring_to m textContent
        ++ JS.nl ++ JS.nl ++ "... [Document continues for "
        ++ JS.show_rest (Z.of_nat (String.length textContent)) m
        ++ " more characters. Use maxLength parameter to adjust limit or remove it to get full content.]"
    | None => text_header (String.length textContent) ++ textContent
    end
  else "Document found, but appears empty.".

(** What [readGoogleDoc] answers for markdown, truncated or not. *)
Definition markdown_answer (maxLength : option JS.Number)
  (markdownContent : string) : string :=
  match limit_exceeded maxLength (String.length markdownContent) with
  | Some m =>
      JS.substring_to m markdownContent ++ JS.nl ++ JS.nl
      ++ "... [Markdown truncated to " ++ JS.show m ++ " chars of "
      ++ JS.num (Z.of_nat (String.length markdownContent))
      ++ " total. Use maxLength parameter to adjust limit or remove it to get full content.]"
  | None => markdownContent
  end.

(** No table cell of the body holds a table of its own. *)
Definition shallow_tables (b : option Body) : Prop :=
  forall e t rows row cells cell ces ce,
    In e (opt_list (body_content b)) ->
    table e = Some t -> tableRows t = Some rows -> In row rows ->
    tableCells row = Some cells -> In cell cells ->
    cell_content cell = Some ces -> In ce ces ->
    table ce = None.

(** Content of [length] characters is longer than the number [x]. *)
Definition longer_than (length : nat) (x : JS.Number) : Prop :=
  match x with
  | JS.Whole m => m < Z.of_nat length
  | JS.Fractional floor _ _ => floor < Z.of_nat length
  | JS.Infinite negative => negative = true
  end.

(** The number [x], as a limit on content that is longer, keeps the
    characters before position [m]: a whole number other than [0] keeps
    that many, a number with a fractional part as many as the whole number
    below it, and minus infinity none. *)
Inductive keeps (length : nat) : JS.Number -> Z -> Prop :=
| keeps_whole (m : Z) :
    m <> 0 -> m < Z.of_nat length -> keeps length (JS.Whole m) m
| keeps_fraction (floor : Z) (text : string) (rest_text : Z -> string) :
    floor < Z.of_nat length ->
    keeps length (JS.Fractional floor text rest_text) floor
| keeps_nothing : keeps length (JS.Infinite true) 0.

(** The limit applies to content of the given length and cuts it at [m]:
    it was given, is not [0], and the content is longer. *)
Definition limit_applies (maxLength : option JS.Number) (length : nat) (m : Z)
  : Prop :=
  exists x, maxLength = Some x /\ keeps length x m.

(** No limit applies: none was given, or [0], or one the content fits in. *)
Definition unlimited (maxLength : option JS.Number) (length : nat) : Prop :=
  maxLength = None \/ maxLength = Some (JS.Whole 0)
  \/ exists x, maxLength = Some x /\ ~ longer_than length x.

(** Sample calls on the stand-in service. *)
Module Sample.

Definition read_missing_tab : ReadGoogleDocArgs :=
  mkReadGoogleDocArgs "tabbed" text None (Some "t.9").

Definition append_to_shell_tab : AppendToGoogleDocArgs :=
  mkAppendToGoogleDocArgs "tabbed" "More" true (Some "t.1").

Definition read_with_empty_tabId : ReadGoogleDocArgs :=
  mkReadGoogleDocArgs "legacy" text None (Some "").

Definition delete_empty_range_in_missing_tab : DeleteRangeArgs :=
  mkDeleteRangeArgs "tabbed" 5 5 (Some "t.9").

Definition delete_backwards : DeleteRangeArgs :=
  mkDeleteRangeArgs "legacy" 5 2 None.

Definition bold : TextStyleArgs.t :=
  TextStyleArgs.mk (Some true) None None None None None None None None.

Definition style_backwards : ApplyTextStyleToolArgs :=
  mkApplyTextStyleToolArgs "legacy" (TextRangeTarget 7 3) bold.

Definition centered : ParagraphStyleArgs :=
  mkParagraphStyleArgs (Some "CENTER") None None None.

Definition paragraph_backwards : ApplyParagraphStyleToolArgs :=
  mkApplyParagraphStyleToolArgs "legacy" (ParagraphRangeTarget 4 4) centered.

Definition style_nothing : ApplyTextStyleToolArgs :=
  mkApplyTextStyleToolArgs "legacy" (TextFindTarget "Hello" (Some 1))
    TextStyleArgs.empty.

Definition format_nothing : FormatMatchingTextArgs :=
  mkFormatMatchingTextArgs "legacy" "Hello" None TextStyleArgs.empty.

Definition format_red : FormatMatchingTextArgs :=
  mkFormatMatchingTextArgs "legacy" "Hello" None
    (TextStyleArgs.mk None None None None None None (Some "red") None None).

Definition append_to_report : AppendToGoogleDocArgs :=
  mkAppendToGoogleDocArgs "report" "More" true None.

Definition read_text (documentId : string) (maxLength : option JS.Number)
  : ReadGoogleDocArgs :=
  mkReadGoogleDocArgs documentId text maxLength None.

Definition read_markdown (documentId : string)
  (maxLength : option JS.Number)
  : ReadGoogleDocArgs :=
  mkReadGoogleDocArgs documentId markdown maxLength None.

(** A bold, struck-through run that links somewhere. *)
Definition bold_struck_link : TextRun :=
  styled_run (Some "x") true false false true
    (Some (mkLink (Some "https://example.org"))).

(** A heading without text, and a bulleted heading. *)
Definition empty_heading : Paragraph :=
  mkParagraph None (Some (mkParagraphStyle (Some "HEADING_1"))) None.

Definition bulleted_heading : Paragraph :=
  mkParagraph (Some [plain_run "x"])
    (Some (mkParagraphStyle (Some "HEADING_2"))) (Some (mkBullet None)).

Definition heading_3 : Paragraph :=
  mkParagraph (Some [plain_run " Plan "])
    (Some (mkParagraphStyle (Some "HEADING_3"))) None.

(** A table whose only row has no cell list, and one whose first row has
    none. *)
Definition row_without_cells : Table := mkTable (Some [mkTableRow None]).

Definition first_row_without_cells : Table :=
  mkTable (Some [mkTableRow None;
                 mkTableRow (Some [text_cell "c"; text_cell "d"])]).

Definition two_rows : list TableRow :=
  [mkTableRow (Some [text_cell "a"; text_cell "b"]);
   mkTableRow (Some [text_cell "c"; text_cell "d"])].

End Sample.

(* ================================================================== *)
(** ** Vocabulary for what a tool call does to the world *)
(* ================================================================== *)

Section Effects.

Context {C : Collaborators}.

(** The computation hands back the world it was given. *)
Definition read_only {A : Type} (m : M A) : Prop :=
  forall w : World, snd (m w) = w.

(** The computation hands back the world it was given, or journals exactly
    one mutating call after those already there. *)
Definition single_mutation {A : Type} (m : M A) : Prop :=
  forall w : World,
    snd (m w) = w
    \/ exists (call : MutatingCall) (remote' : Remote),
         snd (m w) = mkWorld remote' (journal w ++ [call]).

End Effects.

(** The failure, if any, is one of the two classes the tools name. *)
Definition translated {A : Type} (r : Result A) : Prop :=
  match r with
  | inl (Thrown _) => False
  | _ => True
  end.

(** The failure, if any, is a [UserError]. *)
Definition user_error_or_value {A : Type} (r : Result A) : Prop :=
  match r with
  | inl (UserError _) | inr _ => True
  | inl _ => False
  end.

(** The marker [readGoogleDoc] puts after truncated JSON. *)
Definition truncated_json_marker (totalLength : nat) : string :=
  JS.nl ++ "... [JSON truncated: " ++ JS.num (Z.of_nat totalLength)
  ++ " total chars]".

(** The string is empty or starts with a character that is not white
    space. *)
Definition starts_clean (s : string) : Prop :=
  match s with
  | String c _ => JS.is_ws c = false
  | EmptyString => True
  end.

(** [t] occurs in [s]. *)
Definition occurs_in (t s : string) : Prop :=
  exists pre post : string, s = pre ++ t ++ post.

(** More sample paragraphs. *)
Module MoreSamples.

Definition negative_heading : Paragraph :=
  mkParagraph (Some [plain_run "Plan"])
    (Some (mkParagraphStyle (Some "HEADING_-2"))) None.

Definition normal_paragraph : Paragraph :=
  mkParagraph (Some [plain_run " Body text "; plain_run JS.nl])
    (Some (mkParagraphStyle (Some "NORMAL_TEXT"))) None.

End MoreSamples.

Section Submission.

Context {C : Collaborators}.

(** The world after one batch has been handed to [executeBatchUpdate]. *)
Definition submitted (w : World) (documentId : string)
  (requests : list Request) : World :=
  mkWorld (snd (executeBatchUpdate (remote w) documentId requests))
    (journal w ++ [BatchUpdate documentId requests]).

(** [executeBatchUpdate] returns normally on that batch. *)
Definition accepted (w : World) (documentId : string)
  (requests : list Request) : Prop :=
  fst (executeBatchUpdate (remote w) documentId requests) = inr tt.

(** The tab named by the call, if any, is found and has a
    [documentTab]. *)
Definition tab_available (doc : Document) (tabId : option string) : Prop :=
  match tabId with
  | Some t =>
      exists tab dt, findTabById doc t = Some tab /\ documentTab tab = Some dt
  | None => True
  end.

End Submission.

(** The body has nothing to append after: no content, no element, or a
    last element without a usable [endIndex]. *)
Definition nothing_to_append_after
  (bodyContent : option (list StructuralElement)) : Prop :=
  bodyContent = None
  \/ bodyContent = Some []
  \/ exists before lastElement,
       bodyContent = Some (before ++ [lastElement])%list
       /\ (se_endIndex lastElement = None \/ se_endIndex lastElement = Some 0).

(** What a [catch] block reads of a thrown value that is not a
    [UserError]: the message it carries, if it carries one that is not
    empty. *)
Inductive carries_message : Failure -> string -> Prop :=
| thrown_message (e : JsError) :
    err_message e <> "" -> carries_message (Thrown e) (err_message e)
| not_implemented_message (m : string) :
    m <> "" -> carries_message (NotImplementedError m) m.

Inductive carries_no_message : Failure -> Prop :=
| thrown_without_message (e : JsError) :
    err_message e = "" -> carries_no_message (Thrown e)
| not_implemented_without_message :
    carries_no_message (NotImplementedError "").

(** The details [readGoogleDoc] reports of an error: the message of the
    API response when it has one that is not empty, else the error's own
    message when that is not empty, else [Unknown error]. *)
Inductive error_details (e : JsError) : string -> Prop :=
| details_of_response (m : string) :
    err_api_message e = Some m -> m <> "" -> error_details e m
| details_of_error :
    err_api_message e = None \/ err_api_message e = Some "" ->
    err_message e <> "" ->
    error_details e (err_message e)
| details_unknown :
    err_api_message e = None \/ err_api_message e = Some "" ->
    err_message e = "" ->
    error_details e "Unknown error".

(** The code [readGoogleDoc] reports of an error: that of the API response
    when it has one other than [0], else the error's own when it has one
    other than [0], else none. *)
Inductive reported_code (e : JsError) : option Z -> Prop :=
| code_of_response (c : Z) :
    err_api_code e = Some c -> c <> 0 -> reported_code e (Some c)
| code_of_error (c : Z) :
    err_api_code e = None \/ err_api_code e = Some 0 ->
    err_code e = Some c -> c <> 0 ->
    reported_code e (Some c)
| code_missing :
    err_api_code e = None \/ err_api_code e = Some 0 ->
    err_code e = None \/ err_code e = Some 0 ->
    reported_code e None.

(** How the reported code ends the message. *)
Definition code_suffix (code : option Z) : string :=
  match code with
  | Some c => " (Code: " ++ JS.num c ++ ")"
  | None => ""
  end.

Section LegacyInsert.

Context {C : Collaborators}.

(** The world after the legacy [insertText] helper has been called. *)
Definition legacy_inserted (w : World) (documentId text : string) (i : Z)
  : World :=
  mkWorld (snd (helpers_insertText (remote w) documentId text i))
    (journal w ++ [LegacyInsertText documentId text i]).

End LegacyInsert.

(** The success messages of [insertText] and [deleteRange]. *)
Definition insert_success (args : InsertTextArgs) : string :=
  "Successfully inserted text at index " ++ JS.num (insert_index args)
  ++ match given (insert_tabId args) with
     | Some tabId => " in tab " ++ tabId
     | None => ""
     end
  ++ ".".

Definition delete_success (args : DeleteRangeArgs) : string :=
  "Successfully deleted content in range "
  ++ JS.num (delete_startIndex args) ++ "-" ++ JS.num (delete_endIndex args)
  ++ match given (delete_tabId args) with
     | Some tabId => " in tab " ++ tabId
     | None => ""
     end
  ++ ".".

(* ================================================================== *)
(** ** The quoted text of [addComment] *)
(* ================================================================== *)

(** [s.substring(a, b)]: both ends are clamped to [0 .. s.length] and
    swapped when they come out of order. *)
Definition js_substring (a b : Z) (s : string) : string :=
  let len := Z.of_nat (String.length s) in
  let a' := Z.min (Z.max a 0) len in
  let b' := Z.min (Z.max b 0) len in
  let from := Z.min a' b' in
  let to := Z.max a' b' in
  String.substring (Z.to_nat from) (Z.to_nat (to - from)) s.

(** The fields [addComment] reads of a paragraph element, of a paragraph
    and of a structural element. *)
Record IndexedElement := mkIndexedElement {
  ie_startIndex : option Z;
  ie_endIndex : option Z;
  ie_textRun : option TextRun
}.

Record IndexedParagraph := mkIndexedParagraph {
  ip_elements : option (list IndexedElement)
}.

Record IndexedStructuralElement := mkIndexedStructuralElement {
  is_paragraph : option IndexedParagraph
}.

(** [n || 0] on an index. *)
Definition or_zero (o : option Z) : Z :=
  match o with Some n => n | None => 0 end.

(** The body of the inner loop of [addComment]: what one paragraph element
    adds to [quotedText]. *)
Definition quote_element (startIndex endIndex : Z) (quotedText : string)
  (textElement : IndexedElement) : string :=
  match ie_textRun textElement with
  | Some run =>
      let elementStart := or_zero (ie_startIndex textElement) in
      let elementEnd := or_zero (ie_endIndex textElement) in
      if ((elementEnd >? startIndex) && (elementStart <? endIndex))%bool then
        let text := JS.or_else (tr_content run) "" in
        let startOffset := Z.max 0 (startIndex - elementStart) in
        let endOffset :=
          Z.min (Z.of_nat (String.length text)) (endIndex - elementStart) in
        quotedText ++ js_substring startOffset endOffset text
      else quotedText
  | None => quotedText
  end.

(** [quotedText] after the two loops of [addComment] over
    [doc.data.body?.content || []]. *)
Definition quoted_text (content : option (list IndexedStructuralElement))
  (startIndex endIndex : Z) : string :=
  fold_left
    (fun quotedText element =>
       match is_paragraph element with
       | Some p =>
           fold_left (quote_element startIndex endIndex)
             (opt_list (ip_elements p)) quotedText
       | None => quotedText
       end)
    (opt_list content) "".

(** The paragraph elements of the body, in order. *)
Definition paragraph_elements (content : list IndexedStructuralElement)
  : list IndexedElement :=
  List.flat_map
    (fun element =>
       match is_paragraph element with
       | Some p => opt_list (ip_elements p)
       | None => []
       end) content.

Definition element_text (x : IndexedElement) : string :=
  match ie_textRun x with
  | Some run => run_text (tr_content run)
  | None => ""
  end.

Definition elements_text (l : list IndexedElement) : string :=
  String.concat "" (List.map element_text l).

(** The elements are text runs that follow one another from index [from]:
    each starts where the one before ended and is as long as its text. *)
Fixpoint consecutive_runs (from : Z) (l : list IndexedElement) : Prop :=
  match l with
  | [] => True
  | x :: r =>
      (exists run, ie_textRun x = Some run)
      /\ or_zero (ie_startIndex x) = from
      /\ or_zero (ie_endIndex x)
         = from + Z.of_nat (String.length (element_text x))
      /\ consecutive_runs
           (from + Z.of_nat (String.length (element_text x))) r
  end.

(** The characters of [s] at the positions [i] with [x <= i < y]. *)
Fixpoint slice (x y : Z) (s : string) : string :=
  match s with
  | String c r =>
      if ((x <=? 0) && (0 <? y))%bool then String c (slice (x - 1) (y - 1) r)
      else slice (x - 1) (y - 1) r
  | EmptyString => EmptyString
  end.

Module CommentSamples.

Definition run_at (s e : Z) (t : string) : IndexedElement :=
  mkIndexedElement (Some s) (Some e) (Some (mkTextRun (Some t) None)).

(** Two paragraphs, [Hello ] and [world!], from index [1]. *)
Definition two_paragraphs : list IndexedStructuralElement :=
  [mkIndexedStructuralElement
     (Some (mkIndexedParagraph (Some [run_at 1 4 "Hel"; run_at 4 7 "lo "])));
   mkIndexedStructuralElement
     (Some (mkIndexedParagraph (Some [run_at 7 13 "world!"])))].

End CommentSamples.

(** A body with a heading, a section break and a table. *)
Definition sample_body_elements : list StructuralElement :=
  [para_element 1 7 Sample.heading_3;
   section_break_element;
   table_element 8 30 (mkTable (Some Sample.two_rows))].

(** A service that is down: every call to it throws the error it holds,
    and nothing changes. *)
Module Outage.

Definition collaborators : Collaborators := {|
  Remote := JsError;
  documents_get := fun r _ _ _ => inl r;
  executeBatchUpdate := fun r _ _ => (inl (Thrown r), r);
  helpers_insertText := fun r _ _ _ => (inl (Thrown r), r);
  findTextRange := fun r _ _ _ => inl (Thrown r);
  getParagraphRange := fun r _ _ => inl (Thrown r);
  buildUpdateParagraphStyleRequest := fun _ _ _ => inr None;
  JSON_stringify := fun _ => "{}";
  is_url := fun u => String.prefix "http" u
|}.

(** An error with a code and a message of its own, and no API response. *)
Definition backend_error : JsError :=
  mkJsError (Some 503) "Backend Error" None None.

(** An error whose API response has a message and a code of its own. *)
Definition quota_error : JsError :=
  mkJsError (Some 500) "Request failed" (Some "Quota exceeded") (Some 429).

(** An error with nothing but a message. *)
Definition rate_error : JsError := mkJsError None "rate" None None.

Definition world (e : JsError) : @World collaborators :=
  mkWorld (C := collaborators) e [].

End Outage.

(** More sample calls on the stand-in service. *)
Module MoreCalls.

Definition read_missing : ReadGoogleDocArgs :=
  mkReadGoogleDocArgs "missing" text None None.

(** The number [1.5], with the texts JavaScript prints for it and for
    [n - 1.5]. *)
Definition one_and_a_half : JS.Number :=
  JS.Fractional 1 "1.5"
    (fun n => if 2 <=? n then JS.num (n - 2) ++ ".5"
              else "-" ++ JS.num (1 - n) ++ ".5").

Definition read_json (maxLength : option JS.Number) : ReadGoogleDocArgs :=
  mkReadGoogleDocArgs "legacy" json maxLength None.

Definition append_to_child_tab : AppendToGoogleDocArgs :=
  mkAppendToGoogleDocArgs "tabbed" "First line" true (Some "t.2").

Definition append_raw : AppendToGoogleDocArgs :=
  mkAppendToGoogleDocArgs "report" "More" false None.

Definition append_to_open_ended : AppendToGoogleDocArgs :=
  mkAppendToGoogleDocArgs "open" "More" true None.

Definition insert_in_tab : InsertTextArgs :=
  mkInsertTextArgs "tabbed" "Hi" 3 (Some "t.0").

Definition insert_legacy : InsertTextArgs :=
  mkInsertTextArgs "legacy" "Hi" 3 None.

Definition delete_2_5 : DeleteRangeArgs :=
  mkDeleteRangeArgs "legacy" 2 5 None.

Definition style_missing_text : ApplyTextStyleToolArgs :=
  mkApplyTextStyleToolArgs "legacy" (TextFindTarget "Nope" (Some 2))
    Sample.bold.

Definition style_hello_bold : ApplyTextStyleToolArgs :=
  mkApplyTextStyleToolArgs "legacy" (TextFindTarget "Hello" None) Sample.bold.

Definition center_index_9 : ApplyParagraphStyleToolArgs :=
  mkApplyParagraphStyleToolArgs "legacy" (ParagraphIndexTarget 9)
    Sample.centered.

Definition center_hello : ApplyParagraphStyleToolArgs :=
  mkApplyParagraphStyleToolArgs "legacy" (ParagraphFindTarget "Hello" None)
    Sample.centered.

Definition format_missing_text : FormatMatchingTextArgs :=
  mkFormatMatchingTextArgs "legacy" "Nope" None Sample.bold.

Definition format_hello_bold : FormatMatchingTextArgs :=
  mkFormatMatchingTextArgs "legacy" "Hello" (Some 1) Sample.bold.

Definition bold_request (s e : Z) : Request :=
  updateTextStyle (mkRange s e None) Sample.bold "bold".

Definition center_request (s e : Z) : Request :=
  updateParagraphStyle (mkRange s e None) Sample.centered "alignment".

Definition linked_bold_run : TextRun :=
  mkTextRun (Some "docs")
    (Some (mkTextStyle true false true false
             (Some (mkLink (Some "https://example.org"))))).

End MoreCalls.

(* ================================================================== *)
(** ** Properties of the handlers *)
(* ================================================================== *)

Ltac run_handler :=
  unfold try_catch, bind, ret, throw, lift, call_documents_get,
    call_findTextRange, call_getParagraphRange, require_document_tab;
  cbn [fst snd].

Section HandlerProperties.

Context {C : Collaborators}.

(** C4.  Whatever the arguments and the state of the service, the
    [editTableCell] and [findElement] tools fail with a
    [NotImplementedError]; the world they return is the one they were given,
    so no remote call was made and nothing was journalled, and they never
    return a success. *)
Theorem stubs_not_implemented :
  (forall (args : EditTableCellArgs) (w : World),
      editTableCell args w
      = (inl (NotImplementedError
                "Editing table cells is complex and not yet implemented."), w))
  /\ (forall (args : FindElementArgs) (w : World),
         findElement args w
         = (inl (NotImplementedError
                   "Finding elements by complex criteria is not yet implemented."),
            w)).
Proof. split; intros; reflexivity. Qed.

Lemma deleteRange_invalid (args : DeleteRangeArgs) (w : World) :
  delete_endIndex args <= delete_startIndex args ->
  deleteRange args w
  = (inl (UserError "End index must be greater than start index for deletion."),
     w).
Proof.
  intros H. unfold deleteRange.
  destruct (Z.leb_spec (delete_endIndex args) (delete_startIndex args)); [|lia].
  reflexivity.
Qed.

Lemma deleteRange_schema_invalid (args : DeleteRangeArgs) :
  delete_endIndex args <= delete_startIndex args ->
  In (Custom "endIndex" "endIndex must be greater than startIndex")
     (deleteRange_schema args).
Proof.
  intros H. unfold deleteRange_schema.
  destruct (Z.gtb_spec (delete_endIndex args) (delete_startIndex args)); [lia|].
  apply in_or_app; right. apply in_or_app; right. now left.
Qed.

Lemma tool_rejects {A : Type} (schema : A -> list Issue)
  (execute : A -> M string) (args : A) (w : World) (i : Issue) :
  In i (schema args) ->
  tool schema execute args w = (Rejected (schema args), w).
Proof.
  unfold tool. destruct (schema args); [intros [] | reflexivity].
Qed.

Lemma applyTextStyle_invalid (args : ApplyTextStyleToolArgs) (w : World)
  (s e : Z) :
  text_target_range (remote w) (ats_documentId args) (ats_target args)
  = Some (s, e) ->
  e <= s ->
  applyTextStyle args w
  = (inl (UserError "End index must be greater than start index for styling."),
     w).
Proof.
  intros Hr He. unfold applyTextStyle, text_target_range in *.
  destruct (ats_target args) as [s0 e0 | q mi].
  - injection Hr as -> ->. run_handler.
    destruct (Z.leb_spec e s); [reflexivity | lia].
  - run_handler.
    destruct (findTextRange (remote w) (ats_documentId args) q mi)
      as [f | [r |]]; try discriminate.
    injection Hr as <- <-.
    destruct (Z.leb_spec (found_endIndex r) (found_startIndex r));
      [reflexivity | lia].
Qed.

Lemma applyParagraphStyle_invalid (args : ApplyParagraphStyleToolArgs)
  (w : World) (s e : Z) :
  paragraph_target_range (remote w) (aps_documentId args) (aps_target args)
  = Some (s, e) ->
  e <= s ->
  applyParagraphStyle args w
  = (inl (UserError ("Invalid paragraph range: end index (" ++ JS.num e
                     ++ ") must be greater than start index (" ++ JS.num s
                     ++ ").")), w).
Proof.
  intros Hr He. unfold applyParagraphStyle, paragraph_target_range in *.
  destruct (aps_target args) as [q mi | i | s0 e0]; run_handler.
  - destruct (findTextRange (remote w) (aps_documentId args) q
                (Some (instance_or_1 mi))) as [f | [r |]]; try discriminate.
    destruct (getParagraphRange (remote w) (aps_documentId args)
                (found_startIndex r)) as [f | [pr |]]; try discriminate.
    injection Hr as <- <-.
    destruct (Z.leb_spec (found_endIndex pr) (found_startIndex pr));
      [reflexivity | lia].
  - destruct (getParagraphRange (remote w) (aps_documentId args) i)
      as [f | [pr |]]; try discriminate.
    injection Hr as <- <-.
    destruct (Z.leb_spec (found_endIndex pr) (found_startIndex pr));
      [reflexivity | lia].
  - injection Hr as -> ->.
    destruct (Z.leb_spec e s); [reflexivity | lia].
Qed.

(** C2.  When the range a call resolves to has [endIndex <= startIndex],
    [deleteRange], [applyTextStyle] and [applyParagraphStyle] fail with
    their invalid-range error and hand back the world unchanged: nothing is
    journalled and the remote state is the one before the call.  For
    [deleteRange] both the parameter schema and the guard at the top of
    [execute] reject the call. *)
Theorem invalid_range_rejected :
  (forall (args : DeleteRangeArgs) (w : World),
      delete_endIndex args <= delete_startIndex args ->
      deleteRange_tool args w = (Rejected (deleteRange_schema args), w)
      /\ In (Custom "endIndex" "endIndex must be greater than startIndex")
            (deleteRange_schema args)
      /\ deleteRange args w
         = (inl (UserError
                   "End index must be greater than start index for deletion."),
            w))
  /\ (forall (args : ApplyTextStyleToolArgs) (w : World) (s e : Z),
         text_target_range (remote w) (ats_documentId args) (ats_target args)
         = Some (s, e) ->
         e <= s ->
         applyTextStyle args w
         = (inl (UserError
                   "End index must be greater than start index for styling."),
            w))
  /\ (forall (args : ApplyParagraphStyleToolArgs) (w : World) (s e : Z),
         paragraph_target_range (remote w) (aps_documentId args)
           (aps_target args) = Some (s, e) ->
         e <= s ->
         applyParagraphStyle args w
         = (inl (UserError ("Invalid paragraph range: end index ("
                            ++ JS.num e
                            ++ ") must be greater than start index ("
                            ++ JS.num s ++ ").")), w)).
Proof.
  split; [|split].
  - intros args w H. split; [|split].
    + eapply tool_rejects, deleteRange_schema_invalid, H.
    + apply deleteRange_schema_invalid, H.
    + apply deleteRange_invalid, H.
  - apply applyTextStyle_invalid.
  - apply applyParagraphStyle_invalid.
Qed.

(** *** Tab lookup *)

Lemma find_app_first {A : Type} (p : A -> bool) (l1 l2 : list A) :
  List.find p (l1 ++ l2)
  = match List.find p l1 with
    | Some x => Some x
    | None => List.find p l2
    end.
Proof.
  induction l1 as [|a l1 IH]; simpl; [reflexivity|].
  destruct (p a); [reflexivity | exact IH].
Qed.

(** The search of [findTabById] returns the first tab, parents before
    children, that carries the identifier. *)
Lemma searchTab_first (wanted : string) :
  forall t : Tab,
    searchTab wanted t = List.find (has_tabId wanted) (tab_and_descendants t).
Proof.
  fix IH 1. intros [props dt children].
  cbn [searchTab tab_and_descendants List.find tabProperties childTabs].
  change (match props with
          | Some props0 =>
              match tabId props0 with
              | Some i => (i =? wanted)%string
              | None => false
              end
          | None => false
          end) with (has_tabId wanted (mkTab props dt children)).
  destruct (has_tabId wanted (mkTab props dt children)); [reflexivity|].
  destruct children as [children|]; [|reflexivity].
  induction children as [|c r IHr]; [reflexivity|].
  cbn [List.flat_map]. rewrite find_app_first, <- IH.
  destruct (searchTab wanted c); [reflexivity | exact IHr].
Qed.

Lemma searchTabs_first (wanted : string) (l : list Tab) :
  searchTabs wanted l
  = List.find (has_tabId wanted) (List.flat_map tab_and_descendants l).
Proof.
  induction l as [|c r IH]; [reflexivity|].
  cbn [searchTabs List.flat_map].
  rewrite find_app_first, <- searchTab_first.
  destruct (searchTab wanted c); [reflexivity | exact IH].
Qed.

Lemma findTabById_first (doc : Document) (wanted : string) :
  findTabById doc wanted = List.find (has_tabId wanted) (all_tabs doc).
Proof.
  unfold findTabById, all_tabs. destruct (tabs doc); [|reflexivity].
  apply searchTabs_first.
Qed.

Lemma findTabById_none (doc : Document) (wanted : string) :
  findTabById doc wanted = None
  <-> (forall t, In t (all_tabs doc) -> has_tabId wanted t = false).
Proof.
  rewrite findTabById_first. split.
  - intros H t Ht. exact (List.find_none _ _ H t Ht).
  - intros H. destruct (List.find (has_tabId wanted) (all_tabs doc)) eqn:E;
      [|reflexivity].
    apply List.find_some in E. destruct E as [Hin Hid].
    rewrite (H _ Hin) in Hid. discriminate.
Qed.

Lemma given_nonempty (tabId : string) :
  tabId <> "" -> given (Some tabId) = Some tabId.
Proof.
  intros H. unfold given, JS.truthy.
  destruct (String.eqb_spec tabId ""); [contradiction | reflexivity].
Qed.

Lemma truthy_nonempty (tabId : string) :
  tabId <> "" -> JS.truthy_opt (Some tabId) = true.
Proof.
  intros H. unfold JS.truthy_opt, JS.truthy.
  destruct (String.eqb_spec tabId ""); [contradiction | reflexivity].
Qed.

Lemma require_document_tab_fails (doc : Document) (tabId msg : string)
  (w : World) :
  tab_failure doc tabId msg ->
  require_document_tab doc tabId w = (inl (UserError msg), w).
Proof.
  intros [Hnone | tab Hfind Hdt]; unfold require_document_tab.
  - apply findTabById_none in Hnone. rewrite Hnone. reflexivity.
  - rewrite findTabById_first, Hfind, Hdt. reflexivity.
Qed.

(** C1, as the code has it.  With a non-empty [tabId], when the document
    the handler fetches has no tab with that identifier, or the first tab
    with it has no [documentTab], then [readGoogleDoc],
    [appendToGoogleDoc], [insertText] and [deleteRange] (called with
    [endIndex > startIndex]) fail with the matching message and hand back
    the world unchanged: no mutating call was journalled and the remote
    state is the one before the call. *)
Theorem tab_failure_precedes_mutation
  (doc : Document) (tabId msg : string) (w : World) :
  tabId <> "" ->
  tab_failure doc tabId msg ->
  (forall args : ReadGoogleDocArgs,
      read_tabId args = Some tabId ->
      documents_get (remote w) (read_documentId args) true "*" = inr doc ->
      readGoogleDoc args w = (inl (UserError msg), w))
  /\ (forall args : AppendToGoogleDocArgs,
         append_tabId args = Some tabId ->
         documents_get (remote w) (append_documentId args) true "tabs"
         = inr doc ->
         appendToGoogleDoc args w = (inl (UserError msg), w))
  /\ (forall args : InsertTextArgs,
         insert_tabId args = Some tabId ->
         documents_get (remote w) (insert_documentId args) true
           "tabs(tabProperties,documentTab)" = inr doc ->
         insertText args w = (inl (UserError msg), w))
  /\ (forall args : DeleteRangeArgs,
         delete_tabId args = Some tabId ->
         delete_startIndex args < delete_endIndex args ->
         documents_get (remote w) (delete_documentId args) true
           "tabs(tabProperties,documentTab)" = inr doc ->
         deleteRange args w = (inl (UserError msg), w)).
Proof.
  intros Hne Hfail.
  pose proof (require_document_tab_fails doc tabId msg w Hfail) as Hreq.
  pose proof (given_nonempty tabId Hne) as Hg.
  pose proof (truthy_nonempty tabId Hne) as Ht.
  repeat split; intros args Hid.
  - intros Hget. unfold readGoogleDoc. rewrite Hid, Hg, Ht.
    unfold try_catch, bind, call_documents_get.
    rewrite Hget, Hreq. reflexivity.
  - intros Hget. unfold appendToGoogleDoc. rewrite Hid, Hg, Ht.
    unfold try_catch, bind, call_documents_get.
    rewrite Hget, Hreq. reflexivity.
  - intros Hget. unfold insertText. rewrite Hid, Hg.
    unfold try_catch, bind, call_documents_get.
    rewrite Hget, Hreq. reflexivity.
  - intros Hrange Hget. unfold deleteRange.
    destruct (Z.leb_spec (delete_endIndex args) (delete_startIndex args));
      [lia|].
    rewrite Hid, Hg.
    unfold try_catch, bind, call_documents_get.
    rewrite Hget, Hreq. reflexivity.
Qed.

(** *** [appendToGoogleDoc] *)

Lemma require_document_tab_ok (doc : Document) (tabId : string) (tab : Tab)
  (dt : DocumentTab) (w : World) :
  findTabById doc tabId = Some tab ->
  documentTab tab = Some dt ->
  require_document_tab doc tabId w = (inr dt, w).
Proof.
  intros H1 H2. unfold require_document_tab. rewrite H1, H2. reflexivity.
Qed.

(** The element [bodyContent[bodyContent.length - 1]] reads is the one the
    list ends with. *)
Lemma last_element_end {A : Type} (before : list A) (x : A) :
  last_element (before ++ [x]) = Some x.
Proof.
  unfold last_element. rewrite List.map_app. cbn [List.map].
  apply List.last_last.
Qed.

Lemma append_index_last (els : list StructuralElement)
  (lastElement : StructuralElement) (e : Z) :
  last_element els = Some lastElement ->
  se_endIndex lastElement = Some e ->
  e - 1 > 1 ->
  append_index (Some els) = e - 1.
Proof.
  intros Hl He Hgt. unfold append_index. rewrite Hl, He.
  destruct (Z.eqb_spec e 0); [lia | reflexivity].
Qed.

(** C10.  With [addNewlineIfNeeded] true, when the index computed from the
    last content element, the one the body's content ends with, its
    [endIndex] minus one, is greater than [1], [appendToGoogleDoc] issues
    exactly one batch, made of one [insertText] request at that index whose
    text is a line feed followed by [textToAppend]; no test looks at how
    the document ends.  The call succeeds when the batch does. *)
Theorem append_prepends_newline
  (args : AppendToGoogleDocArgs) (w : World) (doc : Document)
  (before : list StructuralElement) (lastElement : StructuralElement)
  (e : Z) :
  addNewlineIfNeeded args = true ->
  append_fetch (remote w) args = inr doc ->
  resolves_body doc (given (append_tabId args))
    (Some (before ++ [lastElement])%list) ->
  se_endIndex lastElement = Some e ->
  e - 1 > 1 ->
  let single :=
    [insertText_request (mkLocation (e - 1) (given (append_tabId args)))
       (JS.nl ++ textToAppend args)] in
  let submitted :=
    executeBatchUpdate (remote w) (append_documentId args) single in
  snd (appendToGoogleDoc args w)
  = mkWorld (snd submitted)
      (journal w ++ [BatchUpdate (append_documentId args) single])
  /\ (fst submitted = inr tt ->
      fst (appendToGoogleDoc args w) = inr (append_success args)).
Proof.
  intros Hnl Hget Hres Hend Hgt single submitted.
  set (els := (before ++ [lastElement])%list) in *.
  pose proof (last_element_end before lastElement
              : last_element els = Some lastElement) as Hlast.
  pose proof (append_index_last els lastElement e Hlast Hend Hgt) as Hidx.
  assert (Hbody :
    (match given (append_tabId args) with
     | Some tabId =>
         dt <- require_document_tab doc tabId ;;
         ret (body_content (tab_body dt))
     | None => ret (body_content (body doc))
     end)%handler w = (inr (Some els), w)).
  { inversion Hres as [Hg Hb | tabId tab dt Hfind Hdt Hg Hb].
    - reflexivity.
    - unfold bind. rewrite (require_document_tab_ok doc tabId tab dt w Hfind Hdt).
      unfold ret. rewrite Hb. reflexivity. }
  assert (Hrun :
    appendToGoogleDoc args w
    = (match fst submitted with
       | inl f =>
           inl (match f with
                | Thrown _ => wrap_failure "Failed to append to doc: " f
                | _ => f
                end)
       | inr _ => inr (append_success args)
       end,
       mkWorld (snd submitted)
         (journal w ++ [BatchUpdate (append_documentId args) single]))).
  { unfold appendToGoogleDoc, append_fetch in *.
    unfold try_catch, bind at 1, call_documents_get. rewrite Hget.
    unfold bind at 1. rewrite Hbody. rewrite Hidx, Hnl.
    destruct (Z.gtb_spec (e - 1) 1) as [_|]; [|lia].
    cbn [andb]. change (JS.truthy (JS.nl ++ textToAppend args)) with true.
    cbn [negb]. unfold bind, call_executeBatchUpdate, ret, throw.
    subst submitted. fold single.
    destruct (executeBatchUpdate (remote w) (append_documentId args) single)
      as [[f | []] remote']; cbn [fst snd]; [destruct f|]; reflexivity. }
  rewrite Hrun. cbn [fst snd]. split; [reflexivity|].
  intros ->. reflexivity.
Qed.

(** *** The empty style intent *)

Lemma build_empty_style (s e : Z) :
  buildUpdateTextStyleRequest s e TextStyleArgs.empty = inr None.
Proof. reflexivity. Qed.

Lemma applyTextStyle_empty (args : ApplyTextStyleToolArgs) (w : World)
  (s e : Z) :
  ats_style args = TextStyleArgs.empty ->
  text_target_range (remote w) (ats_documentId args) (ats_target args)
  = Some (s, e) ->
  s < e ->
  applyTextStyle args w
  = (inr "No valid text styling options were provided.", w).
Proof.
  intros Hs Hr Hlt. unfold applyTextStyle, text_target_range in *.
  rewrite Hs.
  destruct (ats_target args) as [s0 e0 | q mi]; run_handler.
  - injection Hr as -> ->.
    destruct (Z.leb_spec e s); [lia | reflexivity].
  - destruct (findTextRange (remote w) (ats_documentId args) q mi)
      as [f | [r |]]; try discriminate.
    injection Hr as <- <-.
    destruct (Z.leb_spec (found_endIndex r) (found_startIndex r));
      [lia | reflexivity].
Qed.

Lemma formatMatchingText_schema_empty (args : FormatMatchingTextArgs) :
  fmt_style args = TextStyleArgs.empty ->
  In (Custom "" no_option_message) (formatMatchingText_schema args).
Proof.
  intros Hs. unfold formatMatchingText_schema. rewrite Hs.
  repeat (apply in_or_app; right). now left.
Qed.

Lemma formatMatchingText_empty (args : FormatMatchingTextArgs) (w : World)
  (r : FoundRange) :
  fmt_style args = TextStyleArgs.empty ->
  findTextRange (remote w) (fmt_documentId args) (fmt_textToFind args)
    (Some (match fmt_matchInstance args with Some n => n | None => 1 end))
  = inr (Some r) ->
  formatMatchingText args w
  = (inr "No valid text styling options were provided.", w).
Proof.
  intros Hs Hr. unfold formatMatchingText. rewrite Hs. run_handler.
  rewrite Hr. reflexivity.
Qed.

(** C3, as the code has it.  With a style intent in which no attribute is
    set and a target that resolves to a range with [startIndex < endIndex],
    [applyTextStyle] returns the message [No valid text styling options were
    provided.] as its result and hands back the world unchanged.  The
    [execute] of [formatMatchingText] has the same branch, but its parameter
    schema refuses a call without any formatting option, so that through
    the tool the call is rejected with the schema's message; in both cases
    nothing is journalled. *)
Theorem empty_style_is_no_mutation :
  (forall (args : ApplyTextStyleToolArgs) (w : World) (s e : Z),
      ats_style args = TextStyleArgs.empty ->
      text_target_range (remote w) (ats_documentId args) (ats_target args)
      = Some (s, e) ->
      s < e ->
      applyTextStyle args w
      = (inr "No valid text styling options were provided.", w))
  /\ (forall (args : FormatMatchingTextArgs) (w : World),
         fmt_style args = TextStyleArgs.empty ->
         formatMatchingText_tool args w
         = (Rejected (formatMatchingText_schema args), w)
         /\ In (Custom "" no_option_message) (formatMatchingText_schema args))
  /\ (forall (args : FormatMatchingTextArgs) (w : World) (r : FoundRange),
         fmt_style args = TextStyleArgs.empty ->
         findTextRange (remote w) (fmt_documentId args) (fmt_textToFind args)
           (Some (match fmt_matchInstance args with
                  | Some n => n
                  | None => 1
                  end)) = inr (Some r) ->
         formatMatchingText args w
         = (inr "No valid text styling options were provided.", w)).
Proof.
  split; [|split].
  - apply applyTextStyle_empty.
  - intros args w Hs. split.
    + eapply tool_rejects, formatMatchingText_schema_empty, Hs.
    + apply formatMatchingText_schema_empty, Hs.
  - apply formatMatchingText_empty.
Qed.

End HandlerProperties.

(* ================================================================== *)
(** ** The colour validators of [formatMatchingText] *)
(* ================================================================== *)

Lemma color_regex_reads_characters (p : ascii -> bool) (s : string) :
  Regex.test_anchored (color_regex_over p) s = color_ok p s.
Proof.
  unfold Regex.test_anchored, color_regex_over, color_ok, digits_ok.
  destruct s as [|c1 [|c2 [|c3 [|c4 [|c5 [|c6 [|c7 [|c8 s]]]]]]]];
    cbn [Regex.run all_in String.length Nat.eqb];
    repeat match goal with
           | |- context [Ascii.eqb ?a ?c] => destruct (Ascii.eqb a c)
           | |- context [p ?c] => destruct (p c)
           end;
    cbn [andb orb]; try destruct (all_in p s); reflexivity.
Qed.

Lemma In_existsb (c : ascii) (l : list ascii) :
  In c l <-> List.existsb (Ascii.eqb c) l = true.
Proof.
  rewrite List.existsb_exists. split.
  - intros H. exists c. split; [exact H | apply Ascii.eqb_refl].
  - intros [x [Hx He]]. apply Ascii.eqb_eq in He. now subst.
Qed.

(** The class [[0-9A-Fa-f]] holds exactly of the hexadecimal digits. *)
Lemma hex_class_digits (c : ascii) :
  hex_class c = true <-> hexadecimal_digit c.
Proof.
  unfold hexadecimal_digit. rewrite In_existsb.
  destruct c as [[] [] [] [] [] [] [] []]; vm_compute; split; auto.
Qed.

Lemma all_in_Forall (d : string) :
  all_in hex_class d = true
  <-> Forall hexadecimal_digit (list_ascii_of_string d).
Proof.
  induction d as [|c r IH]; cbn [all_in list_ascii_of_string].
  - split; [constructor | reflexivity].
  - rewrite Bool.andb_true_iff, hex_class_digits, IH. split.
    + intros [H1 H2]. now constructor.
    + intros H. inversion H; subst. now split.
Qed.

Lemma digits_ok_spec (d : string) :
  digits_ok hex_class d = true
  <-> (String.length d = 3 \/ String.length d = 6)%nat
      /\ Forall hexadecimal_digit (list_ascii_of_string d).
Proof.
  unfold digits_ok.
  rewrite Bool.andb_true_iff, Bool.orb_true_iff, !Nat.eqb_eq, all_in_Forall.
  tauto.
Qed.

Lemma color_ok_spec (s : string) :
  color_ok hex_class s = true <-> hex_color s.
Proof.
  unfold color_ok, hex_color. rewrite Bool.orb_true_iff. split.
  - intros [H | H].
    + destruct s as [|c r]; [discriminate|].
      apply Bool.andb_true_iff in H. destruct H as [Hc Hr].
      apply Ascii.eqb_eq in Hc. subst c. apply digits_ok_spec in Hr.
      exists r. tauto.
    + apply digits_ok_spec in H. exists s. tauto.
  - intros [d [[-> | ->] [Hl Hf]]].
    + right. apply digits_ok_spec. tauto.
    + left. rewrite Ascii.eqb_refl. cbn [andb].
      apply digits_ok_spec. tauto.
Qed.

Lemma color_validator_spec (s : string) :
  color_validator s = true <-> hex_color s.
Proof.
  unfold color_validator.
  change color_regex with (color_regex_over hex_class).
  rewrite color_regex_reads_characters. apply color_ok_spec.
Qed.

Lemma color_issues_rejects (path message color : string) :
  ~ hex_color color ->
  color_issues path message (Some color) = [Custom path message].
Proof.
  intros H. unfold color_issues.
  destruct (color_validator color) eqn:E; [|reflexivity].
  apply color_validator_spec in E. contradiction.
Qed.

Lemma color_issues_accepts (path message color : string) :
  hex_color color ->
  color_issues path message (Some color) = [].
Proof.
  intros H. unfold color_issues.
  apply color_validator_spec in H. rewrite H. reflexivity.
Qed.

(** C5.  The predicate both colour fields of [formatMatchingText] are
    refined with accepts exactly the strings made of 3 or 6 hexadecimal
    digits after an optional [#]; in particular [#FFF], [#FFFFFF] and
    [FFFFFF] pass.  A call whose [foregroundColor] or [backgroundColor] is
    any other string is rejected by the schema with the field's message,
    [execute] does not run and the world is handed back unchanged. *)
Theorem color_validators_accept_exactly_hex :
  (forall color : string, color_validator color = true <-> hex_color color)
  /\ (color_validator "#FFF" = true /\ color_validator "#FFFFFF" = true
      /\ color_validator "FFFFFF" = true)
  /\ (forall (C : Collaborators) (args : FormatMatchingTextArgs) (w : World)
             (color : string),
         ~ hex_color color ->
         (TextStyleArgs.foregroundColor (fmt_style args) = Some color ->
          formatMatchingText_tool args w
          = (Rejected (formatMatchingText_schema args), w)
          /\ In (Custom "foregroundColor" foregroundColor_message)
                (formatMatchingText_schema args))
         /\ (TextStyleArgs.backgroundColor (fmt_style args) = Some color ->
             formatMatchingText_tool args w
             = (Rejected (formatMatchingText_schema args), w)
             /\ In (Custom "backgroundColor" backgroundColor_message)
                   (formatMatchingText_schema args))).
Proof.
  split; [exact color_validator_spec|]. split; [repeat split; reflexivity|].
  intros C args w color Hbad.
  assert (Hfg : TextStyleArgs.foregroundColor (fmt_style args) = Some color ->
                In (Custom "foregroundColor" foregroundColor_message)
                   (formatMatchingText_schema args)).
  { intros H. unfold formatMatchingText_schema. rewrite H.
    rewrite (color_issues_rejects _ _ color Hbad).
    do 3 (apply in_or_app; right). apply in_or_app; left. now left. }
  assert (Hbg : TextStyleArgs.backgroundColor (fmt_style args) = Some color ->
                In (Custom "backgroundColor" backgroundColor_message)
                   (formatMatchingText_schema args)).
  { intros H. unfold formatMatchingText_schema. rewrite H.
    rewrite (color_issues_rejects _ _ color Hbad).
    do 4 (apply in_or_app; right). apply in_or_app; left. now left. }
  split; intros H; (split; [eapply tool_rejects|]); auto.
Qed.

(* ================================================================== *)
(** ** Strings *)
(* ================================================================== *)

Lemma sapp_assoc (a b c : string) : (a ++ b) ++ c = a ++ (b ++ c).
Proof. induction a as [|x a IH]; cbn; [reflexivity | now rewrite IH]. Qed.

Lemma sapp_empty_r (a : string) : a ++ "" = a.
Proof. induction a as [|x a IH]; cbn; [reflexivity | now rewrite IH]. Qed.

Lemma slength_app (a b : string) :
  String.length (a ++ b) = (String.length a + String.length b)%nat.
Proof. induction a as [|x a IH]; cbn; [reflexivity | now rewrite IH]. Qed.

Lemma forEach_append_concat {A : Type} (f : A -> string) (l : list A)
  (acc : string) :
  forEach_append f l acc = acc ++ String.concat "" (List.map f l).
Proof.
  unfold forEach_append. revert acc.
  induction l as [|x l IH]; intros acc; cbn [fold_left List.map].
  - cbn. now rewrite sapp_empty_r.
  - rewrite IH, sapp_assoc. f_equal.
    destruct l; cbn; [now rewrite sapp_empty_r | reflexivity].
Qed.

Lemma has_LF_app (a b : string) :
  has_LF (a ++ b) = (has_LF a || has_LF b)%bool.
Proof.
  induction a as [|x a IH]; cbn; [reflexivity|].
  now rewrite IH, Bool.orb_assoc.
Qed.

Lemma has_LF_replace_nl (s : string) : has_LF (JS.replace_nl s) = false.
Proof.
  induction s as [|x s IH]; cbn [JS.replace_nl has_LF]; [reflexivity|].
  rewrite IH. destruct (Ascii.eqb x JS.LF) eqn:E; [reflexivity|].
  rewrite E. reflexivity.
Qed.

Lemma has_LF_trimStart (s : string) :
  has_LF s = false -> has_LF (JS.trimStart s) = false.
Proof.
  induction s as [|x s IH]; cbn [has_LF JS.trimStart]; [reflexivity|].
  intros H. destruct (JS.is_ws x); [|exact H].
  apply Bool.orb_false_iff in H. now apply IH.
Qed.

Lemma has_LF_trimEnd (s : string) :
  has_LF s = false -> has_LF (JS.trimEnd s) = false.
Proof.
  induction s as [|x s IH]; cbn [has_LF JS.trimEnd]; [reflexivity|].
  intros H. apply Bool.orb_false_iff in H. destruct H as [Hx Hs].
  specialize (IH Hs).
  destruct (JS.trimEnd s) as [|y t].
  - destruct (JS.is_ws x); cbn [has_LF]; [reflexivity|].
    now rewrite Hx.
  - cbn [has_LF] in *. now rewrite Hx, IH.
Qed.

Lemma has_LF_trim (s : string) :
  has_LF s = false -> has_LF (JS.trim s) = false.
Proof. intros H. now apply has_LF_trimEnd, has_LF_trimStart. Qed.

Lemma has_LF_concat {A : Type} (f : A -> string) (l : list A) :
  (forall x, has_LF (f x) = false) ->
  has_LF (String.concat "" (List.map f l)) = false.
Proof.
  intros H. induction l as [|x l IH]; [reflexivity|].
  cbn [List.map String.concat]. destruct (List.map f l) eqn:E.
  - apply H.
  - rewrite !has_LF_app, H, IH. reflexivity.
Qed.

Lemma has_LF_repeat (s : string) (n : nat) :
  has_LF s = false -> has_LF (JS.repeat_nat s n) = false.
Proof.
  intros H. induction n as [|n IH]; cbn [JS.repeat_nat]; [reflexivity|].
  now rewrite has_LF_app, H, IH.
Qed.

(* ================================================================== *)
(** ** The table projection *)
(* ================================================================== *)

Lemma cell_markdown_text_one_line (cell : TableCell) :
  has_LF (cell_markdown_text cell) = false.
Proof.
  unfold cell_markdown_text. destruct (cell_content cell) as [els|];
    [|reflexivity].
  match goal with
  | |- has_LF (fold_left ?f els _) = false => set (step := f)
  end.
  assert (H : forall acc, has_LF acc = false ->
                          has_LF (fold_left step els acc) = false).
  { induction els as [|e els IH]; intros acc Hacc; cbn [fold_left];
      [exact Hacc|].
    apply IH. unfold step.
    destruct (paragraph e) as [p|]; [|exact Hacc].
    destruct (elements p) as [pes|]; [|exact Hacc].
    rewrite forEach_append_concat, has_LF_app, Hacc. cbn [orb].
    apply has_LF_concat. intros pe.
    destruct (textRun pe) as [r|]; [|reflexivity].
    destruct (tr_content r) as [c|]; [|reflexivity].
    destruct (JS.truthy c); [|reflexivity].
    apply has_LF_trim, has_LF_replace_nl. }
  now apply H.
Qed.

Lemma row_markdown_text_cells (cells : list TableCell) :
  row_markdown_text cells
  = "|" ++ String.concat ""
             (List.map (fun cell => " " ++ cell_markdown_text cell ++ " |")
                cells).
Proof. unfold row_markdown_text. apply forEach_append_concat. Qed.

Lemma row_markdown_text_one_line (cells : list TableCell) :
  has_LF (row_markdown_text cells) = false.
Proof.
  rewrite row_markdown_text_cells, has_LF_app. cbn [has_LF orb Ascii.eqb].
  change (has_LF "|") with false. cbn [orb].
  apply has_LF_concat. intros cell.
  rewrite !has_LF_app, cell_markdown_text_one_line. reflexivity.
Qed.

Lemma header_separator_one_line (n : nat) :
  has_LF (header_separator n) = false.
Proof.
  unfold header_separator. rewrite has_LF_app.
  now rewrite has_LF_repeat.
Qed.

Lemma row_lines_cons (cells : list TableCell) (rest : list (list TableCell)) :
  row_lines (cells :: rest)
  = row_markdown_text cells ++ JS.nl ++ row_lines rest.
Proof.
  unfold row_lines. cbn [List.map String.concat].
  destruct (List.map _ rest) eqn:E.
  - cbn [String.concat]. now rewrite sapp_empty_r.
  - rewrite sapp_assoc. reflexivity.
Qed.

Lemma table_rows_later (rows : list TableRow) (markdown : string) :
  fst (fold_left table_step rows (markdown, false))
  = markdown ++ row_lines (rows_with_cells rows).
Proof.
  revert markdown. induction rows as [|row rows IH]; intros markdown;
    cbn [fold_left rows_with_cells table_step].
  - cbn. now rewrite sapp_empty_r.
  - destruct (tableCells row) as [cells|]; [|apply IH].
    rewrite IH, row_lines_cons, !sapp_assoc. reflexivity.
Qed.

Lemma table_rows_first (rows : list TableRow) (markdown : string) :
  fst (fold_left table_step rows (markdown, true))
  = markdown
    ++ match rows_with_cells rows with
       | [] => ""
       | first :: rest =>
           row_markdown_text first ++ JS.nl
           ++ header_separator (List.length first) ++ JS.nl
           ++ row_lines rest
       end.
Proof.
  revert markdown. induction rows as [|row rows IH]; intros markdown;
    cbn [fold_left rows_with_cells table_step].
  - cbn. now rewrite sapp_empty_r.
  - destruct (tableCells row) as [cells|]; [|apply IH].
    rewrite table_rows_later, !sapp_assoc. reflexivity.
Qed.

Lemma convertTableToMarkdown_rows (rows : list TableRow) :
  rows <> [] ->
  convertTableToMarkdown (mkTable (Some rows))
  = JS.nl
    ++ match rows_with_cells rows with
       | [] => ""
       | first :: rest =>
           row_markdown_text first ++ JS.nl
           ++ header_separator (List.length first) ++ JS.nl
           ++ row_lines rest
       end
    ++ JS.nl.
Proof.
  intros Hne. unfold convertTableToMarkdown. cbn [tableRows].
  destruct rows as [|row rows]; [contradiction|].
  pose proof (table_rows_first (row :: rows) JS.nl) as H.
  destruct (fold_left table_step (row :: rows) (JS.nl, true)) as [md b].
  cbn [fst] in H. rewrite H, sapp_assoc. reflexivity.
Qed.

(** C6, as the code has it.  A table without rows projects to the empty
    string.  For a table with rows, the projection is a line feed, then one
    line per row that has a cell list, rows without one being skipped, with
    the header separator after the first of these lines, then a line feed.
    A row's line is a pipe followed by each cell's text between a space and
    [ |]; it contains no line feed whatever the cells hold.  The separator
    is a pipe followed by [ --- |] once per cell of that first row. *)
Theorem table_projection_lines :
  (forall t : Table,
      tableRows t = None \/ tableRows t = Some [] ->
      convertTableToMarkdown t = "")
  /\ (forall rows : list TableRow,
         rows <> [] ->
         convertTableToMarkdown (mkTable (Some rows))
         = JS.nl
           ++ match rows_with_cells rows with
              | [] => ""
              | first :: rest =>
                  row_markdown_text first ++ JS.nl
                  ++ header_separator (List.length first) ++ JS.nl
                  ++ row_lines rest
              end
           ++ JS.nl)
  /\ (forall cells : list TableCell,
         row_markdown_text cells
         = "|" ++ String.concat ""
                    (List.map
                       (fun cell => " " ++ cell_markdown_text cell ++ " |")
                       cells)
         /\ has_LF (row_markdown_text cells) = false)
  /\ (forall n : nat,
         header_separator n = "|" ++ JS.repeat_nat " --- |" n
         /\ has_LF (header_separator n) = false).
Proof.
  repeat split.
  - intros t [H | H]; unfold convertTableToMarkdown; now rewrite H.
  - apply convertTableToMarkdown_rows.
  - apply row_markdown_text_cells.
  - apply row_markdown_text_one_line.
  - apply header_separator_one_line.
Qed.

(* ================================================================== *)
(** ** The markdown projection of paragraphs and runs *)
(* ================================================================== *)

Lemma dec_prefix_numeral (u : Decimal.uint) :
  JS.dec_prefix (NilEmpty.string_of_uint u) = u.
Proof.
  induction u; cbn [NilEmpty.string_of_uint JS.dec_prefix JS.dec_digit];
    [reflexivity | ..]; now rewrite IHu.
Qed.

(** [parseInt] reads a decimal numeral back. *)
Lemma parseInt_numeral (n : N) : JS.parseInt (numeral n) = Some (Z.of_N n).
Proof.
  unfold numeral.
  rewrite <- (DecimalN.Unsigned.of_to n) at 2.
  generalize (N.to_uint n) as u. intros u.
  change (Z.of_N (N.of_uint u)) with (Z.of_uint u).
  destruct u as [|u|u|u|u|u|u|u|u|u|u]; [reflexivity | ..];
    try (unfold JS.parseInt, NilZero.string_of_uint;
         cbn [NilEmpty.string_of_uint JS.trimStart];
         match goal with
         | |- context [JS.is_ws ?c] => change (JS.is_ws c) with false
         end;
         cbv iota;
         unfold JS.parse_magnitude;
         cbn [JS.dec_prefix JS.dec_digit];
         rewrite dec_prefix_numeral; reflexivity).
  unfold JS.parseInt, NilZero.string_of_uint.
  cbn [NilEmpty.string_of_uint JS.trimStart].
  change (JS.is_ws "0") with false. cbv iota.
  unfold JS.parse_magnitude.
  destruct u; cbn [NilEmpty.string_of_uint JS.dec_prefix JS.dec_digit];
    [reflexivity | ..]; rewrite dec_prefix_numeral; reflexivity.
Qed.

Lemma truthy_true (s : string) : s <> "" -> JS.truthy s = true.
Proof.
  intros H. unfold JS.truthy.
  destruct (String.eqb_spec s ""); [contradiction | reflexivity].
Qed.

Lemma heading_of_numbered (p : Paragraph) (x : string) :
  styled p ("HEADING_" ++ x) -> heading_of p = (true, JS.parseInt x).
Proof.
  intros [ps [Hps Hst]]. unfold heading_of. rewrite Hps, Hst.
  destruct x; reflexivity.
Qed.

Lemma heading_of_title (p : Paragraph) :
  styled p "TITLE" -> heading_of p = (true, Some 1).
Proof.
  intros [ps [Hps Hst]]. unfold heading_of. rewrite Hps, Hst. reflexivity.
Qed.

Lemma heading_of_subtitle (p : Paragraph) :
  styled p "SUBTITLE" -> heading_of p = (true, Some 2).
Proof.
  intros [ps [Hps Hst]]. unfold heading_of. rewrite Hps, Hst. reflexivity.
Qed.

Lemma heading_with_level (p : Paragraph) (level : Z) :
  heading_of p = (true, Some level) ->
  0 <= level ->
  has_text p ->
  convertParagraphToMarkdown p
  = inr (heading_line (Z.to_nat (Z.min level 6)) (paragraph_markdown_text p)).
Proof.
  intros Hh Hl Ht. unfold convertParagraphToMarkdown. rewrite Hh.
  rewrite (truthy_true _ Ht). cbn [andb JS.Math_min option_map].
  unfold JSThrow.repeat.
  destruct (Z.ltb_spec (Z.min level 6) 0); [lia | reflexivity].
Qed.

Lemma paragraph_without_text (p : Paragraph) :
  JS.trim (paragraph_markdown_text p) = "" ->
  convertParagraphToMarkdown p = inr JS.nl.
Proof.
  intros Ht. unfold convertParagraphToMarkdown.
  destruct (heading_of p) as [isHeading level].
  rewrite Ht. cbn [JS.truthy String.eqb negb].
  rewrite !Bool.andb_false_r. reflexivity.
Qed.

Lemma bulleted_paragraph (p : Paragraph) (b : Bullet) :
  bullet p = Some b ->
  fst (heading_of p) = false ->
  has_text p ->
  convertParagraphToMarkdown p = inr (bullet_line (paragraph_markdown_text p)).
Proof.
  intros Hb Hh Ht. unfold convertParagraphToMarkdown.
  destruct (heading_of p) as [isHeading level]. cbn [fst] in Hh. subst.
  rewrite Hb, (truthy_true _ Ht). reflexivity.
Qed.

Lemma linked_run (content : option string) (u : string) :
  u <> "" ->
  convertTextRunToMarkdown
    (styled_run content false false false false (Some (mkLink (Some u))))
  = "[" ++ run_text content ++ "](" ++ u ++ ")".
Proof.
  intros Hu. unfold convertTextRunToMarkdown, styled_run.
  cbn [textStyle tr_content bold italic underline strikethrough link url andb].
  now rewrite (truthy_true _ Hu).
Qed.

Lemma linked_underlined_run (content : option string) (u : string) :
  u <> "" ->
  convertTextRunToMarkdown
    (styled_run content false false true false (Some (mkLink (Some u))))
  = "[" ++ run_text content ++ "](" ++ u ++ ")".
Proof.
  intros Hu. unfold convertTextRunToMarkdown, styled_run.
  cbn [textStyle tr_content bold italic underline strikethrough link url
       andb negb].
  now rewrite (truthy_true _ Hu).
Qed.

Lemma concat_cons (x : string) (l : list string) :
  String.concat "" (x :: l) = x ++ String.concat "" l.
Proof.
  destruct l; cbn [String.concat]; [now rewrite sapp_empty_r | reflexivity].
Qed.

Lemma concat_app (l1 l2 : list string) :
  String.concat "" (l1 ++ l2) = String.concat "" l1 ++ String.concat "" l2.
Proof.
  induction l1 as [|x l1 IH]; [reflexivity|].
  rewrite <- List.app_comm_cons, !concat_cons, IH, sapp_assoc. reflexivity.
Qed.

Lemma forEach_appendM_all {A : Type} (f : A -> Result string)
  (l : list A) (texts : list string) (acc : string) :
  Forall2 (fun x t => f x = inr t) l texts ->
  forEach_appendM f l acc = inr (acc ++ String.concat "" texts).
Proof.
  intros H. revert acc. induction H as [|x t l texts Hx _ IH]; intros acc.
  - cbn. now rewrite sapp_empty_r.
  - cbn [forEach_appendM]. rewrite Hx, IH, concat_cons, sapp_assoc.
    reflexivity.
Qed.

(** Every styled run is its text inside the four wrappers, innermost
    first: emphasis, underline, strikethrough, link. *)
Lemma styled_run_wrappers (content : option string) (b i u s : bool)
  (l : option Link) :
  convertTextRunToMarkdown (styled_run content b i u s l)
  = linked l (struck s (underlined u l (emphasised b i (run_text content)))).
Proof.
  unfold convertTextRunToMarkdown, styled_run, linked, link_target, run_text.
  cbn [textStyle tr_content bold italic underline strikethrough link].
  destruct l as [[[target|]]|]; cbn [url].
  - unfold JS.truthy. destruct (target =? "")%string;
      destruct b, i, u, s; reflexivity.
  - destruct b, i, u, s; reflexivity.
  - destruct b, i, u, s; reflexivity.
Qed.

Lemma section_break_rule (e : StructuralElement) :
  is_section_break e -> element_markdown e = inr horizontal_rule.
Proof.
  intros [Hp [Ht Hs]]. unfold element_markdown. rewrite Hp, Ht.
  destruct (sectionBreak e); [reflexivity | contradiction].
Qed.

(** C7, as the code has it.  A paragraph with text left after trimming
    renders, when its named style is [HEADING_n], as [min n 6] hashes, a
    space, the trimmed text and two line feeds; [TITLE] gives one hash and
    [SUBTITLE] two.  A bulleted paragraph that is not a heading renders as
    [- ], the trimmed text and a line feed.  A paragraph with no text left
    renders as a single line feed whatever its style.  For every run with
    a text style, whatever the combination of its attributes, the text is
    wrapped in [**] when bold, [*] when italic, [***] when both, then in
    [<u>] and [</u>] when underlined and without a link, then in [~~] when
    struck through, and last as [[text](url)] when its link has a URL that
    is not empty; a run without a text style is its text.  Every element
    that is a section break yields the rule [---] between line feeds,
    wherever it stands in the body.  The text of a paragraph is that of
    its text runs, so rendered, in order. *)
Theorem markdown_rendering_rules :
  (forall (p : Paragraph) (n : N),
      styled p ("HEADING_" ++ numeral n) ->
      has_text p ->
      convertParagraphToMarkdown p
      = inr (heading_line (N.to_nat (N.min n 6)) (paragraph_markdown_text p)))
  /\ (forall p : Paragraph,
         has_text p ->
         (styled p "TITLE" ->
          convertParagraphToMarkdown p
          = inr (heading_line 1 (paragraph_markdown_text p)))
         /\ (styled p "SUBTITLE" ->
             convertParagraphToMarkdown p
             = inr (heading_line 2 (paragraph_markdown_text p))))
  /\ (forall (p : Paragraph) (b : Bullet),
         bullet p = Some b ->
         fst (heading_of p) = false ->
         has_text p ->
         convertParagraphToMarkdown p
         = inr (bullet_line (paragraph_markdown_text p)))
  /\ (forall p : Paragraph,
         JS.trim (paragraph_markdown_text p) = "" ->
         convertParagraphToMarkdown p = inr JS.nl)
  /\ (forall (content : option string) (b i u s : bool) (l : option Link),
         convertTextRunToMarkdown (styled_run content b i u s l)
         = linked l
             (struck s (underlined u l (emphasised b i (run_text content)))))
  /\ (forall content : option string,
         let t := run_text content in
         convertTextRunToMarkdown (mkTextRun content None) = t
         /\ convertTextRunToMarkdown
              (styled_run content true false false false None)
            = "**" ++ t ++ "**"
         /\ convertTextRunToMarkdown
              (styled_run content false true false false None)
            = "*" ++ t ++ "*"
         /\ convertTextRunToMarkdown
              (styled_run content true true false false None)
            = "***" ++ t ++ "***"
         /\ convertTextRunToMarkdown
              (styled_run content false false true false None)
            = "<u>" ++ t ++ "</u>"
         /\ convertTextRunToMarkdown
              (styled_run content false false false true None)
            = "~~" ++ t ++ "~~"
         /\ convertTextRunToMarkdown
              (styled_run content true true true true None)
            = "~~" ++ ("<u>" ++ ("***" ++ t ++ "***") ++ "</u>") ++ "~~")
  /\ (forall (content : option string) (target : string),
         target <> "" ->
         convertTextRunToMarkdown
           (styled_run content false false false false
              (Some (mkLink (Some target))))
         = "[" ++ run_text content ++ "](" ++ target ++ ")"
         /\ convertTextRunToMarkdown
              (styled_run content false false true false
                 (Some (mkLink (Some target))))
            = "[" ++ run_text content ++ "](" ++ target ++ ")"
         /\ convertTextRunToMarkdown
              (styled_run content true false false true
                 (Some (mkLink (Some target))))
            = "[" ++ ("~~" ++ ("**" ++ run_text content ++ "**") ++ "~~")
              ++ "](" ++ target ++ ")")
  /\ (forall e : StructuralElement,
         is_section_break e ->
         element_markdown e = inr (JS.nl ++ "---" ++ JS.nl ++ JS.nl))
  /\ (forall (before after : list StructuralElement)
             (texts_before texts_after : list string) (e : StructuralElement),
         Forall2 (fun x t => element_markdown x = inr t) before texts_before ->
         Forall2 (fun x t => element_markdown x = inr t) after texts_after ->
         is_section_break e ->
         convertDocsJsonToMarkdown (Some (mkBody (Some (before ++ e :: after)%list)))
         = inr (JS.trim (String.concat "" texts_before
                         ++ (JS.nl ++ "---" ++ JS.nl ++ JS.nl)
                         ++ String.concat "" texts_after)))
  /\ convertDocsJsonToMarkdown (Some (mkBody (Some [section_break_element])))
     = inr "---"
  /\ (forall p : Paragraph,
         paragraph_markdown_text p
         = String.concat ""
             (List.map (fun el => match textRun el with
                                  | Some r => convertTextRunToMarkdown r
                                  | None => ""
                                  end)
                (opt_list (elements p)))).
Proof.
  split; [|split; [|split; [|split; [|split; [|split; [|split;
    [|split; [|split; [|split]]]]]]]]].
  - intros p n Hs Ht.
    pose proof (heading_of_numbered p _ Hs) as Hh.
    rewrite parseInt_numeral in Hh.
    rewrite (heading_with_level p _ Hh (N2Z.is_nonneg n) Ht).
    do 2 f_equal. lia.
  - intros p Ht. split; intros Hs.
    + apply (heading_with_level p 1); [now apply heading_of_title | lia | exact Ht].
    + apply (heading_with_level p 2); [now apply heading_of_subtitle | lia | exact Ht].
  - apply bulleted_paragraph.
  - apply paragraph_without_text.
  - apply styled_run_wrappers.
  - intros content t. repeat split.
  - intros content target Ht. split; [now apply linked_run|].
    split; [now apply linked_underlined_run|].
    rewrite styled_run_wrappers. unfold linked, link_target.
    destruct (String.eqb_spec target ""); [contradiction | reflexivity].
  - apply section_break_rule.
  - intros before after tb ta e Hb Ha He.
    unfold convertDocsJsonToMarkdown. cbn [body_content content].
    assert (Hall : Forall2 (fun x t => element_markdown x = inr t)
                     (before ++ e :: after)%list
                     (tb ++ horizontal_rule :: ta)%list).
    { apply Forall2_app; [exact Hb|].
      constructor; [now apply section_break_rule | exact Ha]. }
    rewrite (forEach_appendM_all element_markdown _ _ "" Hall).
    rewrite concat_app, concat_cons. reflexivity.
  - reflexivity.
  - intros p. unfold paragraph_markdown_text.
    destruct (elements p) as [els|]; [|reflexivity].
    now rewrite forEach_append_concat.
Qed.

(* ================================================================== *)
(** ** The plain-text projection and truncation *)
(* ================================================================== *)

(** A loop whose body appends the pieces [g x] appends all the pieces. *)
Lemma fold_appends {A : Type} (step : string -> A -> string)
  (g : A -> list string) :
  (forall acc x, step acc x = acc ++ String.concat "" (g x)) ->
  forall (l : list A) (acc : string),
    fold_left step l acc = acc ++ String.concat "" (List.flat_map g l).
Proof.
  intros Hstep. induction l as [|x l IH]; intros acc; cbn [fold_left flat_map].
  - cbn. now rewrite sapp_empty_r.
  - rewrite IH, Hstep, concat_app, sapp_assoc. reflexivity.
Qed.

Lemma paragraph_plain_text_appends (p : option Paragraph) (acc : string) :
  paragraph_plain_text p acc
  = acc ++ String.concat "" (paragraph_run_contents p).
Proof.
  unfold paragraph_plain_text, paragraph_run_contents.
  destruct p as [p|]; [|cbn; now rewrite sapp_empty_r].
  destruct (elements p) as [pes|]; [|cbn; now rewrite sapp_empty_r].
  unfold forEach_append. apply fold_appends. intros a pe. f_equal.
  destruct (textRun pe) as [r|]; [|reflexivity].
  destruct (tr_content r) as [c|]; [|reflexivity].
  destruct c; reflexivity.
Qed.

Lemma element_plain_text_appends (acc : string) (e : StructuralElement) :
  element_plain_text acc e
  = acc ++ String.concat "" (element_run_contents e).
Proof.
  unfold element_plain_text, element_run_contents.
  rewrite concat_app, <- sapp_assoc, <- paragraph_plain_text_appends.
  generalize (paragraph_plain_text (paragraph e) acc) as acc'. intros acc'.
  destruct (table e) as [t|]; [|cbn; now rewrite sapp_empty_r].
  destruct (tableRows t) as [rows|]; [|cbn; now rewrite sapp_empty_r].
  cbn [opt_list]. revert acc'. apply fold_appends. intros a row.
  destruct (tableCells row) as [cells|]; [|cbn; now rewrite sapp_empty_r].
  cbn [opt_list]. revert a. apply fold_appends. intros a cell.
  destruct (cell_content cell) as [ces|]; [|cbn; now rewrite sapp_empty_r].
  cbn [opt_list]. revert a. apply fold_appends. intros a ce.
  apply paragraph_plain_text_appends.
Qed.

Lemma plain_text_runs (b : option Body) :
  plain_text b = String.concat "" (body_run_contents b).
Proof.
  unfold plain_text, body_run_contents.
  destruct (body_content b) as [els|]; [|reflexivity].
  cbn [opt_list].
  rewrite (fold_appends element_plain_text element_run_contents
             element_plain_text_appends).
  reflexivity.
Qed.

Section ReadProperties.

Context {C : Collaborators}.

Lemma read_source (args : ReadGoogleDocArgs) (w : World) (doc : Document)
  (cs : ContentSource) :
  resolves_source doc (given (read_tabId args)) cs ->
  (match given (read_tabId args) with
   | Some tabId =>
       dt <- require_document_tab doc tabId ;;
       ret (FromTab (tab_body dt))
   | None => ret (FromDocument doc)
   end)%handler w = (inr cs, w).
Proof.
  intros Hres.
  inversion Hres as [Hg Hcs | tabId tab dt Hfind Hdt Hg Hcs]; [reflexivity|].
  unfold bind. rewrite (require_document_tab_ok doc tabId tab dt w Hfind Hdt).
  reflexivity.
Qed.

Lemma readGoogleDoc_text (args : ReadGoogleDocArgs) (w : World)
  (doc : Document) (cs : ContentSource) :
  format args = text ->
  read_fetch (remote w) args = inr doc ->
  resolves_source doc (given (read_tabId args)) cs ->
  readGoogleDoc args w
  = (inr (text_answer (maxLength args) (plain_text (cs_body cs))), w).
Proof.
  intros Hf Hget Hres. unfold readGoogleDoc, read_fetch in *.
  rewrite Hf in *.
  unfold try_catch, bind at 1, call_documents_get. rewrite Hget.
  unfold bind at 1. rewrite (read_source args w doc cs Hres).
  unfold text_answer.
  destruct (JS.truthy (JS.trim (plain_text (cs_body cs)))); cbn [negb];
    [|reflexivity].
  destruct (limit_exceeded (maxLength args)
              (String.length (plain_text (cs_body cs)))) as [m|];
    unfold ret, text_header; rewrite ?sapp_assoc; reflexivity.
Qed.

Lemma readGoogleDoc_markdown (args : ReadGoogleDocArgs) (w : World)
  (doc : Document) (cs : ContentSource) (markdownContent : string) :
  format args = markdown ->
  read_fetch (remote w) args = inr doc ->
  resolves_source doc (given (read_tabId args)) cs ->
  convertDocsJsonToMarkdown (cs_body cs) = inr markdownContent ->
  readGoogleDoc args w
  = (inr (markdown_answer (maxLength args) markdownContent), w).
Proof.
  intros Hf Hget Hres Hmd. unfold readGoogleDoc, read_fetch in *.
  rewrite Hf in *.
  unfold try_catch, bind at 1, call_documents_get. rewrite Hget.
  unfold bind at 1. rewrite (read_source args w doc cs Hres).
  unfold bind, lift. rewrite Hmd. unfold markdown_answer.
  destruct (limit_exceeded (maxLength args) (String.length markdownContent))
    as [m|]; unfold ret; rewrite ?sapp_assoc; reflexivity.
Qed.

Lemma keeps_exceeded (length : nat) (x : JS.Number) (m : Z) :
  keeps length x m -> limit_exceeded (Some x) length = Some x.
Proof.
  intros [k H0 Hlt | floor t r Hlt |]; unfold limit_exceeded;
    cbn [JS.number_truthy JS.above andb]; [| |reflexivity].
  - destruct (Z.eqb_spec k 0); [contradiction|].
    destruct (Z.ltb_spec k (Z.of_nat length)); [reflexivity | lia].
  - destruct (Z.ltb_spec floor (Z.of_nat length)); [reflexivity | lia].
Qed.

Lemma keeps_substring (length : nat) (x : JS.Number) (m : Z) (s : string) :
  keeps length x m -> JS.substring_to x s = JS.substring0 m s.
Proof.
  intros [k H0 Hlt | floor t r Hlt |]; cbn [JS.substring_to];
    [reflexivity | reflexivity |].
  destruct s; reflexivity.
Qed.

Lemma limit_applies_exceeded (maxLength : option JS.Number) (length : nat)
  (m : Z) :
  limit_applies maxLength length m ->
  exists x, limit_exceeded maxLength length = Some x
            /\ forall s, JS.substring_to x s = JS.substring0 m s.
Proof.
  intros [x [-> Hk]]. exists x. split; [exact (keeps_exceeded _ _ _ Hk)|].
  intros s. exact (keeps_substring _ _ _ s Hk).
Qed.

Lemma whole_limit_exceeded (length : nat) (m : Z) :
  0 < m < Z.of_nat length ->
  limit_exceeded (Some (JS.Whole m)) length = Some (JS.Whole m).
Proof.
  intros Hm. apply (keeps_exceeded length (JS.Whole m) m).
  constructor; lia.
Qed.

Lemma unlimited_not_exceeded (maxLength : option JS.Number) (length : nat) :
  unlimited maxLength length -> limit_exceeded maxLength length = None.
Proof.
  intros [-> | [-> | [x [-> Hle]]]]; [reflexivity | reflexivity |].
  unfold limit_exceeded.
  destruct x as [m | floor t r | negative]; cbn [longer_than] in Hle;
    cbn [JS.number_truthy JS.above].
  - destruct (Z.ltb_spec m (Z.of_nat length)); [lia|].
    now rewrite Bool.andb_false_r.
  - destruct (Z.ltb_spec floor (Z.of_nat length)); [lia | reflexivity].
  - destruct negative; [now destruct Hle | reflexivity].
Qed.

Lemma substring_prefix (n : nat) (s : string) :
  (n <= String.length s)%nat ->
  String.length (String.substring 0 n s) = n
  /\ exists rest, s = String.substring 0 n s ++ rest.
Proof.
  revert s. induction n as [|n IH]; intros s Hn.
  - destruct s; cbn; (split; [reflexivity | eexists; reflexivity]).
  - destruct s as [|c s]; cbn in Hn; [lia|].
    destruct (IH s ltac:(lia)) as [Hl [rest Hr]].
    cbn [String.substring String.length]. split; [now rewrite Hl|].
    exists rest. cbn. now rewrite <- Hr.
Qed.

Lemma paragraph_contents_shallow (ce : StructuralElement) :
  table ce = None ->
  element_all_run_contents ce = paragraph_run_contents (paragraph ce).
Proof.
  destruct ce as [s e p t sb]. cbn [table paragraph]. intros ->.
  cbn [element_all_run_contents]. apply List.app_nil_r.
Qed.

Lemma flat_map_agree {A B : Type} (f g : A -> list B) (l : list A) :
  (forall x, In x l -> f x = g x) -> List.flat_map f l = List.flat_map g l.
Proof.
  intros H. induction l as [|x l IH]; [reflexivity|].
  cbn [List.flat_map]. rewrite (H x (or_introl eq_refl)), IH; [reflexivity|].
  intros y Hy. apply H. now right.
Qed.

Lemma shallow_contents (b : option Body) :
  shallow_tables b -> body_run_contents b = all_run_contents b.
Proof.
  intros Hs. unfold body_run_contents, all_run_contents.
  apply flat_map_agree. intros e He.
  unfold element_run_contents. specialize (Hs e).
  destruct e as [s0 e0 p t sb]. cbn [paragraph table] in *.
  cbn [element_all_run_contents]. f_equal.
  destruct t as [[[rows|]]|]; [|reflexivity|reflexivity].
  cbn [tableRows opt_list]. apply flat_map_agree. intros row Hrow.
  specialize (Hs (mkTable (Some rows)) rows row).
  destruct row as [[cells|]]; [|reflexivity].
  cbn [tableCells opt_list]. apply flat_map_agree. intros cell Hcell.
  specialize (Hs cells cell).
  destruct cell as [[ces|]]; [|reflexivity].
  cbn [cell_content opt_list]. apply flat_map_agree. intros ce Hce.
  symmetry. apply paragraph_contents_shallow.
  now apply (Hs ces ce He).
Qed.

(** C8, as the code has it.  The text [readGoogleDoc] collects is the
    concatenation, in document order, of the content of the text runs of
    the paragraphs of the body and of the paragraphs directly inside the
    cells of its tables, rows and cells in order; no style is read.  When
    no cell holds a table of its own this is every text run of the body.
    With [format = text] and no limit that applies, the answer is that text
    after a header line giving its length, or the message [Document found,
    but appears empty.] when the text is blank. *)
Theorem text_projection_concatenates_runs :
  (forall b : option Body,
      plain_text b = String.concat "" (body_run_contents b))
  /\ (forall b : option Body,
         shallow_tables b -> body_run_contents b = all_run_contents b)
  /\ (forall (args : ReadGoogleDocArgs) (w : World) (doc : Document)
             (cs : ContentSource),
         format args = text ->
         read_fetch (remote w) args = inr doc ->
         resolves_source doc (given (read_tabId args)) cs ->
         unlimited (maxLength args) (String.length (plain_text (cs_body cs))) ->
         readGoogleDoc args w
         = (inr (full_text_answer
                   (String.concat "" (body_run_contents (cs_body cs)))), w)).
Proof.
  split; [exact plain_text_runs|]. split; [exact shallow_contents|].
  intros args w doc cs Hf Hget Hres Hun.
  rewrite (readGoogleDoc_text args w doc cs Hf Hget Hres).
  unfold text_answer, full_text_answer.
  rewrite (unlimited_not_exceeded _ _ Hun), plain_text_runs. reflexivity.
Qed.

(** C9, as the code has it.  When [maxLength] is a whole number greater
    than [0] and below the length of the projected content, the markdown
    answer is the first [maxLength] characters of the content followed by
    a marker that reports [maxLength] and the total length; the plain-text
    answer, for text that is not blank, is a header that reports both, then
    the first [maxLength] characters, then a marker that reports how many
    characters remain.  When [maxLength] is absent, is [0], or is a number
    the content is not longer than, the markdown is returned in full and
    the plain text in full after its header.  For [0 <= maxLength <=
    length] the cut keeps exactly [maxLength] characters and they are a
    prefix of the content. *)
Theorem truncation_reports_lengths :
  (forall (args : ReadGoogleDocArgs) (w : World) (doc : Document)
          (cs : ContentSource) (md : string) (m : Z),
      format args = markdown ->
      read_fetch (remote w) args = inr doc ->
      resolves_source doc (given (read_tabId args)) cs ->
      convertDocsJsonToMarkdown (cs_body cs) = inr md ->
      (maxLength args = Some (JS.Whole m) ->
       0 < m < Z.of_nat (String.length md) ->
       readGoogleDoc args w
       = (inr (JS.substring0 m md
               ++ truncated_markdown_marker m (String.length md)), w))
      /\ (unlimited (maxLength args) (String.length md) ->
          readGoogleDoc args w = (inr md, w)))
  /\ (forall (args : ReadGoogleDocArgs) (w : World) (doc : Document)
             (cs : ContentSource) (m : Z),
         format args = text ->
         read_fetch (remote w) args = inr doc ->
         resolves_source doc (given (read_tabId args)) cs ->
         let t := plain_text (cs_body cs) in
         JS.trim t <> "" ->
         (maxLength args = Some (JS.Whole m) ->
          0 < m < Z.of_nat (String.length t) ->
          readGoogleDoc args w
          = (inr (truncated_text_header m (String.length t)
                  ++ JS.substring0 m t
                  ++ truncated_text_marker m (String.length t)), w))
         /\ (unlimited (maxLength args) (String.length t) ->
             readGoogleDoc args w
             = (inr (text_header (String.length t) ++ t), w)))
  /\ (forall (m : Z) (s : string),
         0 <= m <= Z.of_nat (String.length s) ->
         Z.of_nat (String.length (JS.substring0 m s)) = m
         /\ exists rest, s = JS.substring0 m s ++ rest).
Proof.
  split; [|split].
  - intros args w doc cs md m Hf Hget Hres Hmd.
    rewrite (readGoogleDoc_markdown args w doc cs md Hf Hget Hres Hmd).
    unfold markdown_answer. split.
    + intros -> Hm. rewrite (whole_limit_exceeded _ _ Hm).
      unfold truncated_markdown_marker. cbn [JS.substring_to JS.show].
      now rewrite ?sapp_assoc.
    + intros H. now rewrite (unlimited_not_exceeded _ _ H).
  - intros args w doc cs m Hf Hget Hres t Ht.
    rewrite (readGoogleDoc_text args w doc cs Hf Hget Hres).
    unfold text_answer. fold t. rewrite (truthy_true _ Ht).
    split.
    + intros -> Hm. rewrite (whole_limit_exceeded _ _ Hm).
      unfold truncated_text_header, truncated_text_marker.
      cbn [JS.substring_to JS.show JS.show_rest].
      now rewrite ?sapp_assoc.
    + intros H. now rewrite (unlimited_not_exceeded _ _ H).
  - intros m s Hm. unfold JS.substring0.
    destruct (substring_prefix (Z.to_nat m) s ltac:(lia)) as [Hl Hr].
    split; [rewrite Hl; lia | exact Hr].
Qed.

End ReadProperties.

(* ================================================================== *)
(** ** The properties at sample calls *)
(* ================================================================== *)

Lemma no_tab_t9 :
  forall t, In t (all_tabs Demo.tabbed_doc) -> has_tabId "t.9" t = false.
Proof.
  intros t Hin. cbn in Hin.
  destruct Hin as [<- | [<- | [<- | []]]]; reflexivity.
Defined.

(** C1 at a missing tab and at a tab without content. *)
Lemma tab_failure_precedes_mutation_witness :
  readGoogleDoc (C := Demo.collaborators) Sample.read_missing_tab Demo.world
  = (inl (UserError (tab_not_found_message "t.9")), Demo.world)
  /\ appendToGoogleDoc (C := Demo.collaborators) Sample.append_to_shell_tab
       Demo.world
     = (inl (UserError (tab_no_content_message "t.1")), Demo.world).
Proof.
  split.
  - apply (proj1 (tab_failure_precedes_mutation (C := Demo.collaborators)
                    Demo.tabbed_doc "t.9" (tab_not_found_message "t.9")
                    Demo.world ltac:(discriminate)
                    (no_such_tab Demo.tabbed_doc "t.9" no_tab_t9)));
      reflexivity.
  - apply (proj1 (proj2 (tab_failure_precedes_mutation
                           (C := Demo.collaborators)
                           Demo.tabbed_doc "t.1" (tab_no_content_message "t.1")
                           Demo.world ltac:(discriminate)
                           (tab_without_content Demo.tabbed_doc "t.1" _
                              eq_refl eq_refl))));
      reflexivity.
Defined.

(** C1 as stated fails: called with the explicit [tabId] [''], which no tab
    of the document carries, [readGoogleDoc] reads the document body and
    succeeds; and [deleteRange] on an empty range in a missing tab is
    refused for its range, not for its tab. *)
Lemma explicit_tabId_without_tab_error :
  (forall t, In t (all_tabs Demo.legacy_doc) -> has_tabId "" t = false)
  /\ readGoogleDoc (C := Demo.collaborators) Sample.read_with_empty_tabId
       Demo.world
     = (inr ("Content (6 characters):" ++ JS.nl ++ "---" ++ JS.nl
             ++ "Hello" ++ JS.nl), Demo.world)
  /\ (forall t, In t (all_tabs Demo.tabbed_doc) -> has_tabId "" t = false)
  /\ readGoogleDoc (C := Demo.collaborators)
       (mkReadGoogleDocArgs "tabbed" text None (Some "")) Demo.world
     = (inr "Document found, but appears empty.", Demo.world)
  /\ deleteRange_tool (C := Demo.collaborators)
       Sample.delete_empty_range_in_missing_tab Demo.world
     = (Rejected [Custom "endIndex" "endIndex must be greater than startIndex"],
        Demo.world)
  /\ deleteRange (C := Demo.collaborators)
       Sample.delete_empty_range_in_missing_tab Demo.world
     = (inl (UserError
               "End index must be greater than start index for deletion."),
        Demo.world).
Proof.
  split; [intros t []|]. split; [reflexivity|].
  split; [intros t Hin; cbn in Hin;
          destruct Hin as [<- | [<- | [<- | []]]]; reflexivity|].
  repeat split; reflexivity.
Qed.

(** C2 at three backwards ranges. *)
Lemma invalid_range_rejected_witness :
  deleteRange (C := Demo.collaborators) Sample.delete_backwards Demo.world
  = (inl (UserError "End index must be greater than start index for deletion."),
     Demo.world)
  /\ applyTextStyle (C := Demo.collaborators) Sample.style_backwards Demo.world
     = (inl (UserError
               "End index must be greater than start index for styling."),
        Demo.world)
  /\ applyParagraphStyle (C := Demo.collaborators) Sample.paragraph_backwards
       Demo.world
     = (inl (UserError
               "Invalid paragraph range: end index (4) must be greater than start index (4)."),
        Demo.world).
Proof.
  destruct (invalid_range_rejected (C := Demo.collaborators))
    as [Hdelete [Htext Hparagraph]].
  split; [|split].
  - apply Hdelete. cbn. lia.
  - apply (Htext Sample.style_backwards Demo.world 7 3); [reflexivity | lia].
  - apply (Hparagraph Sample.paragraph_backwards Demo.world 4 4);
      [reflexivity | lia].
Defined.

(** C3 at a text query with an empty style. *)
Lemma empty_style_is_no_mutation_witness :
  applyTextStyle (C := Demo.collaborators) Sample.style_nothing Demo.world
  = (inr "No valid text styling options were provided.", Demo.world).
Proof.
  apply (proj1 (empty_style_is_no_mutation (C := Demo.collaborators))
           Sample.style_nothing Demo.world 1 6); [reflexivity | reflexivity | lia].
Defined.

(** C3 as stated fails for [formatMatchingText]: without any formatting
    option the tool call is rejected by the schema; it does not return the
    message as a success. *)
Lemma formatMatchingText_without_options_rejected :
  formatMatchingText_tool (C := Demo.collaborators) Sample.format_nothing
    Demo.world
  = (Rejected [Custom "" no_option_message], Demo.world)
  /\ fst (formatMatchingText_tool (C := Demo.collaborators)
            Sample.format_nothing Demo.world)
     <> Executed (inr "No valid text styling options were provided.").
Proof. split; [reflexivity | discriminate]. Qed.

(** C5 at the colour [red]. *)
Lemma color_validators_accept_exactly_hex_witness :
  ~ hex_color "red"
  /\ formatMatchingText_tool (C := Demo.collaborators) Sample.format_red
       Demo.world
     = (Rejected [Custom "foregroundColor" foregroundColor_message], Demo.world).
Proof.
  destruct color_validators_accept_exactly_hex as [Hiff [_ Hreject]].
  assert (Hred : ~ hex_color "red").
  { intros H. apply Hiff in H. discriminate. }
  split; [exact Hred|].
  apply (proj1 (Hreject Demo.collaborators Sample.format_red Demo.world "red"
                  Hred)).
  reflexivity.
Defined.

(** C6 as stated fails: a table whose only row has no cell list projects
    to two line feeds, with no row line and no separator; and when the
    first row has none, the separator follows the second row's line. *)
Lemma table_row_without_cells_has_no_line :
  ~ one_line_per_row Sample.row_without_cells
  /\ convertTableToMarkdown Sample.row_without_cells = JS.nl ++ JS.nl
  /\ convertTableToMarkdown Sample.first_row_without_cells
     = JS.nl ++ "| c | d |" ++ JS.nl ++ "| --- | --- |" ++ JS.nl ++ JS.nl.
Proof.
  split; [|split; reflexivity].
  intros [lines [n [Hlen Heq]]].
  destruct lines as [|first rest]; [discriminate|].
  apply (f_equal String.length) in Heq.
  rewrite !slength_app in Heq. cbn in Heq. lia.
Qed.

(** C6 at a table of two rows of two cells. *)
Lemma table_projection_lines_witness :
  convertTableToMarkdown (mkTable (Some Sample.two_rows))
  = JS.nl ++ "| a | b |" ++ JS.nl ++ "| --- | --- |" ++ JS.nl
    ++ "| c | d |" ++ JS.nl ++ JS.nl.
Proof.
  rewrite (proj1 (proj2 table_projection_lines) Sample.two_rows
             ltac:(discriminate)).
  reflexivity.
Defined.

(** C7 as stated fails: a heading without text renders as a lone line
    feed, not as hashes and a space; and a bulleted paragraph that is a
    heading renders as the heading, not as a list item. *)
Lemma heading_and_bullet_rules_have_exceptions :
  ~ heading_rendering_claim
  /\ ~ bullet_rendering_claim
  /\ convertParagraphToMarkdown Sample.empty_heading = inr JS.nl
  /\ convertParagraphToMarkdown Sample.bulleted_heading
     = inr ("## x" ++ JS.nl ++ JS.nl).
Proof.
  split; [|split; [|split; reflexivity]].
  - intros H.
    destruct (H Sample.empty_heading 1%N) as [rest Hrest].
    + eexists; split; reflexivity.
    + discriminate Hrest.
  - intros H.
    destruct (H Sample.bulleted_heading (mkBullet None) eq_refl)
      as [rest Hrest].
    discriminate Hrest.
Qed.

(** C7 at a third-level heading, at a bold, struck-through link, and at
    a section break between two paragraphs. *)
Lemma markdown_rendering_rules_witness :
  convertParagraphToMarkdown Sample.heading_3
  = inr ("### Plan" ++ JS.nl ++ JS.nl)
  /\ convertTextRunToMarkdown Sample.bold_struck_link
     = "[~~**x**~~](https://example.org)"
  /\ convertDocsJsonToMarkdown
       (Some (mkBody (Some [para_element 1 3 (plain_paragraph "a");
                            mkStructuralElement (Some 3) (Some 4) None None
                              (Some tt);
                            para_element 4 6 (plain_paragraph "b")])))
     = inr ("a" ++ JS.nl ++ JS.nl ++ JS.nl ++ "---" ++ JS.nl ++ JS.nl ++ "b").
Proof.
  split; [|split].
  - rewrite (proj1 markdown_rendering_rules Sample.heading_3 3%N).
    + reflexivity.
    + eexists; split; reflexivity.
    + discriminate.
  - exact (proj1 (proj2 (proj2 (proj2 (proj2 markdown_rendering_rules))))
             (Some "x") true false false true
             (Some (mkLink (Some "https://example.org")))).
  - assert (Ha : Forall2 (fun x t => element_markdown x = inr t)
                   [para_element 1 3 (plain_paragraph "a")]
                   ["a" ++ JS.nl ++ JS.nl]).
    { constructor; [reflexivity | constructor]. }
    assert (Hb : Forall2 (fun x t => element_markdown x = inr t)
                   [para_element 4 6 (plain_paragraph "b")]
                   ["b" ++ JS.nl ++ JS.nl]).
    { constructor; [reflexivity | constructor]. }
    assert (Hs : is_section_break
                   (mkStructuralElement (Some 3) (Some 4) None None
                      (Some tt))).
    { split; [reflexivity | split; [reflexivity | discriminate]]. }
    pose proof (proj1 (proj2 (proj2 (proj2 (proj2 (proj2 (proj2 (proj2
                  (proj2 markdown_rendering_rules))))))))) as Hrule.
    pose proof (Hrule _ _ _ _ _ Ha Hb Hs) as H.
    vm_compute in H. vm_compute. exact H.
Defined.

(** C8 as stated fails: the text of a table nested in a table cell is not
    collected, so a document whose only text is there reads as empty; a
    document holding only line feeds reads as empty too; and text that is
    returned comes after a header line. *)
Lemma text_projection_skips_nested_tables :
  String.concat "" (all_run_contents (body Demo.nested_doc)) = "inner"
  /\ readGoogleDoc (C := Demo.collaborators) (Sample.read_text "nested" None)
       Demo.world
     = (inr "Document found, but appears empty.", Demo.world)
  /\ readGoogleDoc (C := Demo.collaborators) (Sample.read_text "blank" None)
       Demo.world
     = (inr "Document found, but appears empty.", Demo.world)
  /\ readGoogleDoc (C := Demo.collaborators) (Sample.read_text "legacy" None)
       Demo.world
     = (inr ("Content (6 characters):" ++ JS.nl ++ "---" ++ JS.nl
             ++ "Hello" ++ JS.nl), Demo.world).
Proof. repeat split; reflexivity. Qed.

(** C8 at the document without tabs. *)
Lemma text_projection_concatenates_runs_witness :
  readGoogleDoc (C := Demo.collaborators) (Sample.read_text "legacy" None)
    Demo.world
  = (inr (full_text_answer ("Hello" ++ JS.nl)), Demo.world).
Proof.
  apply (proj2 (proj2 (text_projection_concatenates_runs
                         (C := Demo.collaborators)))
           (Sample.read_text "legacy" None) Demo.world Demo.legacy_doc
           (FromDocument Demo.legacy_doc)).
  - reflexivity.
  - reflexivity.
  - exact (source_legacy Demo.legacy_doc).
  - left. reflexivity.
Defined.

(** C9 as stated fails: with [maxLength = 0] the content, longer than the
    limit, is returned in full and without a marker; and in the text
    format the two lengths are reported before the content, the marker
    after it giving the count that remains. *)
Lemma zero_maxLength_returns_everything :
  readGoogleDoc (C := Demo.collaborators)
    (Sample.read_markdown "legacy" (Some (JS.Whole 0))) Demo.world
  = (inr "Hello", Demo.world)
  /\ "Hello" <> JS.substring0 0 "Hello" ++ truncated_markdown_marker 0 5
  /\ readGoogleDoc (C := Demo.collaborators)
       (Sample.read_text "legacy" (Some (JS.Whole 0))) Demo.world
     = (inr ("Content (6 characters):" ++ JS.nl ++ "---" ++ JS.nl
             ++ "Hello" ++ JS.nl), Demo.world)
  /\ readGoogleDoc (C := Demo.collaborators)
       (Sample.read_text "legacy" (Some (JS.Whole 2))) Demo.world
     = (inr ("Content (truncated to 2 chars of 6 total):" ++ JS.nl ++ "---"
             ++ JS.nl ++ "He" ++ JS.nl ++ JS.nl
             ++ "... [Document continues for 4 more characters. Use maxLength parameter to adjust limit or remove it to get full content.]"),
        Demo.world).
Proof. repeat split; try reflexivity. discriminate. Qed.

(** C9 at a limit of three characters on the markdown of [Hello], and at
    a limit of two on its text. *)
Lemma truncation_reports_lengths_witness :
  readGoogleDoc (C := Demo.collaborators)
    (Sample.read_markdown "legacy" (Some (JS.Whole 3))) Demo.world
  = (inr ("Hel" ++ JS.nl ++ JS.nl
          ++ "... [Markdown truncated to 3 chars of 5 total. Use maxLength parameter to adjust limit or remove it to get full content.]"),
     Demo.world)
  /\ readGoogleDoc (C := Demo.collaborators)
       (Sample.read_text "legacy" (Some (JS.Whole 2))) Demo.world
     = (inr ("Content (truncated to 2 chars of 6 total):" ++ JS.nl ++ "---"
             ++ JS.nl ++ "He" ++ JS.nl ++ JS.nl
             ++ "... [Document continues for 4 more characters. Use maxLength parameter to adjust limit or remove it to get full content.]"),
        Demo.world)
  /\ readGoogleDoc (C := Demo.collaborators)
       (Sample.read_markdown "legacy" (Some (JS.Whole 5))) Demo.world
     = (inr "Hello", Demo.world).
Proof.
  split; [|split].
  - apply (proj1 (proj1 (truncation_reports_lengths (C := Demo.collaborators))
                    (Sample.read_markdown "legacy" (Some (JS.Whole 3)))
                    Demo.world Demo.legacy_doc (FromDocument Demo.legacy_doc)
                    "Hello" 3 eq_refl eq_refl (source_legacy Demo.legacy_doc)
                    eq_refl) eq_refl).
    cbn. lia.
  - apply (proj1 (proj1 (proj2 (truncation_reports_lengths
                                  (C := Demo.collaborators)))
                    (Sample.read_text "legacy" (Some (JS.Whole 2)))
                    Demo.world Demo.legacy_doc (FromDocument Demo.legacy_doc)
                    2 eq_refl eq_refl (source_legacy Demo.legacy_doc)
                    ltac:(discriminate)) eq_refl).
    cbn. lia.
  - apply (proj2 (proj1 (truncation_reports_lengths (C := Demo.collaborators))
                    (Sample.read_markdown "legacy" (Some (JS.Whole 5)))
                    Demo.world Demo.legacy_doc (FromDocument Demo.legacy_doc)
                    "Hello" 0 eq_refl eq_refl (source_legacy Demo.legacy_doc)
                    eq_refl)).
    right. right. exists (JS.Whole 5). split; [reflexivity|].
    cbn. lia.
Defined.

(** C10 at a document of two paragraphs that ends at index 13. *)
Lemma append_prepends_newline_witness :
  snd (appendToGoogleDoc (C := Demo.collaborators) Sample.append_to_report
         Demo.world)
  = mkWorld (C := Demo.collaborators)
      (Demo.mkState (Demo.stored (remote Demo.world)) 1)
      [BatchUpdate "report"
         [insertText_request (mkLocation 12 None) (JS.nl ++ "More")]]
  /\ fst (appendToGoogleDoc (C := Demo.collaborators) Sample.append_to_report
            Demo.world)
     = inr "Successfully appended text to document report.".
Proof.
  destruct (append_prepends_newline (C := Demo.collaborators)
              Sample.append_to_report Demo.world Demo.report_doc
              [para_element 1 7 (plain_paragraph ("Hello" ++ JS.nl))]
              (para_element 7 13 (plain_paragraph ("World" ++ JS.nl))) 13
              eq_refl eq_refl (resolves_legacy Demo.report_doc)
              eq_refl ltac:(lia)) as [Hworld Hresult].
  split; [exact Hworld | exact (Hresult eq_refl)].
Defined.

(* ================================================================== *)
(** ** What a tool call does to the world *)
(* ================================================================== *)

Section EffectProperties.

Context {C : Collaborators}.

Lemma read_only_ret {A : Type} (a : A) : read_only (ret a).
Proof. intros w. reflexivity. Qed.

Lemma read_only_throw {A : Type} (f : Failure) : read_only (throw (A := A) f).
Proof. intros w. reflexivity. Qed.

Lemma read_only_lift {A : Type} (r : Result A) : read_only (lift r).
Proof. intros w. reflexivity. Qed.

Lemma read_only_get (documentId : string) (b : bool) (fields : string) :
  read_only (call_documents_get documentId b fields).
Proof.
  intros w. unfold call_documents_get.
  destruct (documents_get (remote w) documentId b fields); reflexivity.
Qed.

Lemma read_only_findTextRange (documentId textToFind : string)
  (matchInstance : option Z) :
  read_only (call_findTextRange documentId textToFind matchInstance).
Proof. intros w. reflexivity. Qed.

Lemma read_only_getParagraphRange (documentId : string) (i : Z) :
  read_only (call_getParagraphRange documentId i).
Proof. intros w. reflexivity. Qed.

Lemma read_only_require_document_tab (doc : Document) (tabId : string) :
  read_only (require_document_tab doc tabId).
Proof.
  intros w. unfold require_document_tab.
  destruct (findTabById doc tabId) as [t|]; [|reflexivity].
  destruct (documentTab t); reflexivity.
Qed.

Lemma read_only_bind {A B : Type} (m : M A) (k : A -> M B) :
  read_only m -> (forall a, read_only (k a)) -> read_only (bind m k).
Proof.
  intros Hm Hk w. unfold bind. specialize (Hm w).
  destruct (m w) as [[f | a] w']; cbn [snd] in *; subst; [reflexivity|].
  apply Hk.
Qed.

Lemma read_only_try_catch {A : Type} (m : M A) (h : Failure -> M A) :
  read_only m -> (forall f, read_only (h f)) -> read_only (try_catch m h).
Proof.
  intros Hm Hh w. unfold try_catch. specialize (Hm w).
  destruct (m w) as [[f | a] w']; cbn [snd] in *; subst; [|reflexivity].
  apply Hh.
Qed.

Lemma single_of_read_only {A : Type} (m : M A) :
  read_only m -> single_mutation m.
Proof. intros H w. left. apply H. Qed.

Lemma single_executeBatchUpdate (documentId : string)
  (requests : list Request) :
  single_mutation (call_executeBatchUpdate documentId requests).
Proof.
  intros w. right. unfold call_executeBatchUpdate.
  destruct (executeBatchUpdate (remote w) documentId requests) as [r remote'].
  exists (BatchUpdate documentId requests), remote'. reflexivity.
Qed.

Lemma single_insertText (documentId t : string) (i : Z) :
  single_mutation (call_insertText documentId t i).
Proof.
  intros w. right. unfold call_insertText.
  destruct (helpers_insertText (remote w) documentId t i) as [r remote'].
  exists (LegacyInsertText documentId t i), remote'. reflexivity.
Qed.

Lemma single_bind_after {A B : Type} (m : M A) (k : A -> M B) :
  read_only m -> (forall a, single_mutation (k a)) ->
  single_mutation (bind m k).
Proof.
  intros Hm Hk w. unfold bind. specialize (Hm w).
  destruct (m w) as [[f | a] w']; cbn [snd] in *; subst; [now left|].
  apply Hk.
Qed.

Lemma single_bind_before {A B : Type} (m : M A) (k : A -> M B) :
  single_mutation m -> (forall a, read_only (k a)) ->
  single_mutation (bind m k).
Proof.
  intros Hm Hk w. unfold bind. specialize (Hm w).
  destruct (m w) as [[f | a] w']; cbn [snd] in *; [exact Hm|].
  rewrite (Hk a w'). exact Hm.
Qed.

Lemma single_try_catch {A : Type} (m : M A) (h : Failure -> M A) :
  single_mutation m -> (forall f, read_only (h f)) ->
  single_mutation (try_catch m h).
Proof.
  intros Hm Hh w. unfold try_catch. specialize (Hm w).
  destruct (m w) as [[f | a] w']; cbn [snd] in *; [|exact Hm].
  rewrite (Hh f w'). exact Hm.
Qed.

End EffectProperties.

Ltac read_only_step :=
  first
    [ apply read_only_ret | apply read_only_throw | apply read_only_lift
    | apply read_only_get | apply read_only_findTextRange
    | apply read_only_getParagraphRange
    | apply read_only_require_document_tab
    | apply read_only_bind; [|intros]
    | apply read_only_try_catch; [|intros]
    | match goal with
      | |- read_only (match ?x with _ => _ end) => destruct x
      | |- read_only (if ?b then _ else _) => destruct b
      | |- read_only (let '(_, _) := ?x in _) => destruct x
      end ].

Ltac prove_read_only := repeat read_only_step.

Ltac single_step :=
  first
    [ solve [apply single_of_read_only; prove_read_only]
    | apply single_executeBatchUpdate | apply single_insertText
    | apply single_bind_after; [solve [prove_read_only] | intros]
    | apply single_bind_before; [|intros; solve [prove_read_only]]
    | apply single_try_catch; [|intros; solve [prove_read_only]]
    | match goal with
      | |- single_mutation (match ?x with _ => _ end) => destruct x
      | |- single_mutation (if ?b then _ else _) => destruct b
      | |- single_mutation (let '(_, _) := ?x in _) => destruct x
      end ].

Ltac prove_single := repeat single_step.

Section ToolEffects.

Context {C : Collaborators}.

(** X1.  [readGoogleDoc] hands back the world it was given, whatever its
    arguments and whatever the service answers: it journals no mutating
    call and leaves the remote state as it found it. *)
Theorem readGoogleDoc_read_only (args : ReadGoogleDocArgs) :
  read_only (readGoogleDoc args).
Proof. unfold readGoogleDoc. prove_read_only. Qed.

(** X2.  Each of the editing tools either hands back the world it was
    given or journals exactly one mutating call after those already
    journalled; none issues two, and none rewrites the journal. *)
Theorem editing_tools_single_mutation :
  (forall args, single_mutation (appendToGoogleDoc args))
  /\ (forall args, single_mutation (insertText args))
  /\ (forall args, single_mutation (deleteRange args))
  /\ (forall args, single_mutation (applyTextStyle args))
  /\ (forall args, single_mutation (applyParagraphStyle args))
  /\ (forall args, single_mutation (formatMatchingText args)).
Proof.
  repeat split; intros args.
  - unfold appendToGoogleDoc. prove_single.
  - unfold insertText. prove_single.
  - unfold deleteRange. prove_single.
  - unfold applyTextStyle. prove_single.
  - unfold applyParagraphStyle. prove_single.
  - unfold formatMatchingText. prove_single.
Qed.

Lemma try_catch_result {A : Type} (P : Result A -> Prop) (m : M A)
  (h : Failure -> M A) (w : World) :
  (forall a, P (inr a)) ->
  (forall f w', P (fst (h f w'))) ->
  P (fst (try_catch m h w)).
Proof.
  intros Hok Hh. unfold try_catch.
  destruct (m w) as [[f | a] w']; [apply Hh | apply Hok].
Qed.

(** X3.  No tool lets an untranslated error out.  Whatever the service and
    the helpers throw, [readGoogleDoc], [appendToGoogleDoc],
    [applyTextStyle] and [applyParagraphStyle] fail only with a
    [UserError] or a [NotImplementedError], and [insertText],
    [deleteRange] and [formatMatchingText] only with a [UserError]. *)
Theorem failures_are_translated :
  (forall args w, translated (fst (readGoogleDoc args w)))
  /\ (forall args w, translated (fst (appendToGoogleDoc args w)))
  /\ (forall args w, translated (fst (applyTextStyle args w)))
  /\ (forall args w, translated (fst (applyParagraphStyle args w)))
  /\ (forall args w, user_error_or_value (fst (insertText args w)))
  /\ (forall args w, user_error_or_value (fst (deleteRange args w)))
  /\ (forall args w, user_error_or_value (fst (formatMatchingText args w))).
Proof.
  repeat split; intros args w.
  - unfold readGoogleDoc. apply try_catch_result; [exact (fun _ => I)|].
    intros [m | m | e] w'; cbn; try exact I.
    destruct (match err_code e with Some c => c =? 404 | None => false end);
      [exact I|].
    destruct (match err_code e with Some c => c =? 403 | None => false end);
      exact I.
  - unfold appendToGoogleDoc. apply try_catch_result; [exact (fun _ => I)|].
    intros [m | m | e] w'; exact I.
  - unfold applyTextStyle. destruct (ats_target args);
      (apply try_catch_result; [exact (fun _ => I)|]);
      intros [m | m | e] w'; exact I.
  - unfold applyParagraphStyle.
    apply try_catch_result; [exact (fun _ => I)|].
    intros [m | m | e] w'; exact I.
  - unfold insertText. apply try_catch_result; [exact (fun _ => I)|].
    intros [m | m | e] w'; exact I.
  - unfold deleteRange.
    destruct (delete_endIndex args <=? delete_startIndex args); [exact I|].
    apply try_catch_result; [exact (fun _ => I)|].
    intros [m | m | e] w'; exact I.
  - unfold formatMatchingText. apply try_catch_result; [exact (fun _ => I)|].
    intros [m | m | e] w'; exact I.
Qed.

(** X4.  When the fetch itself fails, [readGoogleDoc] reports it as a
    [UserError] and hands back the world unchanged: code [404] as [Doc not
    found], code [403] as [Permission denied], and every other error as
    [Failed to read doc:] followed by its details (the message of the API
    response when it has one, else the error's own message, else [Unknown
    error]) and, when a code is reported (that of the API response first,
    else the error's own), by [(Code: c)]. *)
Theorem readGoogleDoc_fetch_failure (args : ReadGoogleDocArgs) (w : World)
  (e : JsError) :
  read_fetch (remote w) args = inl e ->
  (err_code e = Some 404 ->
   readGoogleDoc args w
   = (inl (UserError ("Doc not found (ID: " ++ read_documentId args ++ ").")),
      w))
  /\ (err_code e = Some 403 ->
      readGoogleDoc args w
      = (inl (UserError ("Permission denied for doc (ID: "
                         ++ read_documentId args ++ ").")), w))
  /\ (forall (details : string) (code : option Z),
         err_code e <> Some 404 -> err_code e <> Some 403 ->
         error_details e details ->
         reported_code e code ->
         readGoogleDoc args w
         = (inl (UserError ("Failed to read doc: " ++ details
                            ++ code_suffix code)), w)).
Proof.
  intros Hget.
  assert (Hrun : readGoogleDoc args w
                 = (inl (read_failure (read_documentId args) (Thrown e)), w)).
  { unfold readGoogleDoc, read_fetch in *.
    unfold try_catch, bind at 1, call_documents_get.
    destruct (format args); rewrite Hget; reflexivity. }
  rewrite Hrun. unfold read_failure.
  split; [|split].
  - intros ->. reflexivity.
  - intros ->. reflexivity.
  - intros details code H404 H403 Hd Hc.
    assert (Hnot : forall k, err_code e <> Some k ->
                     match err_code e with
                     | Some c => c =? k
                     | None => false
                     end = false).
    { intros k Hk. destruct (err_code e) as [c|]; [|reflexivity].
      destruct (Z.eqb_spec c k); [subst; now destruct Hk | reflexivity]. }
    rewrite (Hnot 404 H404), (Hnot 403 H403).
    assert (Hdetails :
      (if JS.truthy_opt (err_api_message e)
       then JS.or_else (err_api_message e) ""
       else JS.or_else (Some (err_message e)) "Unknown error") = details).
    { destruct Hd as [m Hm Hne | [Hm | Hm] Hne | [Hm | Hm] Hne];
        rewrite Hm; cbn [JS.truthy_opt JS.or_else];
        rewrite ?(truthy_true _ Hne); try reflexivity;
        rewrite ?Hne; reflexivity. }
    cbv zeta. rewrite Hdetails.
    assert (Hnz : forall c, c <> 0 -> (c =? 0) = false).
    { intros c Hc0. now apply Z.eqb_neq. }
    destruct Hc as [c Ha Hne | c [Ha | Ha] Hown Hne
                   | [Ha | Ha] [Hown | Hown]];
      rewrite Ha;
      repeat first
        [ progress cbn [JS.truthy_num Z.eqb negb JS.num_opt code_suffix]
        | rewrite Hown
        | rewrite (Hnz _ Hne) ];
      rewrite ?sapp_empty_r; reflexivity.
Qed.

(** X5.  With [format = json], [readGoogleDoc] answers the serialised
    content source, the tab's body or the whole document.  When a limit
    applies the answer is its first [maxLength] characters followed by a
    marker that gives the total length; otherwise it is the whole
    serialisation. *)
Theorem readGoogleDoc_json (args : ReadGoogleDocArgs) (w : World)
  (doc : Document) (cs : ContentSource) :
  format args = json ->
  read_fetch (remote w) args = inr doc ->
  resolves_source doc (given (read_tabId args)) cs ->
  let jsonContent := JSON_stringify cs in
  (forall m,
      limit_applies (maxLength args) (String.length jsonContent) m ->
      readGoogleDoc args w
      = (inr (JS.substring0 m jsonContent
              ++ truncated_json_marker (String.length jsonContent)), w))
  /\ (unlimited (maxLength args) (String.length jsonContent) ->
      readGoogleDoc args w = (inr jsonContent, w)).
Proof.
  intros Hf Hget Hres jsonContent.
  assert (Hrun :
    readGoogleDoc args w
    = (inr (match limit_exceeded (maxLength args)
                    (String.length jsonContent) with
            | Some m => JS.substring_to m jsonContent
                        ++ truncated_json_marker (String.length jsonContent)
            | None => jsonContent
            end), w)).
  { unfold readGoogleDoc, read_fetch in *. rewrite Hf in *.
    unfold try_catch, bind at 1, call_documents_get. rewrite Hget.
    unfold bind at 1. rewrite (read_source args w doc cs Hres).
    fold jsonContent.
    destruct (limit_exceeded (maxLength args) (String.length jsonContent));
      reflexivity. }
  rewrite Hrun. split.
  - intros m H.
    destruct (limit_applies_exceeded _ _ _ H) as [x [-> Hcut]].
    now rewrite Hcut.
  - intros H. now rewrite (unlimited_not_exceeded _ _ H).
Qed.

End ToolEffects.

(* ================================================================== *)
(** ** More on the markdown projection *)
(* ================================================================== *)

Lemma trimStart_clean (s : string) : starts_clean (JS.trimStart s).
Proof.
  induction s as [|c r IH]; cbn [JS.trimStart]; [exact I|].
  destruct (JS.is_ws c) eqn:E; [exact IH | exact E].
Qed.

Lemma trimEnd_keeps_start (s : string) :
  starts_clean s -> starts_clean (JS.trimEnd s).
Proof.
  destruct s as [|c r]; [intros; exact I|]. cbn [starts_clean JS.trimEnd].
  intros Hc. destruct (JS.trimEnd r); [rewrite Hc|]; exact Hc.
Qed.

Lemma trimStart_of_clean (s : string) :
  starts_clean s -> JS.trimStart s = s.
Proof.
  destruct s as [|c r]; [reflexivity|]. cbn [starts_clean JS.trimStart].
  now intros ->.
Qed.

Lemma trimEnd_idempotent (s : string) :
  JS.trimEnd (JS.trimEnd s) = JS.trimEnd s.
Proof.
  induction s as [|c r IH]; [reflexivity|]. cbn [JS.trimEnd].
  destruct (JS.trimEnd r) as [|y t] eqn:E.
  - destruct (JS.is_ws c) eqn:Ec; [reflexivity|].
    cbn [JS.trimEnd]. now rewrite Ec.
  - change (JS.trimEnd (String c (String y t)))
      with (match JS.trimEnd (String y t) with
            | EmptyString =>
                if JS.is_ws c then EmptyString else String c EmptyString
            | t' => String c t'
            end).
    rewrite IH. reflexivity.
Qed.

(** Trimming twice is trimming once. *)
Lemma trim_idempotent (s : string) : JS.trim (JS.trim s) = JS.trim s.
Proof.
  unfold JS.trim.
  rewrite (trimStart_of_clean (JS.trimEnd (JS.trimStart s))).
  - apply trimEnd_idempotent.
  - apply trimEnd_keeps_start, trimStart_clean.
Qed.

(** X6.  Whatever [convertDocsJsonToMarkdown] returns has no white space
    at either end: trimming it changes nothing.  This holds for every
    body, the message for a missing body included. *)
Theorem markdown_has_no_outer_space (docBody : option Body) (md : string) :
  convertDocsJsonToMarkdown docBody = inr md -> JS.trim md = md.
Proof.
  unfold convertDocsJsonToMarkdown.
  destruct (body_content docBody) as [els|].
  - destruct (forEach_appendM element_markdown els "") as [e | x];
      [discriminate|].
    intros H. injection H as <-. apply trim_idempotent.
  - intros H. injection H as <-. reflexivity.
Qed.

Lemma forEach_appendM_fails {A : Type} (f : A -> Result string)
  (l : list A) (acc : string) :
  (exists e, forEach_appendM f l acc = inl e)
  <-> (exists x e, In x l /\ f x = inl e).
Proof.
  revert acc. induction l as [|x l IH]; intros acc; cbn [forEach_appendM].
  - split; [intros [e H]; discriminate | intros [x [e [[] _]]]].
  - destruct (f x) as [e | t] eqn:E.
    + split; [|intros _; now exists e].
      intros _. exists x, e. split; [now left | exact E].
    + rewrite IH. split.
      * intros [y [e [Hin Hy]]]. exists y, e. split; [now right | exact Hy].
      * intros [y [e [[<- | Hin] Hy]]]; [congruence|].
        exists y, e. now split.
Qed.

Section MarkdownFailure.

Context {C : Collaborators}.

(** X7.  [convertParagraphToMarkdown] throws exactly when the paragraph is
    a heading whose level parses to a negative number and it has text
    left after trimming; the error is the range error of [repeat] with
    that number.  A body fails to convert exactly when one of its elements
    does, and [readGoogleDoc] then reports the error as [Failed to read
    doc:] followed by its message. *)
Theorem markdown_conversion_failure :
  (forall (p : Paragraph) (level : Z),
      heading_of p = (true, Some level) -> level < 0 -> has_text p ->
      convertParagraphToMarkdown p
      = inl (RangeError ("Invalid count value: " ++ JS.num level)))
  /\ (forall (p : Paragraph) (f : Failure),
         convertParagraphToMarkdown p = inl f ->
         exists level,
           heading_of p = (true, Some level) /\ level < 0 /\ has_text p)
  /\ (forall els : list StructuralElement,
         (exists f, convertDocsJsonToMarkdown (Some (mkBody (Some els)))
                    = inl f)
         <-> (exists e f, In e els /\ element_markdown e = inl f))
  /\ (forall (args : ReadGoogleDocArgs) (w : World) (doc : Document)
             (cs : ContentSource) (message : string),
         format args = markdown ->
         read_fetch (remote w) args = inr doc ->
         resolves_source doc (given (read_tabId args)) cs ->
         convertDocsJsonToMarkdown (cs_body cs) = inl (RangeError message) ->
         message <> "" ->
         readGoogleDoc args w
         = (inl (UserError ("Failed to read doc: " ++ message)), w)).
Proof.
  split; [|split; [|split]].
  - intros p level Hh Hneg Ht. unfold convertParagraphToMarkdown.
    rewrite Hh, (truthy_true _ Ht). cbn [andb JS.Math_min option_map].
    unfold JSThrow.repeat.
    replace (Z.min level 6) with level by lia.
    destruct (Z.ltb_spec level 0); [reflexivity | lia].
  - intros p f. unfold convertParagraphToMarkdown.
    destruct (heading_of p) as [isHeading level].
    destruct (JS.truthy (JS.trim (paragraph_markdown_text p))) eqn:Et;
      [|rewrite !Bool.andb_false_r; discriminate].
    destruct isHeading; cbn [andb];
      [|destruct (bullet p); discriminate].
    destruct level as [level|]; cbn [JS.Math_min option_map JSThrow.repeat];
      [|discriminate].
    destruct (Z.ltb_spec (Z.min level 6) 0); [|discriminate].
    intros _. exists level. split; [reflexivity|]. split; [lia|].
    unfold has_text. intros H0. rewrite H0 in Et. discriminate.
  - intros els. unfold convertDocsJsonToMarkdown. cbn [body_content content].
    rewrite <- forEach_appendM_fails with (acc := "").
    destruct (forEach_appendM element_markdown els "") as [e | x].
    + split; intros _; now exists e.
    + split; intros [f H]; discriminate.
  - intros args w doc cs message Hf Hget Hres Hmd Hne.
    unfold readGoogleDoc, read_fetch in *. rewrite Hf in *.
    unfold try_catch, bind at 1, call_documents_get. rewrite Hget.
    unfold bind at 1. rewrite (read_source args w doc cs Hres).
    unfold bind, lift. rewrite Hmd. unfold throw, read_failure, RangeError.
    cbn [err_code err_api_message err_api_code err_message JS.truthy_opt
         JS.truthy_num JS.or_else].
    rewrite (truthy_true _ Hne). now rewrite sapp_empty_r.
Qed.

End MarkdownFailure.

(** X7 at a heading of level [-2]. *)
Lemma markdown_conversion_failure_witness :
  convertParagraphToMarkdown MoreSamples.negative_heading
  = inl (RangeError "Invalid count value: -2").
Proof.
  apply (proj1 (markdown_conversion_failure (C := Demo.collaborators))
           MoreSamples.negative_heading (-2)).
  - reflexivity.
  - lia.
  - discriminate.
Defined.

(** X8.  A paragraph that is neither a heading nor bulleted and has text
    left after trimming renders as the trimmed text and a blank line.  A
    paragraph is not a heading when it has no paragraph style, no named
    style, or a named style, such as [NORMAL_TEXT], that neither starts
    with [HEADING_] nor is [TITLE] or [SUBTITLE]. *)
Theorem plain_paragraph_rendering :
  (forall p : Paragraph,
      bullet p = None -> fst (heading_of p) = false -> has_text p ->
      convertParagraphToMarkdown p
      = inr (JS.trim (paragraph_markdown_text p) ++ JS.nl ++ JS.nl))
  /\ (forall p : Paragraph,
         paragraphStyle p = None -> fst (heading_of p) = false)
  /\ (forall (p : Paragraph) (st : string),
         styled p st ->
         JS.startsWith st "HEADING_" = false ->
         st <> "TITLE" -> st <> "SUBTITLE" ->
         fst (heading_of p) = false).
Proof.
  split; [|split].
  - intros p Hb Hh Ht. unfold convertParagraphToMarkdown.
    destruct (heading_of p) as [isHeading level]. cbn [fst] in Hh. subst.
    rewrite Hb, (truthy_true _ Ht). reflexivity.
  - intros p Hp. unfold heading_of. now rewrite Hp.
  - intros p st [ps [Hps Hst]] Hpre Ht Hs. unfold heading_of.
    rewrite Hps, Hst, Hpre.
    destruct (JS.truthy st); [|reflexivity].
    destruct (String.eqb_spec st "TITLE"); [contradiction|].
    destruct (String.eqb_spec st "SUBTITLE"); [contradiction|].
    reflexivity.
Qed.

(** X8 at a paragraph of normal text. *)
Lemma plain_paragraph_rendering_witness :
  convertParagraphToMarkdown MoreSamples.normal_paragraph
  = inr ("Body text" ++ JS.nl ++ JS.nl).
Proof.
  apply (proj1 plain_paragraph_rendering MoreSamples.normal_paragraph).
  - reflexivity.
  - apply (proj2 (proj2 plain_paragraph_rendering)
             MoreSamples.normal_paragraph "NORMAL_TEXT").
    + eexists; split; reflexivity.
    + reflexivity.
    + discriminate.
    + discriminate.
  - discriminate.
Defined.

Lemma occurs_in_itself (t : string) : occurs_in t t.
Proof. exists "", "". cbn. now rewrite sapp_empty_r. Qed.

Lemma occurs_in_wrapped (t s a b : string) :
  occurs_in t s -> occurs_in t (a ++ s ++ b).
Proof.
  intros [pre [post ->]]. exists (a ++ pre), (post ++ b).
  now rewrite !sapp_assoc.
Qed.

(** X9.  The markdown of a text run always contains the run's text
    unchanged: formatting only adds markers around it.  A run without a
    text style is rendered as its text alone. *)
Theorem run_markdown_keeps_text (r : TextRun) :
  occurs_in (run_text (tr_content r)) (convertTextRunToMarkdown r)
  /\ (textStyle r = None ->
      convertTextRunToMarkdown r = run_text (tr_content r)).
Proof.
  unfold convertTextRunToMarkdown, run_text. split.
  - destruct (textStyle r) as [style|]; [|apply occurs_in_itself].
    destruct (link style) as [l|];
      [destruct (url l) as [u|]; [destruct (JS.truthy u)|]|];
      destruct (bold style), (italic style), (underline style),
        (strikethrough style); cbn [andb negb];
      repeat apply occurs_in_wrapped; apply occurs_in_itself.
  - now intros ->.
Qed.

(* ================================================================== *)
(** ** The editing tools, step by step *)
(* ================================================================== *)

Section EditingTools.

Context {C : Collaborators}.

Lemma try_bind_step {A B : Type} (m : M A) (k : A -> M B)
  (h : Failure -> M B) (w : World) (a : A) (w' : World) :
  m w = (inr a, w') ->
  try_catch (bind m k) h w = try_catch (k a) h w'.
Proof. unfold try_catch, bind. now intros ->. Qed.

Lemma try_bind_same {A B : Type} (m m' : M A) (k : A -> M B)
  (h : Failure -> M B) (w : World) :
  m w = m' w ->
  try_catch (bind m k) h w = try_catch (bind m' k) h w.
Proof. unfold try_catch, bind. now intros ->. Qed.

Lemma try_bind_fails {A B : Type} (m : M A) (k : A -> M B)
  (h : Failure -> M B) (w : World) (f : Failure) (w' : World) :
  m w = (inl f, w') ->
  try_catch (bind m k) h w = h f w'.
Proof. unfold try_catch, bind. now intros ->. Qed.

(** A handler that ends with one batch and a message: the world is the one
    after the batch, and the message is returned when the batch is
    accepted. *)
Lemma batch_then_message (documentId : string) (requests : list Request)
  (message : string) (h : Failure -> M string) (w : World) :
  (forall f w', snd (h f w') = w') ->
  snd (try_catch (call_executeBatchUpdate documentId requests ;;;
                  ret message)%handler h w)
  = submitted w documentId requests
  /\ (accepted w documentId requests ->
      fst (try_catch (call_executeBatchUpdate documentId requests ;;;
                      ret message)%handler h w) = inr message).
Proof.
  intros Hh. unfold try_catch, bind, call_executeBatchUpdate, submitted,
    accepted, ret.
  destruct (executeBatchUpdate (remote w) documentId requests)
    as [[f | []] remote']; cbn [fst snd].
  - split; [apply Hh | discriminate].
  - split; reflexivity.
Qed.

Lemma get_ok (documentId : string) (b : bool) (fields : string) (w : World)
  (doc : Document) :
  documents_get (remote w) documentId b fields = inr doc ->
  call_documents_get documentId b fields w = (inr doc, w).
Proof. unfold call_documents_get. now intros ->. Qed.

Lemma append_body_ok (args : AppendToGoogleDocArgs) (w : World)
  (doc : Document) (bodyContent : option (list StructuralElement)) :
  resolves_body doc (given (append_tabId args)) bodyContent ->
  (match given (append_tabId args) with
   | Some tabId =>
       dt <- require_document_tab doc tabId ;;
       ret (body_content (tab_body dt))
   | None => ret (body_content (body doc))
   end)%handler w = (inr bodyContent, w).
Proof.
  intros Hres.
  inversion Hres as [Hg Hb | tabId tab dt Hfind Hdt Hg Hb]; [reflexivity|].
  unfold bind. rewrite (require_document_tab_ok doc tabId tab dt w Hfind Hdt).
  reflexivity.
Qed.

Lemma append_index_nothing (bodyContent : option (list StructuralElement)) :
  nothing_to_append_after bodyContent -> append_index bodyContent = 1.
Proof.
  intros [-> | [-> | [before [l [-> [He | He]]]]]]; try reflexivity;
    unfold append_index; rewrite last_element_end, He; reflexivity.
Qed.

Lemma appendToGoogleDoc_run (args : AppendToGoogleDocArgs) (w : World)
  (doc : Document) (bodyContent : option (list StructuralElement))
  (i : Z) (t : string) :
  append_fetch (remote w) args = inr doc ->
  resolves_body doc (given (append_tabId args)) bodyContent ->
  append_index bodyContent = i ->
  (if (addNewlineIfNeeded args && (i >? 1))%bool then JS.nl else "")
  ++ textToAppend args = t ->
  t <> "" ->
  let single :=
    [insertText_request (mkLocation i (given (append_tabId args))) t] in
  snd (appendToGoogleDoc args w)
  = submitted w (append_documentId args) single
  /\ (accepted w (append_documentId args) single ->
      fst (appendToGoogleDoc args w) = inr (append_success args)).
Proof.
  intros Hget Hres Hi Ht Hne single.
  unfold appendToGoogleDoc, append_fetch in *.
  rewrite (try_bind_step _ _ _ w doc w (get_ok _ _ _ w doc Hget)).
  rewrite (try_bind_step _ _ _ w bodyContent w
             (append_body_ok args w doc bodyContent Hres)).
  rewrite Hi, Ht, (truthy_true _ Hne). cbn [negb].
  apply batch_then_message. intros [m | m | e] w'; reflexivity.
Qed.

(** X10.  Appending to a document that has nothing to append after (no
    content, no element, or content that ends with an element without a
    usable [endIndex]) inserts the text at index [1] exactly as given: no
    line feed is put before it, whatever [addNewlineIfNeeded] says.  One
    batch with that single request is submitted. *)
Theorem append_to_empty_document (args : AppendToGoogleDocArgs) (w : World)
  (doc : Document) (bodyContent : option (list StructuralElement)) :
  append_fetch (remote w) args = inr doc ->
  resolves_body doc (given (append_tabId args)) bodyContent ->
  nothing_to_append_after bodyContent ->
  textToAppend args <> "" ->
  let single :=
    [insertText_request (mkLocation 1 (given (append_tabId args)))
       (textToAppend args)] in
  snd (appendToGoogleDoc args w)
  = submitted w (append_documentId args) single
  /\ (accepted w (append_documentId args) single ->
      fst (appendToGoogleDoc args w) = inr (append_success args)).
Proof.
  intros Hget Hres Hnone Hne.
  apply (appendToGoogleDoc_run args w doc bodyContent 1 (textToAppend args)
           Hget Hres (append_index_nothing _ Hnone)); [|exact Hne].
  rewrite Bool.andb_false_r. reflexivity.
Qed.

(** X11.  With [addNewlineIfNeeded] false, [appendToGoogleDoc] inserts the
    text exactly as given, one position before the end of the element the
    body's content ends with, in one batch with that single request. *)
Theorem append_without_newline (args : AppendToGoogleDocArgs) (w : World)
  (doc : Document) (before : list StructuralElement)
  (lastElement : StructuralElement) (e : Z) :
  addNewlineIfNeeded args = false ->
  append_fetch (remote w) args = inr doc ->
  resolves_body doc (given (append_tabId args))
    (Some (before ++ [lastElement])%list) ->
  se_endIndex lastElement = Some e ->
  e <> 0 ->
  textToAppend args <> "" ->
  let single :=
    [insertText_request (mkLocation (e - 1) (given (append_tabId args)))
       (textToAppend args)] in
  snd (appendToGoogleDoc args w)
  = submitted w (append_documentId args) single
  /\ (accepted w (append_documentId args) single ->
      fst (appendToGoogleDoc args w) = inr (append_success args)).
Proof.
  intros Hnl Hget Hres Hend He Hne.
  apply (appendToGoogleDoc_run args w doc _ (e - 1)
           (textToAppend args) Hget Hres); [| |exact Hne].
  - unfold append_index. rewrite last_element_end, Hend.
    destruct (Z.eqb_spec e 0); [contradiction | reflexivity].
  - rewrite Hnl. reflexivity.
Qed.

Lemma tab_available_ok (doc : Document) (t : string) (w : World) :
  tab_available doc (Some t) ->
  exists dt, require_document_tab doc t w = (inr dt, w).
Proof.
  intros [tab [dt [Hfind Hdt]]]. exists dt.
  now apply (require_document_tab_ok doc t tab dt w).
Qed.

(** X12.  [insertText] with a tab: once the tab is found with a
    [documentTab], one batch is submitted whose single request inserts the
    text at the given index in that tab.  Without a tab no document is
    fetched and no batch is built: the legacy helper is called once with
    the text and the index.  A [UserError] of the helper comes back as it
    is; any other failure comes back as [Failed to insert text:] followed
    by the message it carries, or by [Unknown error] when it carries
    none. *)
Theorem insertText_paths (args : InsertTextArgs) (w : World) :
  (forall (t : string) (doc : Document),
      given (insert_tabId args) = Some t ->
      documents_get (remote w) (insert_documentId args) true
        "tabs(tabProperties,documentTab)" = inr doc ->
      tab_available doc (Some t) ->
      let single :=
        [insertText_request (mkLocation (insert_index args) (Some t))
           (textToInsert args)] in
      snd (insertText args w) = submitted w (insert_documentId args) single
      /\ (accepted w (insert_documentId args) single ->
          fst (insertText args w) = inr (insert_success args)))
  /\ (given (insert_tabId args) = None ->
      let helper :=
        helpers_insertText (remote w) (insert_documentId args)
          (textToInsert args) (insert_index args) in
      snd (insertText args w)
      = legacy_inserted w (insert_documentId args) (textToInsert args)
          (insert_index args)
      /\ (fst helper = inr tt ->
          fst (insertText args w) = inr (insert_success args))
      /\ (forall m, fst helper = inl (UserError m) ->
                    fst (insertText args w) = inl (UserError m))
      /\ (forall f m, fst helper = inl f ->
                      carries_message f m ->
                      fst (insertText args w)
                      = inl (UserError ("Failed to insert text: " ++ m)))
      /\ (forall f, fst helper = inl f ->
                    carries_no_message f ->
                    fst (insertText args w)
                    = inl (UserError "Failed to insert text: Unknown error"))).
Proof.
  split.
  - intros t doc Hg Hget Htab single.
    destruct (tab_available_ok doc t w Htab) as [dt Hdt].
    unfold insertText, insert_success. rewrite Hg.
    assert (Hpre :
      (docInfo <- call_documents_get (insert_documentId args) true
                    "tabs(tabProperties,documentTab)" ;;
       require_document_tab docInfo t ;;;
       call_executeBatchUpdate (insert_documentId args) single)%handler w
      = call_executeBatchUpdate (insert_documentId args) single w).
    { unfold bind at 1. rewrite (get_ok _ _ _ w doc Hget).
      unfold bind at 1. rewrite Hdt. reflexivity. }
    fold single. rewrite (try_bind_same _ _ _ _ w Hpre).
    apply batch_then_message. intros [m | m | e] w'; reflexivity.
  - intros Hg helper. unfold insertText, insert_success, legacy_inserted.
    rewrite Hg. subst helper.
    unfold try_catch, bind, call_insertText, ret.
    destruct (helpers_insertText (remote w) (insert_documentId args)
                (textToInsert args) (insert_index args))
      as [[f | []] remote']; cbn [fst snd].
    + split; [destruct f; reflexivity|]. split; [discriminate|].
      split; [intros m Hf; injection Hf as ->; reflexivity|].
      split.
      * intros f' m Hf Hm. injection Hf as <-.
        destruct Hm as [e Hne | m Hne]; cbn [throw fst];
          unfold wrap_failure, message_or_unknown;
          cbn [failure_message JS.or_else];
          now rewrite (truthy_true _ Hne).
      * intros f' Hf Hm. injection Hf as <-.
        destruct Hm as [e He |]; cbn [throw fst];
          unfold wrap_failure, message_or_unknown;
          cbn [failure_message JS.or_else]; [now rewrite He | reflexivity].
    + split; [reflexivity|]. split; [reflexivity|].
      split; [discriminate|]. split; intros; discriminate.
Qed.

Lemma deleteRange_schema_accepts (args : DeleteRangeArgs) :
  deleteRange_schema args = []
  <-> 1 <= delete_startIndex args
      /\ delete_startIndex args < delete_endIndex args.
Proof.
  unfold deleteRange_schema.
  destruct (Z.ltb_spec (delete_startIndex args) 1);
    destruct (Z.ltb_spec (delete_endIndex args) 1);
    destruct (Z.gtb_spec (delete_endIndex args) (delete_startIndex args));
    cbn [app]; split; try discriminate; try lia; try reflexivity;
    intros [? ?]; lia.
Qed.

(** X13.  The schema of [deleteRange] accepts a call exactly when
    [1 <= startIndex < endIndex].  An accepted call, once its tab (if any)
    is found with a [documentTab], submits one batch whose single request
    deletes the range from [startIndex] to [endIndex] in that tab, and
    reports success when the batch is accepted. *)
Theorem deleteRange_submits_the_range (args : DeleteRangeArgs) (w : World) :
  (deleteRange_schema args = []
   <-> 1 <= delete_startIndex args
       /\ delete_startIndex args < delete_endIndex args)
  /\ (forall doc : Document,
         deleteRange_schema args = [] ->
         (forall t, given (delete_tabId args) = Some t ->
                    documents_get (remote w) (delete_documentId args) true
                      "tabs(tabProperties,documentTab)" = inr doc) ->
         tab_available doc (given (delete_tabId args)) ->
         let single :=
           [deleteContentRange
              (mkRange (delete_startIndex args) (delete_endIndex args)
                 (given (delete_tabId args)))] in
         snd (deleteRange_tool args w)
         = submitted w (delete_documentId args) single
         /\ (accepted w (delete_documentId args) single ->
             fst (deleteRange_tool args w)
             = Executed (inr (delete_success args)))).
Proof.
  split; [apply deleteRange_schema_accepts|].
  intros doc Hs Hget Htab single.
  pose proof (proj1 (deleteRange_schema_accepts args) Hs) as [_ Hlt].
  assert (Hrun :
    snd (deleteRange args w) = submitted w (delete_documentId args) single
    /\ (accepted w (delete_documentId args) single ->
        fst (deleteRange args w) = inr (delete_success args))).
  { unfold deleteRange, delete_success.
    destruct (Z.leb_spec (delete_endIndex args) (delete_startIndex args));
      [lia|].
    assert (Hpre :
      (match given (delete_tabId args) with
       | Some tabId =>
           docInfo <- call_documents_get (delete_documentId args) true
                        "tabs(tabProperties,documentTab)" ;;
           require_document_tab docInfo tabId ;;;
           ret tt
       | None => ret tt
       end)%handler w = (inr tt, w)).
    { destruct (given (delete_tabId args)) as [t|]; [|reflexivity].
      destruct (tab_available_ok doc t w Htab) as [dt Hdt].
      unfold bind at 1. rewrite (get_ok _ _ _ w doc (Hget t eq_refl)).
      unfold bind. rewrite Hdt. reflexivity. }
    rewrite (try_bind_step _ _ _ w tt w Hpre).
    apply batch_then_message. intros [m | m | e] w'; reflexivity. }
  unfold deleteRange_tool, tool. rewrite Hs.
  destruct (deleteRange args w) as [r w']. cbn [fst snd] in *.
  destruct Hrun as [Hw Hr]. split; [exact Hw|].
  intros Ha. now rewrite (Hr Ha).
Qed.

(** X14.  [applyTextStyle] on a text query that is not found fails with
    [Could not find instance] and hands back the world unchanged.  When
    the target resolves to a range with [startIndex < endIndex] and the
    builder returns a request, one batch made of that single request is
    submitted, and the success message lists the builder's fields and the
    range. *)
Theorem applyTextStyle_paths (args : ApplyTextStyleToolArgs) (w : World) :
  (forall textToFind matchInstance,
      ats_target args = TextFindTarget textToFind matchInstance ->
      findTextRange (remote w) (ats_documentId args) textToFind matchInstance
      = inr None ->
      applyTextStyle args w
      = (inl (UserError ("Could not find instance "
                         ++ JS.num_opt matchInstance ++ " of text " ++ dq
                         ++ textToFind ++ dq ++ ".")), w))
  /\ (forall (s e : Z) (info : RequestInfo),
         text_target_range (remote w) (ats_documentId args) (ats_target args)
         = Some (s, e) ->
         s < e ->
         buildUpdateTextStyleRequest s e (ats_style args) = inr (Some info) ->
         snd (applyTextStyle args w)
         = submitted w (ats_documentId args) [request info]
         /\ (accepted w (ats_documentId args) [request info] ->
             fst (applyTextStyle args w)
             = inr ("Successfully applied text style ("
                    ++ String.concat ", " (fields info) ++ ") to range "
                    ++ JS.num s ++ "-" ++ JS.num e ++ "."))).
Proof.
  split.
  - intros q mi Ht Hfind. unfold applyTextStyle. rewrite Ht.
    run_handler. rewrite Hfind. reflexivity.
  - intros s e info Hr Hlt Hb. unfold applyTextStyle, text_target_range in *.
    assert (Hl : lift (buildUpdateTextStyleRequest s e (ats_style args)) w
                 = (inr (Some info), w))
      by (unfold lift; now rewrite Hb).
    destruct (ats_target args) as [s0 e0 | q mi].
    + injection Hr as -> ->.
      rewrite (try_bind_step _ _ _ w (Some s, Some e) w eq_refl).
      destruct (Z.leb_spec e s); [lia|].
      rewrite (try_bind_step _ _ _ w (Some info) w Hl).
      apply batch_then_message. intros [m | m | e'] w'; reflexivity.
    + rewrite (try_bind_step _ _ _ w (Some s, Some e) w).
      * destruct (Z.leb_spec e s); [lia|].
        rewrite (try_bind_step _ _ _ w (Some info) w Hl).
        apply batch_then_message. intros [m | m | e'] w'; reflexivity.
      * unfold bind, call_findTextRange.
        destruct (findTextRange (remote w) (ats_documentId args) q mi)
          as [f | [r |]]; try discriminate.
        injection Hr as <- <-. reflexivity.
Qed.

Lemma paragraph_target_resolves (args : ApplyParagraphStyleToolArgs)
  (w : World) (s e : Z) :
  paragraph_target_range (remote w) (aps_documentId args) (aps_target args)
  = Some (s, e) ->
  (match aps_target args with
   | ParagraphFindTarget textToFind matchInstance =>
       textRange <- call_findTextRange (aps_documentId args) textToFind
                      (Some (instance_or_1 matchInstance)) ;;
       match textRange with
       | None =>
           throw (UserError ("Could not find " ++ dq ++ textToFind ++ dq
                             ++ " in the document."))
       | Some tr =>
           paragraphRange <- call_getParagraphRange (aps_documentId args)
                               (found_startIndex tr) ;;
           match paragraphRange with
           | None =>
               throw (UserError
                        "Found the text but could not determine the paragraph boundaries.")
           | Some pr =>
               ret (Some (found_startIndex pr), Some (found_endIndex pr))
           end
       end
   | ParagraphIndexTarget indexWithinParagraph =>
       paragraphRange <- call_getParagraphRange (aps_documentId args)
                           indexWithinParagraph ;;
       match paragraphRange with
       | None =>
           throw (UserError ("Could not find paragraph containing index "
                             ++ JS.num indexWithinParagraph ++ "."))
       | Some pr =>
           ret (Some (found_startIndex pr), Some (found_endIndex pr))
       end
   | ParagraphRangeTarget s0 e0 => ret (Some s0, Some e0)
   end)%handler w = (inr (Some s, Some e), w).
Proof.
  unfold paragraph_target_range. intros Hr.
  destruct (aps_target args) as [q mi | i | s0 e0];
    unfold bind, call_findTextRange, call_getParagraphRange, ret.
  - destruct (findTextRange (remote w) (aps_documentId args) q
                (Some (instance_or_1 mi))) as [f | [r |]]; try discriminate.
    destruct (getParagraphRange (remote w) (aps_documentId args)
                (found_startIndex r)) as [f | [pr |]]; try discriminate.
    injection Hr as <- <-. reflexivity.
  - destruct (getParagraphRange (remote w) (aps_documentId args) i)
      as [f | [pr |]]; try discriminate.
    injection Hr as <- <-. reflexivity.
  - injection Hr as <- <-. reflexivity.
Qed.

(** X15.  [applyParagraphStyle] fails, with the world unchanged, when the
    text is not found, when the text is found but no paragraph contains
    it, and when no paragraph contains the given index.  When the target
    resolves to a range with [startIndex < endIndex]: if the builder
    returns nothing the tool answers [No valid paragraph styling options
    were provided.] and changes nothing; if it returns a request, one
    batch made of that single request is submitted and the message lists
    the builder's fields.  A text target without [matchInstance], or with
    [0], looks for the first instance. *)
Theorem applyParagraphStyle_paths (args : ApplyParagraphStyleToolArgs)
  (w : World) :
  (forall q mi,
      aps_target args = ParagraphFindTarget q mi ->
      findTextRange (remote w) (aps_documentId args) q
        (Some (instance_or_1 mi)) = inr None ->
      applyParagraphStyle args w
      = (inl (UserError ("Could not find " ++ dq ++ q ++ dq
                         ++ " in the document.")), w))
  /\ (forall q mi tr,
         aps_target args = ParagraphFindTarget q mi ->
         findTextRange (remote w) (aps_documentId args) q
           (Some (instance_or_1 mi)) = inr (Some tr) ->
         getParagraphRange (remote w) (aps_documentId args)
           (found_startIndex tr) = inr None ->
         applyParagraphStyle args w
         = (inl (UserError
                   "Found the text but could not determine the paragraph boundaries."),
            w))
  /\ (forall i,
         aps_target args = ParagraphIndexTarget i ->
         getParagraphRange (remote w) (aps_documentId args) i = inr None ->
         applyParagraphStyle args w
         = (inl (UserError ("Could not find paragraph containing index "
                            ++ JS.num i ++ ".")), w))
  /\ (forall s e,
         paragraph_target_range (remote w) (aps_documentId args)
           (aps_target args) = Some (s, e) ->
         s < e ->
         (buildUpdateParagraphStyleRequest s e (aps_style args) = inr None ->
          applyParagraphStyle args w
          = (inr "No valid paragraph styling options were provided.", w))
         /\ (forall info,
                buildUpdateParagraphStyleRequest s e (aps_style args)
                = inr (Some info) ->
                snd (applyParagraphStyle args w)
                = submitted w (aps_documentId args) [request info]
                /\ (accepted w (aps_documentId args) [request info] ->
                    fst (applyParagraphStyle args w)
                    = inr ("Successfully applied paragraph styles ("
                           ++ String.concat ", " (fields info)
                           ++ ") to the paragraph."))))
  /\ (forall q, instance_or_1 None = 1 /\ instance_or_1 (Some 0) = 1
                /\ paragraph_target_range (remote w) (aps_documentId args)
                     (ParagraphFindTarget q None)
                   = paragraph_target_range (remote w) (aps_documentId args)
                       (ParagraphFindTarget q (Some 1))).
Proof.
  split; [|split; [|split; [|split]]].
  - intros q mi Ht Hf. unfold applyParagraphStyle. rewrite Ht. run_handler.
    rewrite Hf. reflexivity.
  - intros q mi tr Ht Hf Hp. unfold applyParagraphStyle. rewrite Ht.
    run_handler. rewrite Hf, Hp. reflexivity.
  - intros i Ht Hp. unfold applyParagraphStyle. rewrite Ht. run_handler.
    rewrite Hp. reflexivity.
  - intros s e Hr Hlt.
    pose proof (paragraph_target_resolves args w s e Hr) as Hpre.
    split.
    + intros Hb. unfold applyParagraphStyle.
      rewrite (try_bind_step _ _ _ w (Some s, Some e) w Hpre).
      destruct (Z.leb_spec e s); [lia|].
      unfold try_catch, bind, lift. rewrite Hb. reflexivity.
    + intros info Hb. unfold applyParagraphStyle.
      rewrite (try_bind_step _ _ _ w (Some s, Some e) w Hpre).
      destruct (Z.leb_spec e s); [lia|].
      assert (Hl : lift (buildUpdateParagraphStyleRequest s e
                           (aps_style args)) w = (inr (Some info), w))
        by (unfold lift; now rewrite Hb).
      rewrite (try_bind_step _ _ _ w (Some info) w Hl).
      apply batch_then_message. intros [m | m | e'] w'; reflexivity.
  - intros q. repeat split.
Qed.

(** X16.  [formatMatchingText] looks for the instance asked for, the first
    when none is given.  When it is not found the call fails with [Could
    not find instance] and the world is unchanged; when it is found and
    the builder returns a request, one batch made of that single request
    is submitted. *)
Theorem formatMatchingText_paths (args : FormatMatchingTextArgs) (w : World) :
  let matchInstance :=
    match fmt_matchInstance args with Some n => n | None => 1 end in
  (findTextRange (remote w) (fmt_documentId args) (fmt_textToFind args)
     (Some matchInstance) = inr None ->
   formatMatchingText args w
   = (inl (UserError ("Could not find instance " ++ JS.num matchInstance
                      ++ " of text " ++ dq ++ fmt_textToFind args ++ dq
                      ++ ".")), w))
  /\ (forall (r : FoundRange) (info : RequestInfo),
         findTextRange (remote w) (fmt_documentId args) (fmt_textToFind args)
           (Some matchInstance) = inr (Some r) ->
         buildUpdateTextStyleRequest (found_startIndex r) (found_endIndex r)
           (styleParams_of (fmt_style args)) = inr (Some info) ->
         snd (formatMatchingText args w)
         = submitted w (fmt_documentId args) [request info]
         /\ (accepted w (fmt_documentId args) [request info] ->
             fst (formatMatchingText args w)
             = inr ("Successfully applied formatting to instance "
                    ++ JS.num matchInstance ++ " of " ++ dq
                    ++ fmt_textToFind args ++ dq ++ "."))).
Proof.
  intros matchInstance. split.
  - intros Hf. unfold formatMatchingText. fold matchInstance. run_handler.
    rewrite Hf. reflexivity.
  - intros r info Hf Hb. unfold formatMatchingText. fold matchInstance.
    assert (H1 : call_findTextRange (fmt_documentId args)
                   (fmt_textToFind args) (Some matchInstance) w
                 = (inr (Some r), w))
      by (unfold call_findTextRange; now rewrite Hf).
    rewrite (try_bind_step _ _ _ w (Some r) w H1).
    assert (Hl : lift (buildUpdateTextStyleRequest (found_startIndex r)
                         (found_endIndex r)
                         (styleParams_of (fmt_style args))) w
                 = (inr (Some info), w))
      by (unfold lift; now rewrite Hb).
    rewrite (try_bind_step _ _ _ w (Some info) w Hl).
    apply batch_then_message. intros [m | m | e'] w'; reflexivity.
Qed.

End EditingTools.

(* ================================================================== *)
(** ** The quoted text of [addComment] *)
(* ================================================================== *)

Lemma slice_agree (x y x' y' : Z) (s : string) :
  (forall i, 0 <= i < Z.of_nat (String.length s) ->
             (x <= i < y <-> x' <= i < y')) ->
  slice x y s = slice x' y' s.
Proof.
  revert x y x' y'. induction s as [|c r IH]; intros x y x' y' H;
    [reflexivity|].
  cbn [slice]. cbn [String.length] in H.
  assert (Hr : slice (x - 1) (y - 1) r = slice (x' - 1) (y' - 1) r).
  { apply IH. intros i Hi. specialize (H (i + 1)). lia. }
  rewrite Hr. specialize (H 0).
  destruct (Z.leb_spec x 0), (Z.ltb_spec 0 y), (Z.leb_spec x' 0),
    (Z.ltb_spec 0 y'); cbn [andb]; try reflexivity; lia.
Qed.

Lemma slice_nothing (x y : Z) (s : string) :
  (forall i, 0 <= i < Z.of_nat (String.length s) -> ~ (x <= i < y)) ->
  slice x y s = "".
Proof.
  revert x y. induction s as [|c r IH]; intros x y H; [reflexivity|].
  cbn [slice]. cbn [String.length] in H.
  rewrite IH by (intros i Hi; specialize (H (i + 1)); lia).
  specialize (H 0).
  destruct (Z.leb_spec x 0), (Z.ltb_spec 0 y); cbn [andb];
    try reflexivity; lia.
Qed.

Lemma slice_app (x y : Z) (t r : string) :
  slice x y (t ++ r)
  = slice x y t
    ++ slice (x - Z.of_nat (String.length t)) (y - Z.of_nat (String.length t)) r.
Proof.
  revert x y. induction t as [|c t IH]; intros x y.
  - cbn. f_equal; lia.
  - cbn [append slice String.length]. rewrite IH.
    replace (x - 1 - Z.of_nat (String.length t))
      with (x - Z.of_nat (S (String.length t))) by lia.
    replace (y - 1 - Z.of_nat (String.length t))
      with (y - Z.of_nat (S (String.length t))) by lia.
    destruct ((x <=? 0) && (0 <? y))%bool; reflexivity.
Qed.

Lemma slice_length (x y : Z) (s : string) :
  0 <= x -> x <= y -> y <= Z.of_nat (String.length s) ->
  Z.of_nat (String.length (slice x y s)) = y - x.
Proof.
  revert x y. induction s as [|c r IH]; intros x y Hx Hxy Hy.
  - cbn in *. lia.
  - cbn [slice]. cbn [String.length] in Hy.
    destruct (Z.leb_spec x 0), (Z.ltb_spec 0 y); cbn [andb String.length].
    + rewrite (slice_agree (x - 1) (y - 1) 0 (y - 1)) by (intros; lia).
      rewrite Nat2Z.inj_succ, IH; lia.
    + rewrite slice_nothing by (intros; lia). cbn. lia.
    + rewrite IH; lia.
    + lia.
Qed.

Lemma substring_slice (n m : nat) (s : string) :
  String.substring n m s = slice (Z.of_nat n) (Z.of_nat (n + m)) s.
Proof.
  revert n m. induction s as [|c r IH]; intros n m.
  - destruct n, m; reflexivity.
  - destruct n as [|n].
    + destruct m as [|m].
      * cbn [String.substring]. symmetry. apply slice_nothing. intros; lia.
      * cbn [String.substring slice]. rewrite IH.
        change (Z.of_nat 0 <=? 0) with true.
        destruct (Z.ltb_spec 0 (Z.of_nat (0 + S m))); [|lia].
        cbn [andb]. f_equal. apply slice_agree. intros; lia.
    + cbn [String.substring slice]. rewrite IH.
      destruct (Z.leb_spec (Z.of_nat (S n)) 0); [lia|]. cbn [andb].
      f_equal; lia.
Qed.

Lemma js_substring_slice (a b : Z) (s : string) :
  a <= b -> js_substring a b s = slice a b s.
Proof.
  intros Hab. unfold js_substring.
  set (len := Z.of_nat (String.length s)).
  assert (Hlen : 0 <= len) by (subst len; lia).
  rewrite substring_slice. apply slice_agree. fold len. intros i Hi. lia.
Qed.

Lemma quote_element_slice (a b from : Z) (acc : string)
  (x : IndexedElement) :
  a <= b ->
  (exists run, ie_textRun x = Some run) ->
  or_zero (ie_startIndex x) = from ->
  or_zero (ie_endIndex x) = from + Z.of_nat (String.length (element_text x)) ->
  quote_element a b acc x = acc ++ slice (a - from) (b - from) (element_text x).
Proof.
  intros Hab [run Hrun] Hs He. unfold quote_element, element_text in *.
  rewrite Hrun in *. cbn zeta. rewrite Hs, He.
  change (JS.or_else (tr_content run) "") with (run_text (tr_content run)).
  set (t := run_text (tr_content run)) in *.
  destruct (Z.gtb_spec (from + Z.of_nat (String.length t)) a);
    destruct (Z.ltb_spec from b); cbn [andb].
  - f_equal. rewrite js_substring_slice by lia.
    apply slice_agree. intros i Hi. lia.
  - rewrite slice_nothing by (intros; lia). now rewrite sapp_empty_r.
  - rewrite slice_nothing by (intros; lia). now rewrite sapp_empty_r.
  - rewrite slice_nothing by (intros; lia). now rewrite sapp_empty_r.
Qed.

Lemma quote_elements_slice (a b : Z) (l : list IndexedElement) :
  a <= b ->
  forall (from : Z) (acc : string),
    consecutive_runs from l ->
    fold_left (quote_element a b) l acc
    = acc ++ slice (a - from) (b - from) (elements_text l).
Proof.
  intros Hab. induction l as [|x l IH]; intros from acc Hc.
  - cbn. now rewrite sapp_empty_r.
  - destruct Hc as [Hrun [Hs [He Hrest]]]. cbn [fold_left].
    rewrite (quote_element_slice a b from acc x Hab Hrun Hs He).
    rewrite (IH _ _ Hrest). unfold elements_text. cbn [List.map].
    rewrite concat_cons, slice_app, sapp_assoc. do 3 f_equal; lia.
Qed.

Lemma fold_left_flat_map {A B S : Type} (f : S -> B -> S) (g : A -> list B)
  (l : list A) (acc : S) :
  fold_left (fun acc x => fold_left f (g x) acc) l acc
  = fold_left f (List.flat_map g l) acc.
Proof.
  revert acc. induction l as [|x l IH]; intros acc; [reflexivity|].
  cbn [fold_left List.flat_map]. now rewrite List.fold_left_app, IH.
Qed.

Lemma quoted_text_flat (content : list IndexedStructuralElement) (a b : Z) :
  quoted_text (Some content) a b
  = fold_left (quote_element a b) (paragraph_elements content) "".
Proof.
  unfold quoted_text, paragraph_elements. cbn [opt_list].
  rewrite <- fold_left_flat_map.
  generalize "" as acc. induction content as [|e content IH]; intros acc;
    [reflexivity|].
  cbn [fold_left]. rewrite IH. destruct (is_paragraph e); reflexivity.
Qed.

(** X17.  When the paragraph elements of the body are text runs that
    follow one another from index [from], each as long as its text, the
    text [addComment] quotes for the range [startIndex .. endIndex) with
    [startIndex <= endIndex] is exactly that range of the document's
    text: [substring(startIndex - from, endIndex - from)] of the
    concatenated runs.  If the range lies within the runs the quoted text
    has [endIndex - startIndex] characters; a body without content
    quotes nothing. *)
Theorem quoted_text_is_the_range
  (content : list IndexedStructuralElement) (from a b : Z) :
  consecutive_runs from (paragraph_elements content) ->
  a <= b ->
  let whole := elements_text (paragraph_elements content) in
  quoted_text (Some content) a b = js_substring (a - from) (b - from) whole
  /\ (from <= a -> b <= from + Z.of_nat (String.length whole) ->
      Z.of_nat (String.length (quoted_text (Some content) a b)) = b - a)
  /\ quoted_text None a b = "".
Proof.
  intros Hc Hab whole.
  assert (Hq : quoted_text (Some content) a b
               = slice (a - from) (b - from) whole).
  { rewrite quoted_text_flat.
    now rewrite (quote_elements_slice a b _ Hab from "" Hc). }
  split; [|split].
  - rewrite js_substring_slice by lia. exact Hq.
  - intros Ha Hb. rewrite Hq, slice_length; lia.
  - reflexivity.
Qed.

(** X17 at the range [5 .. 9) of [Hello world!]. *)
Lemma quoted_text_is_the_range_witness :
  quoted_text (Some CommentSamples.two_paragraphs) 5 9 = "o wo".
Proof.
  rewrite (proj1 (quoted_text_is_the_range CommentSamples.two_paragraphs
                    1 5 9
                    ltac:(cbn; repeat split; eexists; reflexivity)
                    ltac:(lia))).
  reflexivity.
Defined.

(* ================================================================== *)
(** ** The markdown of a whole body, and the schema of
       [formatMatchingText] *)
(* ================================================================== *)

(** X18.  The markdown of a body is the markdown of its elements, in
    order, concatenated and then trimmed.  A body without content gives
    the message [Document appears to be empty.], and a body whose
    content is an empty list gives the empty string. *)
Theorem markdown_of_body_composes :
  (forall (els : list StructuralElement) (texts : list string),
      Forall2 (fun e t => element_markdown e = inr t) els texts ->
      convertDocsJsonToMarkdown (Some (mkBody (Some els)))
      = inr (JS.trim (String.concat "" texts)))
  /\ (forall b : option Body,
         body_content b = None ->
         convertDocsJsonToMarkdown b = inr "Document appears to be empty.")
  /\ convertDocsJsonToMarkdown (Some (mkBody (Some []))) = inr "".
Proof.
  split; [|split].
  - intros els texts H. unfold convertDocsJsonToMarkdown.
    cbn [body_content content].
    now rewrite (forEach_appendM_all element_markdown els texts "" H).
  - intros b H. unfold convertDocsJsonToMarkdown. now rewrite H.
  - reflexivity.
Qed.

(** X18 at a body with a heading, a section break and a table. *)
Lemma markdown_of_body_composes_witness :
  convertDocsJsonToMarkdown (Some (mkBody (Some sample_body_elements)))
  = inr ("### Plan" ++ JS.nl ++ JS.nl ++ JS.nl ++ "---" ++ JS.nl ++ JS.nl
         ++ JS.nl ++ "| a | b |" ++ JS.nl ++ "| --- | --- |" ++ JS.nl
         ++ "| c | d |").
Proof.
  rewrite (proj1 markdown_of_body_composes sample_body_elements
             ["### Plan" ++ JS.nl ++ JS.nl;
              JS.nl ++ "---" ++ JS.nl ++ JS.nl;
              JS.nl ++ "| a | b |" ++ JS.nl ++ "| --- | --- |" ++ JS.nl
              ++ "| c | d |" ++ JS.nl ++ JS.nl]).
  - reflexivity.
  - repeat constructor.
Defined.


Section SchemaProperties.

Context {C : Collaborators}.


End SchemaProperties.

(* ================================================================== *)
(** ** The further properties at sample calls *)
(* ================================================================== *)

(** X4 at a document the service does not have, at an error with a code
    and a message of its own, and at one whose API response has both. *)
Lemma readGoogleDoc_fetch_failure_witness :
  readGoogleDoc (C := Demo.collaborators) MoreCalls.read_missing Demo.world
  = (inl (UserError "Doc not found (ID: missing)."), Demo.world)
  /\ readGoogleDoc (C := Outage.collaborators) MoreCalls.read_missing
       (Outage.world Outage.backend_error)
     = (inl (UserError "Failed to read doc: Backend Error (Code: 503)"),
        Outage.world Outage.backend_error)
  /\ readGoogleDoc (C := Outage.collaborators) MoreCalls.read_missing
       (Outage.world Outage.quota_error)
     = (inl (UserError "Failed to read doc: Quota exceeded (Code: 429)"),
        Outage.world Outage.quota_error)
  /\ readGoogleDoc (C := Outage.collaborators) MoreCalls.read_missing
       (Outage.world Outage.rate_error)
     = (inl (UserError "Failed to read doc: rate"),
        Outage.world Outage.rate_error).
Proof.
  split; [|split; [|split]].
  - apply (proj1 (readGoogleDoc_fetch_failure (C := Demo.collaborators)
                    MoreCalls.read_missing Demo.world
                    (mkJsError (Some 404) "Requested entity was not found."
                       None None) eq_refl)).
    reflexivity.
  - apply (proj2 (proj2 (readGoogleDoc_fetch_failure
                           (C := Outage.collaborators) MoreCalls.read_missing
                           (Outage.world Outage.backend_error)
                           Outage.backend_error eq_refl))
             "Backend Error" (Some 503)).
    + discriminate.
    + discriminate.
    + apply (details_of_error Outage.backend_error);
        [left; reflexivity | discriminate].
    + apply (code_of_error Outage.backend_error 503);
        [left; reflexivity | reflexivity | discriminate].
  - apply (proj2 (proj2 (readGoogleDoc_fetch_failure
                           (C := Outage.collaborators) MoreCalls.read_missing
                           (Outage.world Outage.quota_error)
                           Outage.quota_error eq_refl))
             "Quota exceeded" (Some 429)).
    + discriminate.
    + discriminate.
    + apply (details_of_response Outage.quota_error);
        [reflexivity | discriminate].
    + apply (code_of_response Outage.quota_error 429);
        [reflexivity | discriminate].
  - apply (proj2 (proj2 (readGoogleDoc_fetch_failure
                           (C := Outage.collaborators) MoreCalls.read_missing
                           (Outage.world Outage.rate_error)
                           Outage.rate_error eq_refl))
             "rate" None).
    + discriminate.
    + discriminate.
    + apply (details_of_error Outage.rate_error);
        [left; reflexivity | discriminate].
    + apply (code_missing Outage.rate_error); left; reflexivity.
Defined.

(** The schema does not ask [maxLength] to be whole or positive.  At
    [1.5] the markdown of [Hello] keeps one character and the marker
    reports [1.5]; at [-1] it keeps none. *)
Lemma limits_that_are_not_validated :
  readGoogleDoc (C := Demo.collaborators)
    (Sample.read_markdown "legacy" (Some MoreCalls.one_and_a_half)) Demo.world
  = (inr ("H" ++ JS.nl ++ JS.nl
          ++ "... [Markdown truncated to 1.5 chars of 5 total. Use maxLength parameter to adjust limit or remove it to get full content.]"),
     Demo.world)
  /\ readGoogleDoc (C := Demo.collaborators)
       (Sample.read_text "legacy" (Some MoreCalls.one_and_a_half)) Demo.world
     = (inr ("Content (truncated to 1.5 chars of 6 total):" ++ JS.nl ++ "---"
             ++ JS.nl ++ "H" ++ JS.nl ++ JS.nl
             ++ "... [Document continues for 4.5 more characters. Use maxLength parameter to adjust limit or remove it to get full content.]"),
        Demo.world)
  /\ readGoogleDoc (C := Demo.collaborators)
       (Sample.read_markdown "legacy" (Some (JS.Whole (-1)))) Demo.world
     = (inr (JS.nl ++ JS.nl
             ++ "... [Markdown truncated to -1 chars of 5 total. Use maxLength parameter to adjust limit or remove it to get full content.]"),
        Demo.world).
Proof. repeat split; reflexivity. Qed.

(** X5 at a limit of one character, at a limit of [1.5] and without a
    limit. *)
Lemma readGoogleDoc_json_witness :
  readGoogleDoc (C := Demo.collaborators)
    (MoreCalls.read_json (Some (JS.Whole 1))) Demo.world
  = (inr ("{" ++ JS.nl ++ "... [JSON truncated: 2 total chars]"), Demo.world)
  /\ readGoogleDoc (C := Demo.collaborators)
       (MoreCalls.read_json (Some MoreCalls.one_and_a_half)) Demo.world
     = (inr ("{" ++ JS.nl ++ "... [JSON truncated: 2 total chars]"),
        Demo.world)
  /\ readGoogleDoc (C := Demo.collaborators) (MoreCalls.read_json None)
       Demo.world
     = (inr "{}", Demo.world).
Proof.
  split; [|split].
  - apply (proj1 (readGoogleDoc_json (C := Demo.collaborators)
                    (MoreCalls.read_json (Some (JS.Whole 1))) Demo.world
                    Demo.legacy_doc (FromDocument Demo.legacy_doc)
                    eq_refl eq_refl (source_legacy Demo.legacy_doc)) 1).
    exists (JS.Whole 1). split; [reflexivity|].
    constructor; [discriminate | reflexivity].
  - apply (proj1 (readGoogleDoc_json (C := Demo.collaborators)
                    (MoreCalls.read_json (Some MoreCalls.one_and_a_half))
                    Demo.world Demo.legacy_doc (FromDocument Demo.legacy_doc)
                    eq_refl eq_refl (source_legacy Demo.legacy_doc)) 1).
    exists MoreCalls.one_and_a_half. split; [reflexivity|].
    constructor. reflexivity.
  - apply (proj2 (readGoogleDoc_json (C := Demo.collaborators)
                    (MoreCalls.read_json None) Demo.world Demo.legacy_doc
                    (FromDocument Demo.legacy_doc) eq_refl eq_refl
                    (source_legacy Demo.legacy_doc))).
    left. reflexivity.
Defined.

(** X6 at the document without tabs. *)
Lemma markdown_has_no_outer_space_witness :
  convertDocsJsonToMarkdown (body Demo.legacy_doc) = inr "Hello"
  /\ JS.trim "Hello" = "Hello".
Proof.
  split; [reflexivity|].
  exact (markdown_has_no_outer_space (body Demo.legacy_doc) "Hello" eq_refl).
Defined.

(** X9 at a bold, underlined, linked run and at a plain run. *)
Lemma run_markdown_keeps_text_witness :
  occurs_in "docs" (convertTextRunToMarkdown MoreCalls.linked_bold_run)
  /\ convertTextRunToMarkdown (mkTextRun (Some "docs") None) = "docs".
Proof.
  split.
  - exact (proj1 (run_markdown_keeps_text MoreCalls.linked_bold_run)).
  - exact (proj2 (run_markdown_keeps_text (mkTextRun (Some "docs") None))
             eq_refl).
Defined.

(** X10 at a tab whose body has no element, and at a document whose
    second and last element has no [endIndex]. *)
Lemma append_to_empty_document_witness :
  (snd (appendToGoogleDoc (C := Demo.collaborators)
          MoreCalls.append_to_child_tab Demo.world)
   = submitted (C := Demo.collaborators) Demo.world "tabbed"
       [insertText_request (mkLocation 1 (Some "t.2")) "First line"]
   /\ fst (appendToGoogleDoc (C := Demo.collaborators)
             MoreCalls.append_to_child_tab Demo.world)
      = inr "Successfully appended text to tab t.2 in document tabbed.")
  /\ snd (appendToGoogleDoc (C := Demo.collaborators)
            MoreCalls.append_to_open_ended Demo.world)
     = submitted (C := Demo.collaborators) Demo.world "open"
         [insertText_request (mkLocation 1 None) "More"].
Proof.
  split.
  - destruct (append_to_empty_document (C := Demo.collaborators)
                MoreCalls.append_to_child_tab Demo.world Demo.tabbed_doc
                (Some []) eq_refl
                (resolves_tab Demo.tabbed_doc "t.2" _
                   (mkDocumentTab (Some (mkBody (Some [])))) eq_refl eq_refl)
                (or_intror (or_introl eq_refl))
                ltac:(discriminate)) as [Hworld Hresult].
    split; [exact Hworld | exact (Hresult eq_refl)].
  - apply (proj1 (append_to_empty_document (C := Demo.collaborators)
                    MoreCalls.append_to_open_ended Demo.world
                    Demo.open_ended_doc _ eq_refl
                    (resolves_legacy Demo.open_ended_doc)
                    (or_intror (or_intror
                       (ex_intro _
                          [para_element 1 7
                             (plain_paragraph ("Hello" ++ JS.nl))]
                          (ex_intro _
                             (mkStructuralElement (Some 7) None None None
                                (Some tt))
                             (conj eq_refl (or_introl eq_refl))))))
                    ltac:(discriminate))).
Defined.

(** X11 at a document of two paragraphs that ends at index 13. *)
Lemma append_without_newline_witness :
  snd (appendToGoogleDoc (C := Demo.collaborators) MoreCalls.append_raw
         Demo.world)
  = submitted (C := Demo.collaborators) Demo.world "report"
      [insertText_request (mkLocation 12 None) "More"].
Proof.
  exact (proj1 (append_without_newline (C := Demo.collaborators)
                  MoreCalls.append_raw Demo.world Demo.report_doc
                  [para_element 1 7 (plain_paragraph ("Hello" ++ JS.nl))]
                  (para_element 7 13 (plain_paragraph ("World" ++ JS.nl))) 13
                  eq_refl eq_refl (resolves_legacy Demo.report_doc)
                  eq_refl ltac:(discriminate) ltac:(discriminate))).
Defined.

(** X12 at an insertion in a tab, at one without a tab, and at one
    whose helper fails with the message [rate]. *)
Lemma insertText_paths_witness :
  snd (insertText (C := Demo.collaborators) MoreCalls.insert_in_tab Demo.world)
  = submitted (C := Demo.collaborators) Demo.world "tabbed"
      [insertText_request (mkLocation 3 (Some "t.0")) "Hi"]
  /\ snd (insertText (C := Demo.collaborators) MoreCalls.insert_legacy
            Demo.world)
     = legacy_inserted (C := Demo.collaborators) Demo.world "legacy" "Hi" 3
  /\ fst (insertText (C := Demo.collaborators) MoreCalls.insert_legacy
            Demo.world)
     = inr "Successfully inserted text at index 3."
  /\ fst (insertText (C := Outage.collaborators) MoreCalls.insert_legacy
            (Outage.world Outage.rate_error))
     = inl (UserError "Failed to insert text: rate").
Proof.
  split; [|split; [|split]].
  - apply (proj1 (proj1 (insertText_paths (C := Demo.collaborators)
                           MoreCalls.insert_in_tab Demo.world)
                    "t.0" Demo.tabbed_doc eq_refl eq_refl
                    ltac:(eexists; eexists; split; reflexivity))).
  - apply (proj1 (proj2 (insertText_paths (C := Demo.collaborators)
                           MoreCalls.insert_legacy Demo.world) eq_refl)).
  - apply (proj1 (proj2 (proj2 (insertText_paths (C := Demo.collaborators)
                                  MoreCalls.insert_legacy Demo.world)
                           eq_refl))).
    reflexivity.
  - apply (proj1 (proj2 (proj2 (proj2 (proj2
             (insertText_paths (C := Outage.collaborators)
                MoreCalls.insert_legacy (Outage.world Outage.rate_error))
             eq_refl))))
             (Thrown Outage.rate_error) "rate" eq_refl).
    apply (thrown_message Outage.rate_error). discriminate.
Defined.

(** X13 at the range [2 .. 5). *)
Lemma deleteRange_submits_the_range_witness :
  snd (deleteRange_tool (C := Demo.collaborators) MoreCalls.delete_2_5
         Demo.world)
  = submitted (C := Demo.collaborators) Demo.world "legacy"
      [deleteContentRange (mkRange 2 5 None)]
  /\ fst (deleteRange_tool (C := Demo.collaborators) MoreCalls.delete_2_5
            Demo.world)
     = Executed (inr "Successfully deleted content in range 2-5.").
Proof.
  destruct (proj2 (deleteRange_submits_the_range (C := Demo.collaborators)
                     MoreCalls.delete_2_5 Demo.world)
              Demo.legacy_doc eq_refl
              ltac:(intros t H; discriminate H) I) as [Hworld Hresult].
  split; [exact Hworld | exact (Hresult eq_refl)].
Defined.

(** X14 at a text that is not found and at a text that is. *)
Lemma applyTextStyle_paths_witness :
  applyTextStyle (C := Demo.collaborators) MoreCalls.style_missing_text
    Demo.world
  = (inl (UserError ("Could not find instance 2 of text " ++ dq ++ "Nope"
                     ++ dq ++ ".")), Demo.world)
  /\ snd (applyTextStyle (C := Demo.collaborators) MoreCalls.style_hello_bold
            Demo.world)
     = submitted (C := Demo.collaborators) Demo.world "legacy"
         [MoreCalls.bold_request 1 6].
Proof.
  split.
  - apply (proj1 (applyTextStyle_paths (C := Demo.collaborators)
                    MoreCalls.style_missing_text Demo.world)
             "Nope" (Some 2)); reflexivity.
  - apply (proj1 (proj2 (applyTextStyle_paths (C := Demo.collaborators)
                           MoreCalls.style_hello_bold Demo.world)
                    1 6 (mkRequestInfo (MoreCalls.bold_request 1 6) ["bold"])
                    eq_refl ltac:(lia) eq_refl)).
Defined.

(** X15 at an index outside every paragraph and at a text that is found. *)
Lemma applyParagraphStyle_paths_witness :
  applyParagraphStyle (C := Demo.collaborators) MoreCalls.center_index_9
    Demo.world
  = (inl (UserError "Could not find paragraph containing index 9."),
     Demo.world)
  /\ snd (applyParagraphStyle (C := Demo.collaborators) MoreCalls.center_hello
            Demo.world)
     = submitted (C := Demo.collaborators) Demo.world "legacy"
         [MoreCalls.center_request 1 7].
Proof.
  destruct (applyParagraphStyle_paths (C := Demo.collaborators)
              MoreCalls.center_index_9 Demo.world) as [_ [_ [Hindex _]]].
  destruct (applyParagraphStyle_paths (C := Demo.collaborators)
              MoreCalls.center_hello Demo.world) as [_ [_ [_ [Hrange _]]]].
  split.
  - apply (Hindex 9); reflexivity.
  - apply (proj1 (proj2 (Hrange 1 7 eq_refl ltac:(lia))
                    (mkRequestInfo (MoreCalls.center_request 1 7)
                       ["alignment"]) eq_refl)).
Defined.

(** X16 at a text that is not found and at a text that is. *)
Lemma formatMatchingText_paths_witness :
  formatMatchingText (C := Demo.collaborators) MoreCalls.format_missing_text
    Demo.world
  = (inl (UserError ("Could not find instance 1 of text " ++ dq ++ "Nope"
                     ++ dq ++ ".")), Demo.world)
  /\ snd (formatMatchingText (C := Demo.collaborators)
            MoreCalls.format_hello_bold Demo.world)
     = submitted (C := Demo.collaborators) Demo.world "legacy"
         [MoreCalls.bold_request 1 6].
Proof.
  split.
  - apply (proj1 (formatMatchingText_paths (C := Demo.collaborators)
                    MoreCalls.format_missing_text Demo.world)).
    reflexivity.
  - apply (proj1 (proj2 (formatMatchingText_paths (C := Demo.collaborators)
                           MoreCalls.format_hello_bold Demo.world)
                    (mkFoundRange 1 6)
                    (mkRequestInfo (MoreCalls.bold_request 1 6) ["bold"])
                    eq_refl eq_refl)).
Defined.

